(** * mcp-atlassian: the authenticated request pipeline and the tool envelopes

    A shallow embedding of [src/atlassian] (configuration, base client,
    Jira and Confluence clients, Jira and Confluence tools) and the
    properties of the specification checked against it.

    Python values are modelled as follows.
    - [str] is [string]; [Optional[str]] is [option string]; truthiness of
      either is [truthy] (a value that is neither [None] nor empty).
    - [int] is [Z]; a JSON document is a [json] tree whose objects are
      association lists in insertion order.
    - An exception is a value of [exn]; a method that may raise, send
      requests or log runs in the monad [M], which keeps the requests sent
      and the lines logged also when an exception is raised.
    - [requests.Session.request], [json.dumps] and [os.environ] belong to
      the libraries and to the process: they are parameters of the model. *)

From Stdlib Require Import String Ascii List ZArith Bool Lia PrimFloat.
From Stdlib Require Import DecimalString.
Import ListNotations.
Local Open Scope string_scope.
Local Open Scope Z_scope.

Set Implicit Arguments.

(* ================================================================== *)
(** ** Python strings *)

Module PyStr.

(** [bool(s)] for a [str]. *)
Definition truthy_str (s : string) : bool :=
  match s with EmptyString => false | String _ _ => true end.

(** [bool(s)] for an [Optional[str]]. *)
Definition truthy (o : option string) : bool :=
  match o with None => false | Some s => truthy_str s end.

(** [a or b] on [Optional[str]]. *)
Definition py_or (a b : option string) : option string :=
  if truthy a then a else b.

Definition slash : ascii := "/"%char.
Definition comma : ascii := ","%char.

(** [s.lstrip('/')]: every leading slash goes. *)
Fixpoint lstrip_slash (s : string) : string :=
  match s with
  | String c r => if Ascii.eqb c slash then lstrip_slash r else s
  | EmptyString => EmptyString
  end.

(** [s.rstrip('/')]: every trailing slash goes. *)
Fixpoint rstrip_slash (s : string) : string :=
  match s with
  | String c r =>
      let r' := rstrip_slash r in
      if Ascii.eqb c slash && negb (truthy_str r') then EmptyString
      else String c r'
  | EmptyString => EmptyString
  end.

(** [needle in hay]. *)
Fixpoint py_in (needle hay : string) : bool :=
  String.prefix needle hay
  || match hay with
     | String _ r => py_in needle r
     | EmptyString => false
     end.

(** [s.split(sep)] for a one-character separator: one more piece than
    there are separators. *)
Fixpoint split (sep : ascii) (s : string) : list string :=
  match s with
  | EmptyString => [EmptyString]
  | String c r =>
      if Ascii.eqb c sep then EmptyString :: split sep r
      else match split sep r with
           | h :: t => String c h :: t
           | [] => [String c EmptyString]
           end
  end.

(** [sep.join(l)]. *)
Fixpoint join (sep : string) (l : list string) : string :=
  match l with
  | [] => EmptyString
  | [x] => x
  | x :: r => x ++ sep ++ join sep r
  end.

(** [n] slashes. *)
Fixpoint slashes (n : nat) : string :=
  match n with O => EmptyString | S k => String slash (slashes k) end.

(** The last character of a string is a slash. *)
Fixpoint ends_with_slash (s : string) : bool :=
  match s with
  | EmptyString => false
  | String c EmptyString => Ascii.eqb c slash
  | String _ r => ends_with_slash r
  end.

Definition starts_with_slash (s : string) : bool :=
  match s with
  | String c _ => Ascii.eqb c slash
  | EmptyString => false
  end.

(** The double quote character, as a string. *)
Definition dq : string := String (ascii_of_nat 34) EmptyString.

(** [str(n)] for an [int]. *)
Definition str_of_Z (n : Z) : string := NilZero.string_of_int (Z.to_int n).

End PyStr.
Import PyStr.

(* ================================================================== *)
(** ** auth/config.py *)

(** [JiraConfig] and [ConfluenceConfig] are two dataclasses with the same
    fields and the same two methods; they differ in the name of the last
    field ([projects_filter], [spaces_filter]) and in the environment keys
    read by [from_env]. One record serves both. *)
Record Config := mkConfig {
  url : string;
  username : option string;
  password : option string;
  token : option string;
  cloud_id : option string;
  oauth_token : option string;
  items_filter : option string
}.

Definition is_auth_configured (self : Config) : bool :=
  truthy_str (url self)
  && ((truthy (username self) && truthy (password self))
      || (truthy (username self) && truthy (token self))
      || truthy (oauth_token self)).

Definition is_cloud (self : Config) : bool :=
  if truthy_str (url self) then py_in "atlassian.net" (url self) else false.

Section Environment.
(** [os.environ.get]. *)
Variable environ : string -> option string.

Definition environ_get_default (k d : string) : string :=
  match environ k with Some v => v | None => d end.

Definition JiraConfig_from_env : Config :=
  {| url := environ_get_default "JIRA_URL" EmptyString;
     username := environ "ATLASSIAN_USERNAME";
     password := environ "ATLASSIAN_PASSWORD";
     token := environ "ATLASSIAN_API_TOKEN";
     cloud_id := environ "ATLASSIAN_CLOUD_ID";
     oauth_token := environ "ATLASSIAN_OAUTH_TOKEN";
     items_filter := environ "JIRA_PROJECTS_FILTER" |}.

Definition ConfluenceConfig_from_env : Config :=
  {| url := environ_get_default "CONFLUENCE_URL" EmptyString;
     username := environ "ATLASSIAN_USERNAME";
     password := environ "ATLASSIAN_PASSWORD";
     token := environ "ATLASSIAN_API_TOKEN";
     cloud_id := environ "ATLASSIAN_CLOUD_ID";
     oauth_token := environ "CONFLUENCE_OAUTH_TOKEN";
     items_filter := environ "CONFLUENCE_SPACES_FILTER" |}.
End Environment.

(* ================================================================== *)
(** ** Python values that travel as JSON *)

#[warnings="-register-all"]
Inductive json : Type :=
| JNull
| JBool (b : bool)
| JNum (n : Z)
| JFloat (f : float)
| JStr (s : string)
| JList (l : list json)
| JObj (d : list (string * json)).

Module PyDict.

(** [d[k] = v] on a mapping kept in insertion order. *)
Fixpoint assoc_set {V : Type} (k : string) (v : V) (d : list (string * V))
  : list (string * V) :=
  match d with
  | [] => [(k, v)]
  | (k', v') :: r =>
      if String.eqb k k' then (k', v) :: r else (k', v') :: assoc_set k v r
  end.

Fixpoint assoc_get {V : Type} (k : string) (d : list (string * V)) : option V :=
  match d with
  | [] => None
  | (k', v) :: r => if String.eqb k k' then Some v else assoc_get k r
  end.

(** [d.update(e)]. *)
Definition assoc_update {V : Type} (e d : list (string * V)) : list (string * V) :=
  fold_left (fun acc kv => assoc_set (fst kv) (snd kv) acc) e d.

End PyDict.
Import PyDict.

Definition dict := list (string * json).

(** [type(v).__name__]. *)
Definition type_name (v : json) : string :=
  match v with
  | JNull => "NoneType"
  | JBool _ => "bool"
  | JNum _ => "int"
  | JFloat _ => "float"
  | JStr _ => "str"
  | JList _ => "list"
  | JObj _ => "dict"
  end.

(** [bool(v)]. *)
Definition json_truthy (v : json) : bool :=
  match v with
  | JNull => false
  | JBool b => b
  | JNum n => negb (n =? 0)
  | JFloat f => negb (PrimFloat.eqb f PrimFloat.zero)
  | JStr s => truthy_str s
  | JList l => match l with [] => false | _ :: _ => true end
  | JObj d => match d with [] => false | _ :: _ => true end
  end.

(** An [Optional[str]] argument as a value. *)
Definition of_opt_str (o : option string) : json :=
  match o with Some s => JStr s | None => JNull end.

(** An [Optional[str]] inside an f-string. *)
Definition fmt_opt (o : option string) : string :=
  match o with Some s => s | None => "None" end.

(* ================================================================== *)
(** ** utils/exceptions.py, and the built-in exceptions the code can meet *)

Inductive exn : Type :=
| AuthenticationError (msg : string)
| APIError (msg : string) (status_code : option Z) (response_data : option json)
| AttributeError (msg : string)
| TypeError (msg : string)
| KeyError (msg : string)
| IndexError (msg : string).

(** [str(e)]. *)
Definition str_exn (e : exn) : string :=
  match e with
  | AuthenticationError m => m
  | APIError m _ _ => m
  | AttributeError m => m
  | TypeError m => m
  | KeyError m => m
  | IndexError m => m
  end.

(** [isinstance(e, APIError)]. *)
Definition is_APIError (e : exn) : bool :=
  match e with APIError _ _ _ => true | _ => false end.

Definition is_AuthenticationError (e : exn) : bool :=
  match e with AuthenticationError _ => true | _ => false end.

(* ================================================================== *)
(** ** The HTTP session, as [requests] presents it *)

Inductive HTTPBasicAuth : Type := BasicAuth (user secret : option string).

(** [headers] holds the entries the client installs; the defaults of the
    library are left out. *)
Record Session := mkSession {
  auth : option HTTPBasicAuth;
  headers : list (string * string)
}.

Definition new_Session : Session := {| auth := None; headers := [] |}.

(** One call [session.request(method, url, **kwargs)]. *)
Record Request := mkRequest {
  via : Session;
  method : string;
  request_url : string;
  kwargs : dict
}.

(** [json_] is what [response.json()] does: the parsed body, or the
    message of the [requests.exceptions.JSONDecodeError] it raises, which
    is a [RequestException]. *)
Record Response := mkResponse {
  status_code : Z;
  reason : string;
  final_url : string;
  content : string;
  json_ : string + json
}.

(** [session.request] returns a response, or raises a
    [requests.exceptions.RequestException] that is not an [HTTPError]
    (connection refused, timeout, DNS failure). These are the two outcomes
    [_make_request] has a branch for. An exception of another class (a
    [UnicodeEncodeError] for a user name that is not latin-1, a
    [RecursionError] of [response.json()]) passes through [_make_request]
    unchanged and is not an outcome here: what is proved below of the
    errors of [_make_request] is proved of these two outcomes. *)
Inductive Outcome : Type :=
| ConnectionFailed (msg : string)
| Answered (r : Response).

(** [response.raise_for_status()]: the message of the [HTTPError] raised
    for a status from 400 to 599, nothing otherwise. *)
Definition raise_for_status (r : Response) : option string :=
  if (400 <=? status_code r) && (status_code r <? 500) then
    Some (str_of_Z (status_code r) ++ " Client Error: " ++ reason r
          ++ " for url: " ++ final_url r)
  else if (500 <=? status_code r) && (status_code r <? 600) then
    Some (str_of_Z (status_code r) ++ " Server Error: " ++ reason r
          ++ " for url: " ++ final_url r)
  else None.

(* ================================================================== *)
(** ** The process: the two tool singletons, the wire and the log *)

Record Client := mkClient {
  config : Config;
  session : Session;
  api_base : string
}.

Record process := mkProcess {
  jira_client : option Client;        (* jira_tools._client *)
  confluence_client : option Client;  (* confluence_tools._client *)
  sent : list Request;
  logged : list string
}.

Definition M (A : Type) : Type := process -> (exn + A) * process.

Definition ret {A} (a : A) : M A := fun st => (inr a, st).

Definition bind {A B} (c : M A) (k : A -> M B) : M B :=
  fun st =>
    match c st with
    | (inr a, st') => k a st'
    | (inl e, st') => (inl e, st')
    end.

Definition raise {A} (e : exn) : M A := fun st => (inl e, st).

(** [try: body  except Exception as e: handler(e)]. Every [exn] is an
    [Exception]. *)
Definition try_except {A} (body : M A) (handler : exn -> M A) : M A :=
  fun st =>
    match body st with
    | (inl e, st') => handler e st'
    | r => r
    end.

(** [try: body  except APIError: handler]. *)
Definition try_except_APIError {A} (body : M A) (handler : M A) : M A :=
  fun st =>
    match body st with
    | (inl e, st') => if is_APIError e then handler st' else (inl e, st')
    | r => r
    end.

Definition lift {A} (r : exn + A) : M A := fun st => (r, st).

(** [logger.error(line)]. *)
Definition logger_error (line : string) : M unit :=
  fun st =>
    (inr tt, {| jira_client := jira_client st;
                confluence_client := confluence_client st;
                sent := sent st;
                logged := logged st ++ [line] |}).

Declare Scope monad_scope.
Delimit Scope monad_scope with monad.
Notation "x <- c ;; k" := (bind c (fun x => k))
  (at level 61, c at next level, right associativity) : monad_scope.
Notation "c ;;; k" := (bind c (fun _ => k))
  (at level 61, right associativity) : monad_scope.
Local Open Scope monad_scope.

(* ================================================================== *)
(** ** Python operations on values received from the server *)

Module Py.

(** [v.get(k, default)]: only a [dict] has the method. *)
Definition get (v : json) (k : string) (default : json) : M json :=
  match v with
  | JObj d => ret (match assoc_get k d with Some x => x | None => default end)
  | _ => raise (AttributeError
                  ("'" ++ type_name v ++ "' object has no attribute 'get'"))
  end.

(** The items of [for x in v]. *)
Definition iter (v : json) : M (list json) :=
  match v with
  | JList l => ret l
  | JStr s => ret (map (fun c => JStr (String c EmptyString)) (list_ascii_of_string s))
  | JObj d => ret (map (fun kv => JStr (fst kv)) d)
  | _ => raise (TypeError ("'" ++ type_name v ++ "' object is not iterable"))
  end.

(** [v[0]]. *)
Definition item0 (v : json) : M json :=
  match v with
  | JList (x :: _) => ret x
  | JList [] => raise (IndexError "list index out of range")
  | JStr (String c _) => ret (JStr (String c EmptyString))
  | JStr EmptyString => raise (IndexError "string index out of range")
  | JObj _ => raise (KeyError "0")
  | _ => raise (TypeError ("'" ++ type_name v ++ "' object is not subscriptable"))
  end.

(** [v + 1]. *)
Definition add1 (v : json) : M json :=
  match v with
  | JNum n => ret (JNum (n + 1))
  | JBool b => ret (JNum (Z.b2z b + 1))
  | JFloat f => ret (JFloat (PrimFloat.add f PrimFloat.one))
  | JStr _ =>
      raise (TypeError ("can only concatenate str (not " ++ dq ++ "int" ++ dq ++ ") to str"))
  | JList _ =>
      raise (TypeError ("can only concatenate list (not " ++ dq ++ "int" ++ dq ++ ") to list"))
  | _ => raise (TypeError ("unsupported operand type(s) for +: '"
                           ++ type_name v ++ "' and 'int'"))
  end.

(** [for x in l: acc.append(f(x))]. *)
Fixpoint for_each {A B} (f : A -> M B) (l : list A) : M (list B) :=
  match l with
  | [] => ret []
  | x :: r => y <- f x ;; ys <- for_each f r ;; ret (y :: ys)
  end.

End Py.

(* ================================================================== *)
(** ** clients/base_client.py *)

Definition json_headers : list (string * string) :=
  [("Accept", "application/json"); ("Content-Type", "application/json")].

(** [BaseAtlassianClient._setup_auth], on the session just created. *)
Definition _setup_auth (cfg : Config) (s : Session) : exn + Session :=
  if truthy (oauth_token cfg) then
    inr {| auth := auth s;
           headers := assoc_update
                        (("Authorization", "Bearer " ++ fmt_opt (oauth_token cfg))
                           :: json_headers)
                        (headers s) |}
  else if truthy (username cfg) && (truthy (password cfg) || truthy (token cfg)) then
    let password := py_or (token cfg) (password cfg) in
    inr {| auth := Some (BasicAuth (username cfg) password);
           headers := assoc_update json_headers (headers s) |}
  else inl (AuthenticationError "No valid authentication method configured").

(** [BaseAtlassianClient.__init__]: the session of the new client. *)
Definition BaseAtlassianClient_init (cfg : Config) : exn + Session :=
  _setup_auth cfg new_Session.

(** The URL [_make_request] computes. *)
Definition request_url_of (base endpoint : string) : string :=
  rstrip_slash base ++ "/" ++ lstrip_slash endpoint.

(** The wire after one more request. *)
Definition record_sent (req : Request) (st : process) : process :=
  {| jira_client := jira_client st;
     confluence_client := confluence_client st;
     sent := sent st ++ [req];
     logged := logged st |}.

Section Pipeline.

(** [requests.Session.request], seen as a function of the requests
    already sent and of the present one. *)
Variable session_request : list Request -> Request -> Outcome.

(** [json.dumps(obj, indent=..., ensure_ascii=...)]. *)
Variable json_dumps : json -> nat -> bool -> string.

(** [os.environ.get]. *)
Variable environ : string -> option string.

(** [self.session.request(method, url, **kwargs)]. *)
Definition session_call (req : Request) : M Outcome :=
  fun st => (inr (session_request (sent st) req), record_sent req st).

Definition _make_request (self : Client) (method endpoint : string)
    (kwargs : dict) : M json :=
  let url := request_url_of (url (config self)) endpoint in
  out <- session_call {| via := session self; method := method;
                         request_url := url; kwargs := kwargs |} ;;
  match out with
  | ConnectionFailed e => raise (APIError ("Network error: " ++ e) None None)
  | Answered response =>
      match raise_for_status response with
      | Some e =>
          if status_code response =? 401 then
            raise (AuthenticationError ("Authentication failed: " ++ e))
          else if status_code response =? 403 then
            raise (AuthenticationError ("Access denied: " ++ e))
          else
            let error_data :=
              match json_ response with inr v => v | inl _ => JObj [] end in
            raise (APIError ("API request failed: " ++ e)
                            (Some (status_code response)) (Some error_data))
      | None =>
          if truthy_str (content response) then
            match json_ response with
            | inr v => ret v
            | inl e => raise (APIError ("Network error: " ++ e) None None)
            end
          else ret (JObj [])
      end
  end.

(** [params], [data] and [json_data] are [Optional[Dict]]: [JNull] is
    [None]. *)
Definition get (self : Client) (endpoint : string) (params : json) : M json :=
  _make_request self "GET" endpoint [("params", params)].

Definition body_kwargs (data json_data : json) : dict :=
  let kwargs := [] in
  let kwargs := if json_truthy json_data then assoc_set "json" json_data kwargs
                else kwargs in
  let kwargs := if json_truthy data then assoc_set "data" data kwargs
                else kwargs in
  kwargs.

Definition post (self : Client) (endpoint : string) (data json_data : json)
  : M json :=
  _make_request self "POST" endpoint (body_kwargs data json_data).

Definition put (self : Client) (endpoint : string) (data json_data : json)
  : M json :=
  _make_request self "PUT" endpoint (body_kwargs data json_data).

Definition delete (self : Client) (endpoint : string) : M json :=
  _make_request self "DELETE" endpoint [].

(* ================================================================ *)
(** ** clients/jira_client.py *)

(** The Atlassian document that wraps one line of text. *)
Definition adf_doc (text : json) : json :=
  JObj [("type", JStr "doc");
        ("version", JNum 1);
        ("content",
         JList [JObj [("type", JStr "paragraph");
                      ("content",
                       JList [JObj [("type", JStr "text");
                                    ("text", text)]])]])].

Definition JiraClient_init (cfg : Config) : exn + Client :=
  match BaseAtlassianClient_init cfg with
  | inl e => inl e
  | inr s =>
      inr {| config := cfg; session := s;
             api_base := if is_cloud cfg then "rest/api/3" else "rest/api/2" |}
  end.

Definition JiraClient_get_issue (self : Client) (issue_key : string)
    (fields : option (list string)) (expand : option string) : M json :=
  let params : dict := [] in
  let params :=
    match fields with
    | Some ((_ :: _) as fs) => assoc_set "fields" (JStr (join "," fs)) params
    | _ => params
    end in
  let params :=
    if truthy expand then assoc_set "expand" (of_opt_str expand) params
    else params in
  get self (api_base self ++ "/issue/" ++ issue_key) (JObj params).

Definition JiraClient_search_issues (self : Client) (jql : string)
    (fields : option (list string)) (start_at max_results : Z) : M json :=
  let data : dict :=
    [("jql", JStr jql); ("startAt", JNum start_at);
     ("maxResults", JNum max_results)] in
  let data :=
    match fields with
    | Some ((_ :: _) as fs) => assoc_set "fields" (JList (map JStr fs)) data
    | _ => data
    end in
  post self (api_base self ++ "/search") JNull (JObj data).

Definition JiraClient_create_issue (self : Client) (project_key summary issue_type : string)
    (kwargs : dict) : M json :=
  let fields : dict :=
    [("project", JObj [("key", JStr project_key)]);
     ("summary", JStr summary);
     ("issuetype", JObj [("name", JStr issue_type)])] in
  let fields :=
    match assoc_get "description" kwargs with
    | Some d => assoc_set "description" (adf_doc d) fields
    | None => fields
    end in
  let fields :=
    match assoc_get "assignee" kwargs with
    | Some a =>
        if is_cloud (config self)
        then assoc_set "assignee" (JObj [("id", a)]) fields
        else assoc_set "assignee" (JObj [("name", a)]) fields
    | None => fields
    end in
  let data := JObj [("fields", JObj fields)] in
  post self (api_base self ++ "/issue") JNull data.

Definition JiraClient_update_issue (self : Client) (issue_key : string) (fields : json)
  : M json :=
  let data := JObj [("fields", fields)] in
  put self (api_base self ++ "/issue/" ++ issue_key) JNull data.

Definition JiraClient_delete_issue (self : Client) (issue_key : string) : M bool :=
  try_except_APIError
    (delete self (api_base self ++ "/issue/" ++ issue_key) ;;; ret true)
    (ret false).

Definition JiraClient_add_comment (self : Client) (issue_key comment : string) : M json :=
  let data := JObj [("body", adf_doc (JStr comment))] in
  post self (api_base self ++ "/issue/" ++ issue_key ++ "/comment") JNull data.

Definition JiraClient_get_transitions (self : Client) (issue_key : string) : M json :=
  result <- get self (api_base self ++ "/issue/" ++ issue_key ++ "/transitions")
                JNull ;;
  Py.get result "transitions" (JList []).

Definition JiraClient_transition_issue (self : Client) (issue_key transition_id : string)
    (fields : json) (comment : option string) : M json :=
  let data : dict := [("transition", JObj [("id", JStr transition_id)])] in
  let data := if json_truthy fields then assoc_set "fields" fields data
              else data in
  let data :=
    if truthy comment then
      assoc_set "update"
        (JObj [("comment",
                JList [JObj [("add",
                              JObj [("body", adf_doc (of_opt_str comment))])]])])
        data
    else data in
  post self (api_base self ++ "/issue/" ++ issue_key ++ "/transitions")
       JNull (JObj data).

Definition JiraClient_get_projects (self : Client) : M json :=
  result <- get self (api_base self ++ "/project") JNull ;;
  ret (match result with JList _ => result | _ => JList [] end).

Definition JiraClient_get_user (self : Client) (user_id : string) : M json :=
  if is_cloud (config self) then
    get self (api_base self ++ "/user") (JObj [("accountId", JStr user_id)])
  else
    get self (api_base self ++ "/user") (JObj [("username", JStr user_id)]).


(* ================================================================ *)
(** ** clients/confluence_client.py *)

Definition storage_body (content : string) : json :=
  JObj [("storage",
         JObj [("value", JStr content); ("representation", JStr "storage")])].

Definition ConfluenceClient_init (cfg : Config) : exn + Client :=
  match BaseAtlassianClient_init cfg with
  | inl e => inl e
  | inr s => inr {| config := cfg; session := s; api_base := "rest/api" |}
  end.

Definition ConfluenceClient_search_content (self : Client) (cql : string)
    (limit start : Z) : M json :=
  let params :=
    JObj [("cql", JStr cql); ("limit", JNum limit); ("start", JNum start);
          ("expand", JStr "version,space,body.storage")] in
  get self (api_base self ++ "/search") params.

Definition ConfluenceClient_get_page (self : Client) (page_id : string)
    (expand : option string) : M json :=
  let params : dict := [] in
  let params :=
    if truthy expand then assoc_set "expand" (of_opt_str expand) params
    else assoc_set "expand" (JStr "body.storage,version,space") params in
  get self (api_base self ++ "/content/" ++ page_id) (JObj params).

(** The result is [JNull] when there is no match. *)
Definition ConfluenceClient_get_page_by_title (self : Client)
    (space_key title : string) : M json :=
  let params :=
    JObj [("spaceKey", JStr space_key); ("title", JStr title);
          ("expand", JStr "body.storage,version,space")] in
  result <- get self (api_base self ++ "/content") params ;;
  results <- Py.get result "results" (JList []) ;;
  if json_truthy results then Py.item0 results else ret JNull.

Definition ConfluenceClient_get_page_children (self : Client) (page_id : string)
    (limit start : Z) (expand : option string) : M json :=
  let params : dict := [("limit", JNum limit); ("start", JNum start)] in
  let params :=
    if truthy expand then assoc_set "expand" (of_opt_str expand) params
    else assoc_set "expand" (JStr "version,space") params in
  result <- get self (api_base self ++ "/content/" ++ page_id ++ "/child/page")
                (JObj params) ;;
  Py.get result "results" (JList []).

Definition ConfluenceClient_create_page (self : Client)
    (space_key title content : string) (parent_id : option string) : M json :=
  let data : dict :=
    [("type", JStr "page"); ("title", JStr title);
     ("space", JObj [("key", JStr space_key)]);
     ("body", storage_body content)] in
  let data :=
    if truthy parent_id
    then assoc_set "ancestors" (JList [JObj [("id", of_opt_str parent_id)]]) data
    else data in
  post self (api_base self ++ "/content") JNull (JObj data).

(** [version] is whatever the caller hands over; [version + 1] is
    Python's addition. *)
Definition ConfluenceClient_update_page (self : Client)
    (page_id title content : string) (version : json)
    (parent_id : option string) : M json :=
  next <- Py.add1 version ;;
  let data : dict :=
    [("id", JStr page_id); ("type", JStr "page"); ("title", JStr title);
     ("body", storage_body content);
     ("version", JObj [("number", next)])] in
  let data :=
    if truthy parent_id
    then assoc_set "ancestors" (JList [JObj [("id", of_opt_str parent_id)]]) data
    else data in
  put self (api_base self ++ "/content/" ++ page_id) JNull (JObj data).

Definition ConfluenceClient_delete_page (self : Client) (page_id : string)
  : M bool :=
  try_except_APIError
    (delete self (api_base self ++ "/content/" ++ page_id) ;;; ret true)
    (ret false).

Definition ConfluenceClient_get_page_comments (self : Client) (page_id : string)
  : M json :=
  result <- get self (api_base self ++ "/content/" ++ page_id ++ "/child/comment")
                (JObj [("expand", JStr "body.storage,version")]) ;;
  Py.get result "results" (JList []).

Definition ConfluenceClient_add_comment (self : Client) (page_id content : string)
  : M json :=
  let data :=
    JObj [("type", JStr "comment");
          ("container", JObj [("id", JStr page_id)]);
          ("body", storage_body content)] in
  post self (api_base self ++ "/content") JNull data.

Definition ConfluenceClient_get_page_labels (self : Client) (page_id : string)
  : M json :=
  result <- get self (api_base self ++ "/content/" ++ page_id ++ "/label") JNull ;;
  Py.get result "results" (JList []).

Definition ConfluenceClient_add_page_label (self : Client)
    (page_id label_name : string) : M json :=
  let data := JList [JObj [("prefix", JStr "global"); ("name", JStr label_name)]] in
  post self (api_base self ++ "/content/" ++ page_id ++ "/label") JNull data ;;;
  ConfluenceClient_get_page_labels self page_id.

(* ================================================================ *)
(** ** tools/jira_tools.py *)

Definition set_jira_client (c : Client) : M unit :=
  fun st =>
    (inr tt, {| jira_client := Some c;
                confluence_client := confluence_client st;
                sent := sent st;
                logged := logged st |}).

Definition JiraTools__get_client : M Client :=
  fun st =>
    match jira_client st with
    | Some c => ret c st
    | None =>
        let config := JiraConfig_from_env environ in
        if negb (is_auth_configured config) then
          raise (AuthenticationError
                   "Jira authentication not configured. Please set JIRA_URL and authentication credentials.")
                st
        else (c <- lift (JiraClient_init config) ;;
              set_jira_client c ;;;
              ret c) st
    end.

(** [fields.split(',') if fields and fields != '*all' else None]. *)
Definition field_list_of (fields : option string) : option (list string) :=
  match fields with
  | Some f =>
      if truthy_str f && negb (String.eqb f "*all") then Some (split comma f)
      else None
  | None => None
  end.

Definition JiraTools_get_issue (issue_key : string) (fields expand : option string)
  : M string :=
  try_except
    (client <- JiraTools__get_client ;;
     let field_list := field_list_of fields in
     issue_data <- JiraClient_get_issue client issue_key field_list expand ;;
     ret (json_dumps issue_data 2 false))
    (fun e =>
       logger_error ("Error getting issue " ++ issue_key ++ ": " ++ str_exn e) ;;;
       ret (json_dumps
              (JObj [("error", JStr ("Failed to get issue " ++ issue_key ++ ": "
                                     ++ str_exn e));
                     ("issue_key", JStr issue_key)])
              2 true)).

Definition JiraTools_search_issues (jql : string) (fields : option string)
    (start_at max_results : Z) : M string :=
  try_except
    (client <- JiraTools__get_client ;;
     let field_list := field_list_of fields in
     search_result <- JiraClient_search_issues client jql field_list
                        start_at max_results ;;
     ret (json_dumps search_result 2 false))
    (fun e =>
       logger_error ("Error searching issues with JQL '" ++ jql ++ "': "
                     ++ str_exn e) ;;;
       ret (json_dumps
              (JObj [("error", JStr ("Failed to search issues: " ++ str_exn e));
                     ("jql", JStr jql)])
              2 true)).

Definition JiraTools_create_issue (project_key summary issue_type : string)
    (description assignee : option string) : M string :=
  try_except
    (client <- JiraTools__get_client ;;
     let kwargs : dict := [] in
     let kwargs :=
       if truthy description
       then assoc_set "description" (of_opt_str description) kwargs
       else kwargs in
     let kwargs :=
       if truthy assignee
       then assoc_set "assignee" (of_opt_str assignee) kwargs
       else kwargs in
     issue_data <- JiraClient_create_issue client project_key summary issue_type
                     kwargs ;;
     ret (json_dumps
            (JObj [("message", JStr "Issue created successfully");
                   ("issue", issue_data)])
            2 false))
    (fun e =>
       logger_error ("Error creating issue: " ++ str_exn e) ;;;
       ret (json_dumps
              (JObj [("error", JStr ("Failed to create issue: " ++ str_exn e));
                     ("project_key", JStr project_key);
                     ("summary", JStr summary)])
              2 true)).

Definition JiraTools_update_issue (issue_key : string) (fields : json) : M string :=
  try_except
    (client <- JiraTools__get_client ;;
     JiraClient_update_issue client issue_key fields ;;;
     updated_issue <- JiraClient_get_issue client issue_key None None ;;
     ret (json_dumps
            (JObj [("message", JStr "Issue updated successfully");
                   ("issue", updated_issue)])
            2 false))
    (fun e =>
       logger_error ("Error updating issue " ++ issue_key ++ ": " ++ str_exn e) ;;;
       ret (json_dumps
              (JObj [("error", JStr ("Failed to update issue " ++ issue_key ++ ": "
                                     ++ str_exn e));
                     ("issue_key", JStr issue_key)])
              2 true)).

Definition JiraTools_delete_issue (issue_key : string) : M string :=
  try_except
    (client <- JiraTools__get_client ;;
     success <- JiraClient_delete_issue client issue_key ;;
     if success : bool then
       ret (json_dumps
              (JObj [("message",
                      JStr ("Issue " ++ issue_key
                            ++ " has been deleted successfully."))])
              2 true)
     else
       ret (json_dumps
              (JObj [("error",
                      JStr ("Failed to delete issue " ++ issue_key
                            ++ ". Issue may not exist or you may not have permission."))])
              2 true))
    (fun e =>
       logger_error ("Error deleting issue " ++ issue_key ++ ": " ++ str_exn e) ;;;
       ret (json_dumps
              (JObj [("error", JStr ("Failed to delete issue " ++ issue_key ++ ": "
                                     ++ str_exn e));
                     ("issue_key", JStr issue_key)])
              2 true)).

Definition JiraTools_add_comment (issue_key comment : string) : M string :=
  try_except
    (client <- JiraTools__get_client ;;
     comment_data <- JiraClient_add_comment client issue_key comment ;;
     ret (json_dumps
            (JObj [("message", JStr "Comment added successfully");
                   ("comment", comment_data)])
            2 false))
    (fun e =>
       logger_error ("Error adding comment to issue " ++ issue_key ++ ": "
                     ++ str_exn e) ;;;
       ret (json_dumps
              (JObj [("error", JStr ("Failed to add comment to issue " ++ issue_key
                                     ++ ": " ++ str_exn e));
                     ("issue_key", JStr issue_key)])
              2 true)).

Definition JiraTools_get_transitions (issue_key : string) : M string :=
  try_except
    (client <- JiraTools__get_client ;;
     transitions <- JiraClient_get_transitions client issue_key ;;
     ret (json_dumps transitions 2 false))
    (fun e =>
       logger_error ("Error getting transitions for issue " ++ issue_key ++ ": "
                     ++ str_exn e) ;;;
       ret (json_dumps
              (JObj [("error", JStr ("Failed to get transitions for issue "
                                     ++ issue_key ++ ": " ++ str_exn e));
                     ("issue_key", JStr issue_key)])
              2 true)).

Definition JiraTools_transition_issue (issue_key transition_id : string)
    (fields : json) (comment : option string) : M string :=
  try_except
    (client <- JiraTools__get_client ;;
     JiraClient_transition_issue client issue_key transition_id fields comment ;;;
     updated_issue <- JiraClient_get_issue client issue_key None None ;;
     ret (json_dumps
            (JObj [("message", JStr ("Issue " ++ issue_key
                                     ++ " transitioned successfully"));
                   ("issue", updated_issue)])
            2 false))
    (fun e =>
       logger_error ("Error transitioning issue " ++ issue_key ++ ": "
                     ++ str_exn e) ;;;
       ret (json_dumps
              (JObj [("error", JStr ("Failed to transition issue " ++ issue_key
                                     ++ ": " ++ str_exn e));
                     ("issue_key", JStr issue_key);
                     ("transition_id", JStr transition_id)])
              2 true)).

Definition JiraTools_get_projects : M string :=
  try_except
    (client <- JiraTools__get_client ;;
     projects <- JiraClient_get_projects client ;;
     ret (json_dumps projects 2 false))
    (fun e =>
       logger_error ("Error getting projects: " ++ str_exn e) ;;;
       ret (json_dumps
              (JObj [("error", JStr ("Failed to get projects: " ++ str_exn e))])
              2 true)).

Definition JiraTools_get_user_profile (user_identifier : string) : M string :=
  try_except
    (client <- JiraTools__get_client ;;
     user_data <- JiraClient_get_user client user_identifier ;;
     ret (json_dumps
            (JObj [("success", JBool true); ("user", user_data)])
            2 false))
    (fun e =>
       logger_error ("Error getting user profile for '" ++ user_identifier ++ "': "
                     ++ str_exn e) ;;;
       ret (json_dumps
              (JObj [("success", JBool false);
                     ("error", JStr (str_exn e));
                     ("user_identifier", JStr user_identifier)])
              2 true)).

(* ================================================================ *)
(** ** tools/confluence_tools.py *)

Definition set_confluence_client (c : Client) : M unit :=
  fun st =>
    (inr tt, {| jira_client := jira_client st;
                confluence_client := Some c;
                sent := sent st;
                logged := logged st |}).

Definition ConfluenceTools__get_client : M Client :=
  fun st =>
    match confluence_client st with
    | Some c => ret c st
    | None =>
        let config := ConfluenceConfig_from_env environ in
        if negb (is_auth_configured config) then
          raise (AuthenticationError
                   "Confluence authentication not configured. Please set CONFLUENCE_URL and authentication credentials.")
                st
        else (c <- lift (ConfluenceClient_init config) ;;
              set_confluence_client c ;;;
              ret c) st
    end.

(** [v.get(k1, {}).get(k2, default)]. *)
Definition get2 (v : json) (k1 k2 : string) (default : json) : M json :=
  inner <- Py.get v k1 (JObj []) ;;
  Py.get inner k2 default.

(** The six-field projection of a search hit or of a child page. *)
Definition simplify_hit (result : json) : M json :=
  id <- Py.get result "id" JNull ;;
  title <- Py.get result "title" JNull ;;
  type <- Py.get result "type" JNull ;;
  space <- get2 result "space" "name" JNull ;;
  spaceKey <- get2 result "space" "key" JNull ;;
  url <- get2 result "_links" "webui" JNull ;;
  ret (JObj [("id", id); ("title", title); ("type", type); ("space", space);
             ("spaceKey", spaceKey); ("url", url)]).

(** The seven-field projection of a created or updated page. *)
Definition simplify_written_page (page_data : json) : M json :=
  id <- Py.get page_data "id" JNull ;;
  title <- Py.get page_data "title" JNull ;;
  type <- Py.get page_data "type" JNull ;;
  space <- get2 page_data "space" "name" JNull ;;
  spaceKey <- get2 page_data "space" "key" JNull ;;
  version <- get2 page_data "version" "number" JNull ;;
  url <- get2 page_data "_links" "webui" JNull ;;
  ret (JObj [("id", id); ("title", title); ("type", type); ("space", space);
             ("spaceKey", spaceKey); ("version", version); ("url", url)]).

Definition cql_tokens : list string := ["="; "~"; ">"; "<"; " AND "; " OR "].

Definition ConfluenceTools_search (query : string) (limit start : Z) : M string :=
  try_except
    (client <- ConfluenceTools__get_client ;;
     let cql_query :=
       if truthy_str query && negb (existsb (fun x => py_in x query) cql_tokens)
       then "siteSearch ~ " ++ dq ++ query ++ dq
       else query in
     search_result <- ConfluenceClient_search_content client cql_query limit start ;;
     results <- Py.get search_result "results" (JList []) ;;
     items <- Py.iter results ;;
     simplified_results <- Py.for_each simplify_hit items ;;
     ret (json_dumps (JList simplified_results) 2 false))
    (fun e =>
       logger_error ("Error searching Confluence with query '" ++ query ++ "': "
                     ++ str_exn e) ;;;
       ret (json_dumps
              (JObj [("error", JStr ("Failed to search Confluence: " ++ str_exn e));
                     ("query", JStr query)])
              2 true)).

Definition ConfluenceTools_get_page (page_id title space_key : option string)
  : M string :=
  try_except
    (client <- ConfluenceTools__get_client ;;
     (* [inl]: the method returns at once; [inr]: the page to project *)
     fetched <-
       (if truthy page_id then
          page_data <- ConfluenceClient_get_page client (fmt_opt page_id) None ;;
          ret (inr page_data)
        else if truthy title && truthy space_key then
          page_data <- ConfluenceClient_get_page_by_title client
                         (fmt_opt space_key) (fmt_opt title) ;;
          if negb (json_truthy page_data) then
            ret (inl (json_dumps
                        (JObj [("error",
                                JStr ("Page with title '" ++ fmt_opt title
                                      ++ "' not found in space '"
                                      ++ fmt_opt space_key ++ "'"))])
                        2 true))
          else ret (inr page_data)
        else
          ret (inl (json_dumps
                      (JObj [("error",
                              JStr "Either 'page_id' OR both 'title' and 'space_key' must be provided")])
                      2 true))) ;;
     match fetched with
     | inl early => ret early
     | inr page_data =>
         id <- Py.get page_data "id" JNull ;;
         title' <- Py.get page_data "title" JNull ;;
         type <- Py.get page_data "type" JNull ;;
         space <- get2 page_data "space" "name" JNull ;;
         spaceKey <- get2 page_data "space" "key" JNull ;;
         body <- Py.get page_data "body" (JObj []) ;;
         content <- get2 body "storage" "value" (JStr EmptyString) ;;
         version <- get2 page_data "version" "number" JNull ;;
         url <- get2 page_data "_links" "webui" JNull ;;
         let simplified_page :=
           JObj [("id", id); ("title", title'); ("type", type); ("space", space);
                 ("spaceKey", spaceKey); ("content", content);
                 ("version", version); ("url", url)] in
         ret (json_dumps (JObj [("metadata", simplified_page)]) 2 false)
     end)
    (fun e =>
       logger_error ("Error getting Confluence page: " ++ str_exn e) ;;;
       ret (json_dumps
              (JObj [("error", JStr ("Failed to get page: " ++ str_exn e))])
              2 true)).

Definition ConfluenceTools_create_page (space_key title content : string)
    (parent_id : option string) : M string :=
  try_except
    (client <- ConfluenceTools__get_client ;;
     page_data <- ConfluenceClient_create_page client space_key title content
                    parent_id ;;
     simplified_page <- simplify_written_page page_data ;;
     ret (json_dumps
            (JObj [("message", JStr "Page created successfully");
                   ("page", simplified_page)])
            2 false))
    (fun e =>
       logger_error ("Error creating Confluence page: " ++ str_exn e) ;;;
       ret (json_dumps
              (JObj [("error", JStr ("Failed to create page: " ++ str_exn e));
                     ("space_key", JStr space_key);
                     ("title", JStr title)])
              2 true)).

Definition ConfluenceTools_update_page (page_id title content : string)
    (parent_id : option string) : M string :=
  try_except
    (client <- ConfluenceTools__get_client ;;
     current_page <- ConfluenceClient_get_page client page_id None ;;
     current_version <- get2 current_page "version" "number" (JNum 0) ;;
     page_data <- ConfluenceClient_update_page client page_id title content
                    current_version parent_id ;;
     simplified_page <- simplify_written_page page_data ;;
     ret (json_dumps
            (JObj [("message", JStr "Page updated successfully");
                   ("page", simplified_page)])
            2 false))
    (fun e =>
       logger_error ("Error updating Confluence page " ++ page_id ++ ": "
                     ++ str_exn e) ;;;
       ret (json_dumps
              (JObj [("error", JStr ("Failed to update page " ++ page_id ++ ": "
                                     ++ str_exn e));
                     ("page_id", JStr page_id)])
              2 true)).

Definition ConfluenceTools_delete_page (page_id : string) : M string :=
  try_except
    (client <- ConfluenceTools__get_client ;;
     success <- ConfluenceClient_delete_page client page_id ;;
     if success : bool then
       ret (json_dumps
              (JObj [("success", JBool true);
                     ("message", JStr ("Page " ++ page_id
                                       ++ " deleted successfully"))])
              2 true)
     else
       ret (json_dumps
              (JObj [("success", JBool false);
                     ("message", JStr ("Unable to delete page " ++ page_id))])
              2 true))
    (fun e =>
       logger_error ("Error deleting Confluence page " ++ page_id ++ ": "
                     ++ str_exn e) ;;;
       ret (json_dumps
              (JObj [("success", JBool false);
                     ("error", JStr (str_exn e));
                     ("page_id", JStr page_id)])
              2 true)).

Definition ConfluenceTools_add_comment (page_id content : string) : M string :=
  try_except
    (client <- ConfluenceTools__get_client ;;
     comment_data <- ConfluenceClient_add_comment client page_id content ;;
     id <- Py.get comment_data "id" JNull ;;
     type <- Py.get comment_data "type" JNull ;;
     body <- Py.get comment_data "body" (JObj []) ;;
     content' <- get2 body "storage" "value" (JStr EmptyString) ;;
     version <- get2 comment_data "version" "number" JNull ;;
     let simplified_comment :=
       JObj [("id", id); ("type", type); ("content", content');
             ("version", version)] in
     ret (json_dumps
            (JObj [("success", JBool true);
                   ("message", JStr "Comment added successfully");
                   ("comment", simplified_comment)])
            2 false))
    (fun e =>
       logger_error ("Error adding comment to Confluence page " ++ page_id ++ ": "
                     ++ str_exn e) ;;;
       ret (json_dumps
              (JObj [("success", JBool false);
                     ("error", JStr (str_exn e));
                     ("page_id", JStr page_id)])
              2 true)).

Definition ConfluenceTools_get_page_children (parent_id : string) (limit start : Z)
  : M string :=
  try_except
    (client <- ConfluenceTools__get_client ;;
     children <- ConfluenceClient_get_page_children client parent_id limit start
                   None ;;
     items <- Py.iter children ;;
     simplified_children <- Py.for_each simplify_hit items ;;
     ret (json_dumps
            (JObj [("parent_id", JStr parent_id);
                   ("count", JNum (Z.of_nat (List.length simplified_children)));
                   ("results", JList simplified_children)])
            2 false))
    (fun e =>
       logger_error ("Error getting children for Confluence page " ++ parent_id
                     ++ ": " ++ str_exn e) ;;;
       ret (json_dumps
              (JObj [("error", JStr ("Failed to get child pages: " ++ str_exn e));
                     ("parent_id", JStr parent_id)])
              2 true)).

Definition ConfluenceTools_get_page_labels (page_id : string) : M string :=
  try_except
    (client <- ConfluenceTools__get_client ;;
     labels <- ConfluenceClient_get_page_labels client page_id ;;
     ret (json_dumps labels 2 false))
    (fun e =>
       logger_error ("Error getting labels for Confluence page " ++ page_id ++ ": "
                     ++ str_exn e) ;;;
       ret (json_dumps
              (JObj [("error", JStr ("Failed to get labels: " ++ str_exn e));
                     ("page_id", JStr page_id)])
              2 true)).

Definition ConfluenceTools_add_page_label (page_id label_name : string)
  : M string :=
  try_except
    (client <- ConfluenceTools__get_client ;;
     labels <- ConfluenceClient_add_page_label client page_id label_name ;;
     ret (json_dumps labels 2 false))
    (fun e =>
       logger_error ("Error adding label to Confluence page " ++ page_id ++ ": "
                     ++ str_exn e) ;;;
       ret (json_dumps
              (JObj [("error", JStr ("Failed to add label: " ++ str_exn e));
                     ("page_id", JStr page_id);
                     ("label_name", JStr label_name)])
              2 true)).

(* ================================================================ *)
(** ** The public operations, as data *)

(** A call of a [JiraClient] method. *)
Inductive JiraCall : Type :=
| Call_get_issue (issue_key : string) (fields : option (list string))
                 (expand : option string)
| Call_search_issues (jql : string) (fields : option (list string))
                     (start_at max_results : Z)
| Call_create_issue (project_key summary issue_type : string) (kwargs : dict)
| Call_update_issue (issue_key : string) (fields : json)
| Call_delete_issue (issue_key : string)
| Call_add_comment (issue_key comment : string)
| Call_get_transitions (issue_key : string)
| Call_transition_issue (issue_key transition_id : string) (fields : json)
                        (comment : option string)
| Call_get_projects
| Call_get_user (user_id : string).

Definition run_JiraCall (self : Client) (c : JiraCall) : M json :=
  match c with
  | Call_get_issue k f e => JiraClient_get_issue self k f e
  | Call_search_issues q f s m => JiraClient_search_issues self q f s m
  | Call_create_issue p s t kw => JiraClient_create_issue self p s t kw
  | Call_update_issue k f => JiraClient_update_issue self k f
  | Call_delete_issue k => b <- JiraClient_delete_issue self k ;; ret (JBool b)
  | Call_add_comment k c => JiraClient_add_comment self k c
  | Call_get_transitions k => JiraClient_get_transitions self k
  | Call_transition_issue k t f c => JiraClient_transition_issue self k t f c
  | Call_get_projects => JiraClient_get_projects self
  | Call_get_user u => JiraClient_get_user self u
  end.

(** A call of a public method of [JiraTools] or of [ConfluenceTools]. *)
Inductive ToolOp : Type :=
| Jira_get_issue (issue_key : string) (fields expand : option string)
| Jira_search_issues (jql : string) (fields : option string)
                     (start_at max_results : Z)
| Jira_create_issue (project_key summary issue_type : string)
                    (description assignee : option string)
| Jira_update_issue (issue_key : string) (fields : json)
| Jira_delete_issue (issue_key : string)
| Jira_add_comment (issue_key comment : string)
| Jira_get_transitions (issue_key : string)
| Jira_transition_issue (issue_key transition_id : string) (fields : json)
                        (comment : option string)
| Jira_get_projects
| Jira_get_user_profile (user_identifier : string)
| Confluence_search (query : string) (limit start : Z)
| Confluence_get_page (page_id title space_key : option string)
| Confluence_create_page (space_key title content : string)
                         (parent_id : option string)
| Confluence_update_page (page_id title content : string)
                         (parent_id : option string)
| Confluence_delete_page (page_id : string)
| Confluence_add_comment (page_id content : string)
| Confluence_get_page_children (parent_id : string) (limit start : Z)
| Confluence_get_page_labels (page_id : string)
| Confluence_add_page_label (page_id label_name : string).

Definition run_tool (op : ToolOp) : M string :=
  match op with
  | Jira_get_issue k f e => JiraTools_get_issue k f e
  | Jira_search_issues q f s m => JiraTools_search_issues q f s m
  | Jira_create_issue p s t d a => JiraTools_create_issue p s t d a
  | Jira_update_issue k f => JiraTools_update_issue k f
  | Jira_delete_issue k => JiraTools_delete_issue k
  | Jira_add_comment k c => JiraTools_add_comment k c
  | Jira_get_transitions k => JiraTools_get_transitions k
  | Jira_transition_issue k t f c => JiraTools_transition_issue k t f c
  | Jira_get_projects => JiraTools_get_projects
  | Jira_get_user_profile u => JiraTools_get_user_profile u
  | Confluence_search q l s => ConfluenceTools_search q l s
  | Confluence_get_page p t s => ConfluenceTools_get_page p t s
  | Confluence_create_page s t c p => ConfluenceTools_create_page s t c p
  | Confluence_update_page p t c a => ConfluenceTools_update_page p t c a
  | Confluence_delete_page p => ConfluenceTools_delete_page p
  | Confluence_add_comment p c => ConfluenceTools_add_comment p c
  | Confluence_get_page_children p l s => ConfluenceTools_get_page_children p l s
  | Confluence_get_page_labels p => ConfluenceTools_get_page_labels p
  | Confluence_add_page_label p l => ConfluenceTools_add_page_label p l
  end.

Definition is_jira_op (op : ToolOp) : bool :=
  match op with
  | Jira_get_issue _ _ _ | Jira_search_issues _ _ _ _
  | Jira_create_issue _ _ _ _ _ | Jira_update_issue _ _ | Jira_delete_issue _
  | Jira_add_comment _ _ | Jira_get_transitions _
  | Jira_transition_issue _ _ _ _ | Jira_get_projects
  | Jira_get_user_profile _ => true
  | _ => false
  end.

(** The configuration the tool object of [op] resolves, and its
    memoized client. *)
Definition tool_config (op : ToolOp) : Config :=
  if is_jira_op op then JiraConfig_from_env environ
  else ConfluenceConfig_from_env environ.

Definition tool_client (op : ToolOp) (st : process) : option Client :=
  if is_jira_op op then jira_client st else confluence_client st.

End Pipeline.

(* ================================================================== *)
(** ** The words of the specification, for comparison *)

(** A credential is present when it is set and not empty. *)
Definition oauth_present (c : Config) : Prop := truthy (oauth_token c) = true.

Definition basic_present (c : Config) : Prop :=
  truthy (username c) = true
  /\ (truthy (password c) = true \/ truthy (token c) = true).

Definition exactly_one (A B : Prop) : Prop := (A /\ ~ B) \/ (~ A /\ B).

(** Trimming exactly one trailing slash. *)
Fixpoint trim_one_trailing_slash (s : string) : string :=
  match s with
  | EmptyString => EmptyString
  | String c EmptyString => if Ascii.eqb c slash then EmptyString else s
  | String c r => String c (trim_one_trailing_slash r)
  end.

(** Trimming exactly one leading slash. *)
Definition trim_one_leading_slash (s : string) : string :=
  match s with
  | String c r => if Ascii.eqb c slash then r else s
  | EmptyString => EmptyString
  end.

Definition join_trimming_one (base endpoint : string) : string :=
  trim_one_trailing_slash base ++ "/" ++ trim_one_leading_slash endpoint.

(** [needle] occurs in [hay]. *)
Definition occurs_in (needle hay : string) : Prop :=
  exists pre post, hay = pre ++ needle ++ post.

(** [pieces] are [f] cut at its commas: no piece holds a comma, and the
    pieces, with one comma between each two of them, spell [f]. *)
Inductive splits_at_commas : string -> list string -> Prop :=
| splits_last (p : string) :
    ~ occurs_in "," p -> splits_at_commas p [p]
| splits_more (p rest : string) (pieces : list string) :
    ~ occurs_in "," p ->
    splits_at_commas rest pieces ->
    splits_at_commas (p ++ "," ++ rest) (p :: pieces).

(** A returned string is the serialization of a mapping with an [error]
    entry whose text mentions [word]. *)
Definition error_envelope_mentioning (json_dumps : json -> nat -> bool -> string)
    (word out : string) : Prop :=
  exists fields msg indent ascii_only,
    out = json_dumps (JObj fields) indent ascii_only
    /\ assoc_get "error" fields = Some (JStr msg)
    /\ occurs_in word msg.

(** The failure envelope of the specification: the serialization of a
    mapping with an [error] text and the field [id_field] that identifies
    the call. *)
Definition error_envelope_with (json_dumps : json -> nat -> bool -> string)
    (id_field out : string) : Prop :=
  exists fields msg id indent ascii_only,
    out = json_dumps (JObj fields) indent ascii_only
    /\ assoc_get "error" fields = Some (JStr msg)
    /\ assoc_get id_field fields = Some id.

(** The requests a run has added to the wire. *)
Definition sent_during (before after : process) (reqs : list Request) : Prop :=
  sent after = (sent before ++ reqs)%list.

(** The [json=] body of a request, when it has one. *)
Definition json_body (r : Request) : option json := assoc_get "json" (kwargs r).

(** The [params=] of a request. *)
Definition query_params (r : Request) : option json := assoc_get "params" (kwargs r).

(** [v[k1][k2]] when both steps are mappings. *)
Definition path2 (v : json) (k1 k2 : string) : option json :=
  match v with
  | JObj d =>
      match assoc_get k1 d with
      | Some (JObj d') => assoc_get k2 d'
      | _ => None
      end
  | _ => None
  end.

Definition field (v : json) (k : string) : option json :=
  match v with JObj d => assoc_get k d | _ => None end.

(* ================================================================== *)
(** ** Sample inputs *)

Module Sample.

Definition base : string := "https://x.atlassian.net".

(** Both an OAuth token and a user name with an API token. *)
Definition cfg_both : Config :=
  {| url := base; username := Some "u"; password := None; token := Some "t";
     cloud_id := None; oauth_token := Some "o"; items_filter := None |}.

(** An OAuth token and no URL. *)
Definition cfg_no_url : Config :=
  {| url := EmptyString; username := None; password := None; token := None;
     cloud_id := None; oauth_token := Some "o"; items_filter := None |}.

(** No credential at all. *)
Definition cfg_none : Config :=
  {| url := base; username := None; password := None; token := None;
     cloud_id := None; oauth_token := None; items_filter := None |}.

(** A cloud site with a bearer token. *)
Definition cfg_cloud : Config :=
  {| url := base; username := None; password := None; token := None;
     cloud_id := None; oauth_token := Some "o"; items_filter := None |}.

(** The same site, written with two trailing slashes. *)
Definition cfg_two_slashes : Config :=
  {| url := "https://x.atlassian.net//"; username := None; password := None;
     token := None; cloud_id := None; oauth_token := Some "o";
     items_filter := None |}.

Definition bearer : Session :=
  {| auth := None;
     headers := ("Authorization", "Bearer o") :: json_headers |}.

Definition client_cloud : Client :=
  {| config := cfg_cloud; session := bearer; api_base := "rest/api/3" |}.

Definition confluence : Client :=
  {| config := cfg_cloud; session := bearer; api_base := "rest/api" |}.

Definition client_two_slashes : Client :=
  {| config := cfg_two_slashes; session := bearer; api_base := "rest/api/3" |}.

(** A process in which no tool has been used yet. *)
Definition fresh : process :=
  {| jira_client := None; confluence_client := None; sent := []; logged := [] |}.

(** A process whose two tool objects hold a client already. *)
Definition warm : process :=
  {| jira_client := Some client_cloud; confluence_client := Some confluence;
     sent := []; logged := [] |}.

Definition response (status : Z) (body : string) (parsed : string + json)
  : Response :=
  {| status_code := status; reason := "-"; final_url := base;
     content := body; json_ := parsed |}.

(** A server that answers every request the same way. *)
Definition always (out : Outcome) : list Request -> Request -> Outcome :=
  fun _ _ => out.

(** A serializer that keeps nothing; enough where the text is not looked at. *)
Definition blank_dumps : json -> nat -> bool -> string :=
  fun _ _ _ => EmptyString.

(** A serializer that keeps the keys of a mapping, and nothing else. *)
Definition keys_dumps (v : json) (_ : nat) (_ : bool) : string :=
  match v with
  | JObj d => join "," (map fst d)
  | _ => EmptyString
  end.

Definition no_environ : string -> option string := fun _ => None.

(** A server that answers every request with 404 and a body that is not
    JSON. *)
Definition refusing : list Request -> Request -> Outcome :=
  always (Answered (response 404 "gone" (inl "not JSON"))).

(** 304 Not Modified, no body. *)
Definition not_modified : Response := response 304 EmptyString (inl "no body").

(** A page at version 3. *)
Definition page_v3 : json :=
  JObj [("id", JStr "42"); ("version", JObj [("number", JNum 3)])].

(** A page whose version carries no number. *)
Definition page_no_number : json :=
  JObj [("id", JStr "42"); ("version", JObj [("by", JStr "a")])].

End Sample.

(** What [_make_request] makes of the outcome of the call. *)
Definition response_outcome (out : Outcome) : exn + json :=
  match out with
  | ConnectionFailed e => inl (APIError ("Network error: " ++ e) None None)
  | Answered response =>
      match raise_for_status response with
      | Some e =>
          if status_code response =? 401 then
            inl (AuthenticationError ("Authentication failed: " ++ e))
          else if status_code response =? 403 then
            inl (AuthenticationError ("Access denied: " ++ e))
          else
            inl (APIError ("API request failed: " ++ e)
                          (Some (status_code response))
                          (Some (match json_ response with
                                 | inr v => v
                                 | inl _ => JObj []
                                 end)))
      | None =>
          if truthy_str (content response) then
            match json_ response with
            | inr v => inr v
            | inl e => inl (APIError ("Network error: " ++ e) None None)
            end
          else inr (JObj [])
      end
  end.

(** [ensures m P]: when [m] returns, its value satisfies [P]. *)
Definition ensures {A} (m : M A) (P : A -> Prop) : Prop :=
  forall st, match fst (m st) with inr a => P a | inl _ => True end.

(** [returns m P]: [m] never raises, and its value satisfies [P]. *)
Definition returns {A} (m : M A) (P : A -> Prop) : Prop :=
  forall st, exists a st', m st = (inr a, st') /\ P a.


(** [handler.py] creates the two tool objects when it is loaded: no
    client yet, nothing sent, nothing logged. *)
Definition process_start : process :=
  {| jira_client := None; confluence_client := None; sent := []; logged := [] |}.

(** The states of the process that calls of the tools can lead to. *)
Inductive reachable
    (session_request : list Request -> Request -> Outcome)
    (json_dumps : json -> nat -> bool -> string)
    (environ : string -> option string) : process -> Prop :=
| reachable_start : reachable session_request json_dumps environ process_start
| reachable_call (st : process) (op : ToolOp) :
    reachable session_request json_dumps environ st ->
    reachable session_request json_dumps environ
      (snd (run_tool session_request json_dumps environ op st)).

(** A tool holds a client only if its configuration is configured. *)
Definition clients_configured (environ : string -> option string) (st : process)
  : Prop :=
  (jira_client st <> None ->
   is_auth_configured (JiraConfig_from_env environ) = true)
  /\ (confluence_client st <> None ->
      is_auth_configured (ConfluenceConfig_from_env environ) = true).

(** [keeps environ m]: [m] maintains [clients_configured]. *)
Definition keeps {A} (environ : string -> option string) (m : M A) : Prop :=
  forall st, clients_configured environ st ->
             clients_configured environ (snd (m st)).

(** [quiet m]: [m] sends nothing. *)
Definition quiet {A} (m : M A) : Prop :=
  forall st, sent (snd (m st)) = sent st.

(** A string that [json.dumps] has produced. *)
Definition is_dumps (json_dumps : json -> nat -> bool -> string) (s : string)
  : Prop :=
  exists v indent ascii_only, s = json_dumps v indent ascii_only.

(* ================================================================== *)
(** ** The calls of the Confluence client, and measures of a run *)

(** A call of a [ConfluenceClient] method. *)
Inductive ConfluenceCall : Type :=
| CCall_search_content (cql : string) (limit start : Z)
| CCall_get_page (page_id : string) (expand : option string)
| CCall_get_page_by_title (space_key title : string)
| CCall_get_page_children (page_id : string) (limit start : Z)
                          (expand : option string)
| CCall_create_page (space_key title content : string) (parent_id : option string)
| CCall_update_page (page_id title content : string) (version : json)
                    (parent_id : option string)
| CCall_delete_page (page_id : string)
| CCall_get_page_comments (page_id : string)
| CCall_add_comment (page_id content : string)
| CCall_get_page_labels (page_id : string)
| CCall_add_page_label (page_id label_name : string).

Definition run_ConfluenceCall
    (session_request : list Request -> Request -> Outcome)
    (self : Client) (c : ConfluenceCall) : M json :=
  match c with
  | CCall_search_content q l s =>
      ConfluenceClient_search_content session_request self q l s
  | CCall_get_page p e => ConfluenceClient_get_page session_request self p e
  | CCall_get_page_by_title k t =>
      ConfluenceClient_get_page_by_title session_request self k t
  | CCall_get_page_children p l s e =>
      ConfluenceClient_get_page_children session_request self p l s e
  | CCall_create_page k t c p =>
      ConfluenceClient_create_page session_request self k t c p
  | CCall_update_page p t c v a =>
      ConfluenceClient_update_page session_request self p t c v a
  | CCall_delete_page p =>
      b <- ConfluenceClient_delete_page session_request self p ;; ret (JBool b)
  | CCall_get_page_comments p =>
      ConfluenceClient_get_page_comments session_request self p
  | CCall_add_comment p c => ConfluenceClient_add_comment session_request self p c
  | CCall_get_page_labels p =>
      ConfluenceClient_get_page_labels session_request self p
  | CCall_add_page_label p l =>
      ConfluenceClient_add_page_label session_request self p l
  end.

(** [maintains P m]: a property of the process that holds before [m]
    holds after it. *)
Definition maintains {A} (P : process -> Prop) (m : M A) : Prop :=
  forall st, P st -> P (snd (m st)).

(** The number of requests a tool method can make in one call: two for
    the four methods that follow one request with another, one for the
    rest. *)
Definition request_budget (op : ToolOp) : nat :=
  match op with
  | Jira_update_issue _ _ | Jira_transition_issue _ _ _ _
  | Confluence_update_page _ _ _ _ | Confluence_add_page_label _ _ => 2
  | _ => 1
  end.

(** The verbs of the requests a tool method makes, in the order in which
    it makes them. *)
Definition request_plan (op : ToolOp) : list string :=
  match op with
  | Jira_get_issue _ _ _ | Jira_get_transitions _ | Jira_get_projects
  | Jira_get_user_profile _ => ["GET"]
  | Jira_search_issues _ _ _ _ | Jira_create_issue _ _ _ _ _
  | Jira_add_comment _ _ => ["POST"]
  | Jira_update_issue _ _ => ["PUT"; "GET"]
  | Jira_delete_issue _ => ["DELETE"]
  | Jira_transition_issue _ _ _ _ => ["POST"; "GET"]
  | Confluence_search _ _ _ | Confluence_get_page _ _ _
  | Confluence_get_page_children _ _ _ | Confluence_get_page_labels _ => ["GET"]
  | Confluence_create_page _ _ _ _ | Confluence_add_comment _ _ => ["POST"]
  | Confluence_update_page _ _ _ _ => ["GET"; "PUT"]
  | Confluence_delete_page _ => ["DELETE"]
  | Confluence_add_page_label _ _ => ["POST"; "GET"]
  end.

(** [follows plan m]: [m] only adds to the wire, and the verbs of what it
    adds are the first verbs of [plan], in that order. *)
Definition follows {A} (plan : list string) (m : M A) : Prop :=
  forall st, exists reqs rest,
    sent (snd (m st)) = (sent st ++ reqs)%list
    /\ plan = (map method reqs ++ rest)%list.

(** [sends_one verb m]: [m] adds one request to the wire, with that verb,
    whether it returns or raises. *)
Definition sends_one {A} (verb : string) (m : M A) : Prop :=
  forall st, exists r,
    sent (snd (m st)) = (sent st ++ [r])%list /\ method r = verb.

(** [v] is a mapping, or is not there. *)
Definition absent_or_mapping (o : option json) : Prop :=
  match o with
  | None => True
  | Some (JObj _) => True
  | Some _ => False
  end.

(** [d.get(k)], with [None] as [JNull]. *)
Definition get_or_null (d : dict) (k : string) : json :=
  match assoc_get k d with Some v => v | None => JNull end.

(** [d.get(k1, {}).get(k2)] when the first step is a mapping or missing. *)
Definition get2_or_null (d : dict) (k1 k2 : string) : json :=
  match assoc_get k1 d with
  | Some (JObj d') => get_or_null d' k2
  | _ => JNull
  end.

(** The six fields the tools keep of a search hit or of a child page. *)
Definition project_hit (v : json) : json :=
  match v with
  | JObj d =>
      JObj [("id", get_or_null d "id"); ("title", get_or_null d "title");
            ("type", get_or_null d "type");
            ("space", get2_or_null d "space" "name");
            ("spaceKey", get2_or_null d "space" "key");
            ("url", get2_or_null d "_links" "webui")]
  | _ => JNull
  end.

(** A hit the projection can read: a mapping whose [space] and [_links],
    when present, are mappings. *)
Definition readable_hit (v : json) : Prop :=
  match v with
  | JObj d =>
      absent_or_mapping (assoc_get "space" d)
      /\ absent_or_mapping (assoc_get "_links" d)
  | _ => False
  end.

(** A version number [update_page] cannot add one to. *)
Definition unusable_number (v : json) : Prop :=
  match v with
  | JNull | JStr _ | JList _ | JObj _ => True
  | JBool _ | JNum _ | JFloat _ => False
  end.

(** Since [st], the process has sent only requests that satisfy [Q]. *)
Definition sent_since (st : process) (Q : Request -> Prop) (s : process) : Prop :=
  exists reqs, sent s = (sent st ++ reqs)%list /\ Forall Q reqs.

(* ================================================================== *)
(** * Properties *)

(** ** Strings *)

Section StringFacts.

Lemma append_nil_r (s : string) : s ++ EmptyString = s.
Proof. induction s as [|c s IH]; simpl; [reflexivity | now rewrite IH]. Qed.

Lemma append_assoc (a b c : string) : (a ++ b) ++ c = a ++ (b ++ c).
Proof. induction a as [|x a IH]; simpl; [reflexivity | now rewrite IH]. Qed.

Lemma prefix_iff (n h : string) :
  String.prefix n h = true <-> exists post, h = n ++ post.
Proof.
  revert h. induction n as [|a n IH]; intros h; simpl.
  - split; [intros _; now exists h | intros _; now destruct h].
  - destruct h as [|b h]; simpl.
    + split; [discriminate | intros [post H]; discriminate].
    + destruct (ascii_dec a b) as [->|Hne].
      * split.
        -- intros H. apply IH in H. destruct H as [post H].
           exists post. now rewrite H.
        -- intros [post H]. apply IH. exists post. congruence.
      * split; [discriminate | intros [post H]; congruence].
Qed.

Lemma py_in_iff (n h : string) : py_in n h = true <-> occurs_in n h.
Proof.
  unfold occurs_in. induction h as [|c h IH].
  - cbn [py_in]. rewrite orb_false_r, prefix_iff. split.
    + intros [post H]. now exists EmptyString, post.
    + intros [pre [post H]]. destruct pre; simpl in H.
      * now exists post.
      * discriminate.
  - cbn [py_in]. rewrite orb_true_iff, IH, prefix_iff. split.
    + intros [[post H] | [pre [post H]]].
      * now exists EmptyString, post.
      * exists (String c pre), post. simpl. now rewrite H.
    + intros [pre [post H]]. destruct pre as [|x pre]; simpl in H.
      * left. now exists post.
      * right. exists pre, post. congruence.
Qed.

Lemma py_in_app_r (n a b : string) : py_in n b = true -> py_in n (a ++ b) = true.
Proof.
  rewrite !py_in_iff. intros [pre [post H]].
  exists (a ++ pre), post. now rewrite H, append_assoc.
Qed.

Lemma py_in_app_l (n a b : string) : py_in n a = true -> py_in n (a ++ b) = true.
Proof.
  rewrite !py_in_iff. intros [pre [post H]].
  exists pre, (post ++ b). now rewrite H, !append_assoc.
Qed.

Lemma lstrip_slashes (n : nat) (e : string) :
  lstrip_slash (slashes n ++ e) = lstrip_slash e.
Proof. induction n as [|n IH]; simpl; [reflexivity | exact IH]. Qed.

Lemma lstrip_decompose (e : string) :
  exists n, e = slashes n ++ lstrip_slash e.
Proof.
  induction e as [|c e [n IH]].
  - now exists O.
  - simpl. destruct (Ascii.eqb_spec c slash) as [->|Hne].
    + exists (S n). simpl. now rewrite <- IH.
    + now exists O.
Qed.

Lemma lstrip_no_leading_slash (e : string) :
  starts_with_slash (lstrip_slash e) = false.
Proof.
  induction e as [|c e IH]; [reflexivity|].
  simpl. destruct (Ascii.eqb c slash) eqn:E; [exact IH | simpl; exact E].
Qed.

Lemma rstrip_all_slashes (n : nat) : rstrip_slash (slashes n) = EmptyString.
Proof. induction n as [|n IH]; simpl; [reflexivity | now rewrite IH]. Qed.

Lemma rstrip_slashes (n : nat) (b : string) :
  rstrip_slash (b ++ slashes n) = rstrip_slash b.
Proof.
  induction b as [|c b IH]; simpl.
  - apply rstrip_all_slashes.
  - now rewrite IH.
Qed.

Lemma rstrip_decompose (b : string) :
  exists n, b = rstrip_slash b ++ slashes n.
Proof.
  induction b as [|c b [n IH]].
  - now exists O.
  - simpl. destruct (Ascii.eqb_spec c slash) as [->|Hne]; simpl.
    + destruct (rstrip_slash b) eqn:E; simpl in *.
      * exists (S n). simpl. now f_equal.
      * exists n. now f_equal.
    + exists n. now f_equal.
Qed.

Lemma rstrip_no_trailing_slash (b : string) :
  ends_with_slash (rstrip_slash b) = false.
Proof.
  induction b as [|c b IH]; [reflexivity|].
  simpl. destruct (rstrip_slash b) as [|d r] eqn:E.
  - simpl. destruct (Ascii.eqb c slash) eqn:Ec; simpl; [reflexivity | exact Ec].
  - rewrite andb_false_r. simpl in *. exact IH.
Qed.

Lemma split_nonempty (sep : ascii) (s : string) : split sep s <> [].
Proof.
  destruct s as [|c s]; simpl; [discriminate|].
  destruct (Ascii.eqb c sep); [discriminate|].
  destruct (split sep s); discriminate.
Qed.

Lemma join_split (sep : ascii) (s : string) :
  join (String sep EmptyString) (split sep s) = s.
Proof.
  induction s as [|c s IH]; [reflexivity|].
  cbn [split]. pose proof (split_nonempty sep s) as Hs.
  destruct (Ascii.eqb_spec c sep) as [->|Hne];
    destruct (split sep s) as [|h t]; try congruence.
  - change (String sep (join (String sep EmptyString) (h :: t)) = String sep s).
    now f_equal.
  - destruct t; simpl in *; now rewrite <- IH.
Qed.

Lemma occurs_comma_cons (c : ascii) (s : string) :
  occurs_in "," (String c s) <-> c = comma \/ occurs_in "," s.
Proof.
  rewrite <- !py_in_iff. cbn [py_in]. rewrite orb_true_iff, prefix_iff.
  unfold comma. split.
  - intros [[post H] | H]; [left | now right].
    simpl in H. now injection H.
  - intros [-> | H]; [left | now right].
    now exists s.
Qed.

Lemma no_comma_empty : ~ occurs_in "," EmptyString.
Proof. rewrite <- py_in_iff. discriminate. Qed.

Lemma no_comma_cons (c : ascii) (s : string) :
  ~ occurs_in "," (String c s) <-> Ascii.eqb c comma = false /\ ~ occurs_in "," s.
Proof.
  rewrite occurs_comma_cons.
  destruct (Ascii.eqb_spec c comma) as [->|Hne]; split.
  - intros H. exfalso. apply H. now left.
  - intros [H _]. discriminate.
  - intros H. split; [reflexivity | intros Hs; apply H; now right].
  - intros [_ H] [Hc|Hs]; [contradiction | now apply H].
Qed.

Lemma split_no_comma (p : string) : ~ occurs_in "," p -> split comma p = [p].
Proof.
  induction p as [|c p IH]; intros H; [reflexivity|].
  apply no_comma_cons in H. destruct H as [Hc Hp].
  cbn [split]. rewrite Hc, (IH Hp). reflexivity.
Qed.

Lemma split_at_first_comma (p rest : string) :
  ~ occurs_in "," p -> split comma (p ++ "," ++ rest) = p :: split comma rest.
Proof.
  induction p as [|c p IH]; intros H; [reflexivity|].
  apply no_comma_cons in H. destruct H as [Hc Hp].
  change (String c p ++ "," ++ rest) with (String c (p ++ "," ++ rest)).
  cbn [split]. rewrite Hc, (IH Hp). reflexivity.
Qed.

(** The code's [split] computes the cut the relation describes, and the
    relation describes no other. *)
Lemma split_sound (f : string) (pieces : list string) :
  splits_at_commas f pieces -> split comma f = pieces.
Proof.
  induction 1 as [p Hp | p rest pieces Hp _ IH].
  - now apply split_no_comma.
  - rewrite split_at_first_comma by exact Hp. now rewrite IH.
Qed.

Lemma split_complete (f : string) : splits_at_commas f (split comma f).
Proof.
  induction f as [|c f IH].
  - apply splits_last, no_comma_empty.
  - cbn [split]. destruct (Ascii.eqb_spec c comma) as [->|Hne].
    + apply (splits_more (p := EmptyString) no_comma_empty IH).
    + assert (Hc : Ascii.eqb c comma = false) by now apply Ascii.eqb_neq.
      destruct (split comma f) as [|h t] eqn:E;
        [exfalso; exact (@split_nonempty comma f E)|].
      inversion IH as [p Hp Hf Hl | p rest pieces Hp Hrest Hf Hl]; subst.
      * apply splits_last. apply no_comma_cons. now split.
      * apply (splits_more (p := String c h) (rest := rest)); [|exact Hrest].
        apply no_comma_cons. now split.
Qed.

End StringFacts.

(** ** The model on small inputs *)

Example rstrip_slash_two : rstrip_slash "https://x.atlassian.net//" = "https://x.atlassian.net".
Proof. reflexivity. Qed.

Example rstrip_slash_inner : rstrip_slash "a/b/" = "a/b".
Proof. reflexivity. Qed.

Example lstrip_slash_two : lstrip_slash "//rest/api" = "rest/api".
Proof. reflexivity. Qed.

Example split_three : split comma "summary,,status" = ["summary"; EmptyString; "status"].
Proof. reflexivity. Qed.

Example join_three : join "," ["a"; "b"; "c"] = "a,b,c".
Proof. reflexivity. Qed.

Example py_in_inside : py_in " AND " "a = 1 AND b = 2" = true.
Proof. reflexivity. Qed.

Example py_in_missing : py_in "atlassian.net" "https://jira.example.com" = false.
Proof. reflexivity. Qed.

Example str_of_Z_404 : str_of_Z 404 = "404".
Proof. reflexivity. Qed.

Example raise_for_status_500 :
  raise_for_status (Sample.response 500 EmptyString (inl "-"))
  = Some "500 Server Error: - for url: https://x.atlassian.net".
Proof. reflexivity. Qed.

Example raise_for_status_204 :
  raise_for_status (Sample.response 204 EmptyString (inl "-")) = None.
Proof. reflexivity. Qed.

Example setup_auth_prefers_token :
  _setup_auth
    {| url := Sample.base; username := Some "u"; password := Some "p";
       token := Some "t"; cloud_id := None; oauth_token := None;
       items_filter := None |} new_Session
  = inr {| auth := Some (BasicAuth (Some "u") (Some "t"));
           headers := json_headers |}.
Proof. reflexivity. Qed.

Example setup_auth_nothing :
  _setup_auth Sample.cfg_none new_Session
  = inl (AuthenticationError "No valid authentication method configured").
Proof. reflexivity. Qed.

Example get_issue_field_list :
  map (fun r => (method r, request_url r, kwargs r))
      (sent (snd (JiraClient_get_issue (Sample.always (ConnectionFailed "down"))
                    Sample.client_cloud "ABC-1" (Some ["summary"; "status"])
                    (Some "changelog") Sample.fresh)))
  = [("GET", "https://x.atlassian.net/rest/api/3/issue/ABC-1",
      [("params", JObj [("fields", JStr "summary,status");
                        ("expand", JStr "changelog")])])].
Proof. reflexivity. Qed.

(** The scenario of the specification: a cloud configuration and a 200
    answer for [GET rest/api/3/issue/ABC-1]; the tool serializes the
    answer as it came, with an indentation of two. *)
Example jira_get_issue_scenario :
  let answer := JObj [("key", JStr "ABC-1");
                      ("fields", JObj [("summary", JStr "x")])] in
  run_tool (Sample.always (Answered (Sample.response 200 "{..}" (inr answer))))
    (fun v indent ascii_only => if ascii_only then "ascii" else
                                  match v with JObj [("key", JStr k); _] => k
                                          | _ => "?" end)
    Sample.no_environ (Jira_get_issue "ABC-1" None None) Sample.warm
  = (inr "ABC-1",
     record_sent
       {| via := Sample.bearer; method := "GET";
          request_url := "https://x.atlassian.net/rest/api/3/issue/ABC-1";
          kwargs := [("params", JObj [])] |}
       Sample.warm).
Proof. reflexivity. Qed.

(** ** Configuration *)

Lemma truthy_str_iff (s : string) : truthy_str s = true <-> s <> EmptyString.
Proof. destruct s; simpl; split; congruence. Qed.

(** C3, as the code has it: a configuration is configured exactly when its
    URL is not empty and at least one of the two credential sets is
    present (both may be); a configuration with neither is not
    configured. *)
Theorem is_auth_configured_iff (c : Config) :
  (is_auth_configured c = true
   <-> url c <> EmptyString /\ (oauth_present c \/ basic_present c))
  /\ (~ oauth_present c -> ~ basic_present c -> is_auth_configured c = false).
Proof.
  unfold is_auth_configured, oauth_present, basic_present.
  rewrite <- truthy_str_iff.
  destruct (truthy_str (url c)), (truthy (username c)), (truthy (password c)),
    (truthy (token c)), (truthy (oauth_token c)); simpl;
    (split; [split; [intros H; try discriminate; auto | intros [H1 H2]; intuition congruence]
            | intros H1 H2; try reflexivity; exfalso; auto]).
Qed.

Lemma is_auth_configured_iff_witness :
  is_auth_configured Sample.cfg_none = false.
Proof.
  apply (proj2 (is_auth_configured_iff Sample.cfg_none)).
  - unfold oauth_present. simpl. discriminate.
  - unfold basic_present. simpl. intros [H _]. discriminate.
Defined.

(** C3 as stated fails twice: with both credential sets the configuration
    is configured although not exactly one holds, and with an empty URL it
    is not configured although exactly one holds. *)
Lemma configured_is_not_exactly_one :
  (is_auth_configured Sample.cfg_both = true
   /\ ~ exactly_one (oauth_present Sample.cfg_both) (basic_present Sample.cfg_both))
  /\ (exactly_one (oauth_present Sample.cfg_no_url) (basic_present Sample.cfg_no_url)
      /\ is_auth_configured Sample.cfg_no_url = false).
Proof.
  unfold exactly_one, oauth_present, basic_present. simpl.
  repeat split; try reflexivity.
  - intros [[_ H] | [H _]]; apply H; auto.
  - left. split; [reflexivity | intros [H _]; discriminate].
Qed.

(** ** The base client *)

Section BaseClientFacts.

Variable session_request : list Request -> Request -> Outcome.

(** [_make_request] sends exactly one request, to the joined URL, and
    turns the outcome of the call into its result. *)
Lemma make_request_run (self : Client) (method endpoint : string)
    (kwargs : dict) (st : process) :
  let req := {| via := session self; method := method;
                request_url := request_url_of (url (config self)) endpoint;
                kwargs := kwargs |} in
  _make_request session_request self method endpoint kwargs st
  = (response_outcome (session_request (sent st) req), record_sent req st).
Proof.
  unfold _make_request, bind, session_call. cbn.
  destruct (session_request _ _) as [e | response]; [reflexivity|].
  cbn. destruct (raise_for_status response) as [e|].
  - destruct (status_code response =? 401); [reflexivity|].
    destruct (status_code response =? 403); reflexivity.
  - destruct (truthy_str (content response)); [|reflexivity].
    destruct (json_ response); reflexivity.
Qed.

End BaseClientFacts.

(** C4, as the code has it: [_make_request] sends its one request to the
    base URL without any of its trailing slashes, a slash, and the
    endpoint without any of its leading slashes; so any number of slashes
    at the seam gives the same URL, and the two spellings of the example
    meet. *)
Theorem make_request_joins_url
    (session_request : list Request -> Request -> Outcome)
    (self : Client) (method endpoint : string) (kwargs : dict) (st : process) :
  let base := url (config self) in
  (exists r,
      sent_during st
        (snd (_make_request session_request self method endpoint kwargs st)) [r]
      /\ request_url r = rstrip_slash base ++ "/" ++ lstrip_slash endpoint)
  /\ (exists n m, base = rstrip_slash base ++ slashes n
                  /\ endpoint = slashes m ++ lstrip_slash endpoint)
  /\ ends_with_slash (rstrip_slash base) = false
  /\ starts_with_slash (lstrip_slash endpoint) = false
  /\ (forall n m, request_url_of (base ++ slashes n) (slashes m ++ endpoint)
                  = request_url_of base endpoint)
  /\ request_url_of "https://x.atlassian.net/" "/rest/api/3/issue/ABC-1"
     = request_url_of "https://x.atlassian.net" "rest/api/3/issue/ABC-1".
Proof.
  intros base. repeat split.
  - rewrite make_request_run. eexists. split; [reflexivity|reflexivity].
  - destruct (rstrip_decompose base) as [n Hn].
    destruct (lstrip_decompose endpoint) as [m Hm].
    now exists n, m.
  - apply rstrip_no_trailing_slash.
  - apply lstrip_no_leading_slash.
  - intros n m. unfold request_url_of. now rewrite rstrip_slashes, lstrip_slashes.
Qed.

(** C4 as stated fails: with two trailing slashes on the base URL the
    request goes to the URL with none of them, where trimming exactly one
    would leave a doubled slash. *)
Lemma trims_more_than_one_slash :
  map request_url
      (sent (snd (_make_request (Sample.always (ConnectionFailed "down"))
                    Sample.client_two_slashes "GET" "rest/api/3/project" []
                    Sample.fresh)))
  = ["https://x.atlassian.net/rest/api/3/project"]
  /\ join_trimming_one (url (config Sample.client_two_slashes)) "rest/api/3/project"
     = "https://x.atlassian.net//rest/api/3/project".
Proof. split; reflexivity. Qed.

Lemma raise_for_status_iff (r : Response) :
  (exists e, raise_for_status r = Some e) <-> 400 <= status_code r < 600.
Proof.
  unfold raise_for_status.
  destruct (400 <=? status_code r) eqn:A, (status_code r <? 500) eqn:B,
    (500 <=? status_code r) eqn:C, (status_code r <? 600) eqn:D; simpl;
    (split; [intros [e H]; try discriminate; lia | intros H; try lia; eauto]).
Qed.

(** C2, as the code has it: a 401 or a 403 raises [AuthenticationError];
    any other status from 400 to 599 raises [APIError] with that status
    and the parsed body, or an empty mapping when the body does not parse;
    a failure of the transport raises [APIError] without a status; a
    status below 400 or above 599 raises nothing on its own account: the
    parsed body comes back, or an empty mapping when the body is empty. *)
Theorem make_request_classifies
    (session_request : list Request -> Request -> Outcome)
    (self : Client) (method endpoint : string) (kwargs : dict) (st : process) :
  let req := {| via := session self; method := method;
                request_url := request_url_of (url (config self)) endpoint;
                kwargs := kwargs |} in
  let result := fst (_make_request session_request self method endpoint kwargs st) in
  match session_request (sent st) req with
  | ConnectionFailed e => result = inl (APIError ("Network error: " ++ e) None None)
  | Answered r =>
      (status_code r = 401 \/ status_code r = 403 ->
       exists m, result = inl (AuthenticationError m))
      /\ (400 <= status_code r < 600 ->
          status_code r <> 401 -> status_code r <> 403 ->
          exists m,
            result = inl (APIError m (Some (status_code r))
                            (Some (match json_ r with
                                   | inr v => v
                                   | inl _ => JObj []
                                   end))))
      /\ (status_code r < 400 \/ 600 <= status_code r ->
          (content r = EmptyString -> result = inr (JObj []))
          /\ (forall v, content r <> EmptyString -> json_ r = inr v ->
                        result = inr v))
  end.
Proof.
  intros req result. subst result. rewrite make_request_run. fold req.
  destruct (session_request (sent st) req) as [e | r]; [reflexivity|].
  cbn [fst response_outcome]. split; [|split].
  - intros H.
    assert (Hs : 400 <= status_code r < 600) by lia.
    apply raise_for_status_iff in Hs. destruct Hs as [e ->].
    destruct H as [-> | ->]; cbn; eauto.
  - intros Hs H1 H3.
    apply raise_for_status_iff in Hs. destruct Hs as [e ->].
    destruct (Z.eqb_spec (status_code r) 401); [contradiction|].
    destruct (Z.eqb_spec (status_code r) 403); [contradiction|].
    eauto.
  - intros Hs.
    destruct (raise_for_status r) as [e|] eqn:E.
    + assert (400 <= status_code r < 600)
        by (apply raise_for_status_iff; eauto).
      lia.
    + split.
      * intros ->. reflexivity.
      * intros v Hne ->. apply truthy_str_iff in Hne. now rewrite Hne.
Qed.

Lemma make_request_classifies_witness :
  exists m,
    fst (_make_request
           (Sample.always (Answered (Sample.response 404 "gone" (inl "not JSON"))))
           Sample.client_cloud "GET" "rest/api/3/issue/ABC-1" [] Sample.fresh)
    = inl (APIError m (Some 404) (Some (JObj []))).
Proof.
  apply (proj1 (proj2 (make_request_classifies
                  (Sample.always
                     (Answered (Sample.response 404 "gone" (inl "not JSON"))))
                  Sample.client_cloud "GET" "rest/api/3/issue/ABC-1" []
                  Sample.fresh))); simpl; lia.
Defined.

(** C2 as stated fails: 304 is not a 2xx status, and no error is raised
    for it. *)
Lemma not_modified_raises_nothing :
  ~ (200 <= status_code Sample.not_modified <= 299)
  /\ fst (_make_request (Sample.always (Answered Sample.not_modified))
            Sample.client_cloud "GET" "rest/api/3/issue/ABC-1" [] Sample.fresh)
     = inr (JObj []).
Proof. split; [simpl; lia | reflexivity]. Qed.

(** ** Mappings *)

Lemma assoc_get_set_same {V : Type} (k : string) (v : V) (d : list (string * V)) :
  assoc_get k (assoc_set k v d) = Some v.
Proof.
  induction d as [|[k' v'] d IH]; simpl.
  - now rewrite String.eqb_refl.
  - destruct (String.eqb k k') eqn:E; simpl; rewrite E; [reflexivity | exact IH].
Qed.

Lemma assoc_get_set_other {V : Type} (k k0 : string) (v : V)
    (d : list (string * V)) :
  String.eqb k0 k = false -> assoc_get k0 (assoc_set k v d) = assoc_get k0 d.
Proof.
  intros Hne. induction d as [|[k' v'] d IH]; simpl.
  - now rewrite Hne.
  - destruct (String.eqb k k') eqn:E; simpl.
    + apply String.eqb_eq in E. subst k'. now rewrite Hne.
    + now rewrite IH.
Qed.

(** ** The Jira client *)

Section JiraClientFacts.

Variable session_request : list Request -> Request -> Outcome.

Ltac one_request :=
  rewrite make_request_run; cbn [snd];
  eexists; eexists; split; [reflexivity | cbn; reflexivity].

(** Every method of the Jira client sends one request, to an endpoint
    under [api_base]. *)
Lemma run_JiraCall_sends (c : Client) (call : JiraCall) (st : process) :
  exists r rest,
    snd (run_JiraCall session_request c call st) = record_sent r st
    /\ request_url r
       = request_url_of (url (config c)) (api_base c ++ "/" ++ rest).
Proof.
  destruct call; cbn [run_JiraCall];
    unfold JiraClient_get_issue, JiraClient_search_issues,
      JiraClient_create_issue, JiraClient_update_issue, JiraClient_delete_issue,
      JiraClient_add_comment, JiraClient_get_transitions,
      JiraClient_transition_issue, JiraClient_get_projects, JiraClient_get_user,
      get, post, put, delete, try_except_APIError, bind.
  - one_request.
  - one_request.
  - one_request.
  - one_request.
  - rewrite make_request_run.
    destruct (response_outcome _) as [e | v]; [destruct (is_APIError e)|];
      cbn; eexists; eexists; (split; [reflexivity | cbn; reflexivity]).
  - one_request.
  - rewrite make_request_run.
    destruct (response_outcome _) as [e | v];
      [|destruct v]; cbn; eexists; eexists;
      (split; [reflexivity | cbn; reflexivity]).
  - one_request.
  - rewrite make_request_run.
    destruct (response_outcome _) as [e | v]; cbn; eexists; eexists;
      (split; [reflexivity | cbn; reflexivity]).
  - destruct (is_cloud (config c)); one_request.
Qed.

(** The body of [create_issue] addresses the assignee by [id] on a cloud
    site and by [name] elsewhere. *)
Lemma create_issue_assignee (c : Client)
    (project_key summary issue_type : string) (kwargs : dict) (assignee : json)
    (st : process) :
  assoc_get "assignee" kwargs = Some assignee ->
  exists r body,
    snd (JiraClient_create_issue session_request c project_key summary
           issue_type kwargs st) = record_sent r st
    /\ json_body r = Some body
    /\ path2 body "fields" "assignee"
       = Some (JObj [(if is_cloud (config c) then "id" else "name", assignee)]).
Proof.
  intros Ha. unfold JiraClient_create_issue, post. rewrite Ha.
  rewrite make_request_run. cbn [snd].
  eexists; eexists; split; [reflexivity|].
  split; [reflexivity|].
  cbn [path2 assoc_get String.eqb Ascii.eqb Bool.eqb].
  destruct (is_cloud (config c)); apply assoc_get_set_same.
Qed.

End JiraClientFacts.

Lemma is_cloud_iff (cfg : Config) :
  is_cloud cfg = true <-> occurs_in "atlassian.net" (url cfg).
Proof.
  unfold is_cloud. rewrite <- py_in_iff.
  destruct (url cfg); simpl; split; auto.
Qed.

Lemma JiraClient_init_fields (cfg : Config) (c : Client) :
  JiraClient_init cfg = inr c ->
  config c = cfg
  /\ api_base c = (if is_cloud cfg then "rest/api/3" else "rest/api/2").
Proof.
  unfold JiraClient_init.
  destruct (BaseAtlassianClient_init cfg); [discriminate|].
  intros H. injection H as <-. now split.
Qed.

(** C5: a configuration is a cloud one exactly when its URL contains
    [atlassian.net]; a Jira client built from it has the segment
    [rest/api/3] when cloud and [rest/api/2] otherwise, set when it is
    built; every request of every method goes under that segment; and
    [create_issue] addresses the assignee by [id] when cloud and by [name]
    otherwise. *)
Theorem cloud_selects_api_version (cfg : Config) :
  (is_cloud cfg = true <-> occurs_in "atlassian.net" (url cfg))
  /\ forall (session_request : list Request -> Request -> Outcome) (c : Client),
      JiraClient_init cfg = inr c ->
      let segment := if is_cloud cfg then "rest/api/3" else "rest/api/2" in
      let key := if is_cloud cfg then "id" else "name" in
      api_base c = segment
      /\ (forall call st,
             exists r rest,
               sent_during st (snd (run_JiraCall session_request c call st)) [r]
               /\ request_url r
                  = rstrip_slash (url cfg) ++ "/" ++ segment ++ "/" ++ rest)
      /\ (forall project_key summary issue_type kwargs assignee st,
             assoc_get "assignee" kwargs = Some assignee ->
             exists r body,
               sent_during st
                 (snd (JiraClient_create_issue session_request c project_key
                         summary issue_type kwargs st)) [r]
               /\ json_body r = Some body
               /\ path2 body "fields" "assignee" = Some (JObj [(key, assignee)])).
Proof.
  split; [apply is_cloud_iff|].
  intros session_request c Hinit segment key.
  destruct (@JiraClient_init_fields cfg c Hinit) as [Hcfg Hbase].
  split; [exact Hbase|]. split.
  - intros call st.
    destruct (run_JiraCall_sends session_request c call st) as [r [rest [Hs Hu]]].
    exists r, rest. split.
    + unfold sent_during. now rewrite Hs.
    + rewrite Hu, Hcfg, Hbase. unfold request_url_of. subst segment.
      destruct (is_cloud cfg); reflexivity.
  - intros project_key summary issue_type kwargs assignee st Ha.
    destruct (create_issue_assignee session_request c project_key summary
                issue_type kwargs st Ha) as [r [body [Hs [Hb Hp]]]].
    exists r, body. split; [|split].
    + unfold sent_during. now rewrite Hs.
    + exact Hb.
    + rewrite Hp, Hcfg. reflexivity.
Qed.

Lemma cloud_selects_api_version_witness :
  api_base Sample.client_cloud = "rest/api/3"
  /\ exists r body,
      sent_during Sample.fresh
        (snd (JiraClient_create_issue (Sample.always (ConnectionFailed "down"))
                Sample.client_cloud "ABC" "s" "Bug" [("assignee", JStr "u1")]
                Sample.fresh)) [r]
      /\ json_body r = Some body
      /\ path2 body "fields" "assignee" = Some (JObj [("id", JStr "u1")]).
Proof.
  pose proof (proj2 (cloud_selects_api_version Sample.cfg_cloud)
                (Sample.always (ConnectionFailed "down")) Sample.client_cloud
                eq_refl) as H.
  split; [exact (proj1 H)|].
  exact (proj2 (proj2 H) "ABC" "s" "Bug" [("assignee", JStr "u1")] (JStr "u1")
           Sample.fresh eq_refl).
Defined.

Lemma unconfigured_without_credentials (c : Config) :
  ~ oauth_present c -> ~ basic_present c -> is_auth_configured c = false.
Proof.
  unfold is_auth_configured, oauth_present, basic_present.
  destruct (truthy_str (url c)), (truthy (username c)), (truthy (password c)),
    (truthy (token c)), (truthy (oauth_token c)); simpl;
    intros H1 H2; try reflexivity; exfalso; auto.
Qed.

(** ** What a computation can end with *)

Section Outcomes.

Context {A B : Type}.

Lemma ensures_ret (a : A) (P : A -> Prop) : P a -> ensures (ret a) P.
Proof. intros H st. exact H. Qed.

Lemma ensures_raise (e : exn) (P : A -> Prop) : ensures (raise e) P.
Proof. intros st. exact I. Qed.

Lemma ensures_bind (c : M A) (k : A -> M B) (Q : A -> Prop) (P : B -> Prop) :
  ensures c Q -> (forall a, Q a -> ensures (k a) P) -> ensures (bind c k) P.
Proof.
  intros Hc Hk st. unfold bind. specialize (Hc st).
  destruct (c st) as [[e | a] st']; simpl in *; [exact I|].
  apply (Hk a Hc st').
Qed.

Lemma ensures_bind_any (c : M A) (k : A -> M B) (P : B -> Prop) :
  (forall a, ensures (k a) P) -> ensures (bind c k) P.
Proof.
  intros Hk. apply ensures_bind with (Q := fun _ => True).
  - intros st. now destruct (fst (c st)).
  - intros a _. apply Hk.
Qed.

Lemma returns_try_except (body : M A) (handler : exn -> M A) (P : A -> Prop) :
  ensures body P -> (forall e, returns (handler e) P) ->
  returns (try_except body handler) P.
Proof.
  intros Hb Hh st. unfold try_except. specialize (Hb st).
  destruct (body st) as [[e | a] st']; simpl in *.
  - apply Hh.
  - now exists a, st'.
Qed.

Lemma returns_after_log (line : string) (a : A) (P : A -> Prop) :
  P a -> returns (logger_error line ;;; ret a) P.
Proof. intros H st. eexists; eexists; split; [reflexivity | exact H]. Qed.

End Outcomes.

(** ** The tools *)

Section ToolFacts.

Variable session_request : list Request -> Request -> Outcome.
Variable json_dumps : json -> nat -> bool -> string.
Variable environ : string -> option string.

Lemma is_dumps_intro (v : json) (i : nat) (a : bool) :
  is_dumps json_dumps (json_dumps v i a).
Proof. now exists v, i, a. Qed.

Ltac body_ok :=
  repeat first
    [ apply ensures_ret; apply is_dumps_intro
    | apply ensures_bind_any; intros
    | match goal with
      | |- ensures (if ?b then _ else _) _ => destruct b
      end
    | progress cbv zeta ].

Ltac tool_ok :=
  apply returns_try_except;
  [ body_ok | intros e; apply returns_after_log; apply is_dumps_intro ].

(** Every public method of the two tool classes returns a serialized
    value, whatever the server and the memoized client do. *)
Lemma run_tool_returns (op : ToolOp) :
  returns (run_tool session_request json_dumps environ op) (is_dumps json_dumps).
Proof.
  destruct op; cbn [run_tool];
    unfold JiraTools_get_issue, JiraTools_search_issues, JiraTools_create_issue,
      JiraTools_update_issue, JiraTools_delete_issue, JiraTools_add_comment,
      JiraTools_get_transitions, JiraTools_transition_issue,
      JiraTools_get_projects, JiraTools_get_user_profile,
      ConfluenceTools_search, ConfluenceTools_create_page,
      ConfluenceTools_update_page, ConfluenceTools_delete_page,
      ConfluenceTools_add_comment, ConfluenceTools_get_page_children,
      ConfluenceTools_get_page_labels, ConfluenceTools_add_page_label;
    try solve [tool_ok].
  (* get_page: the two early returns are serialized values as well *)
  unfold ConfluenceTools_get_page. apply returns_try_except;
    [| intros e; apply returns_after_log; apply is_dumps_intro].
  apply ensures_bind_any; intros client.
  apply ensures_bind
    with (Q := fun fetched : string + json =>
                 match fetched with
                 | inl early => is_dumps json_dumps early
                 | inr _ => True
                 end).
  - destruct (truthy page_id).
    + apply ensures_bind_any; intros page_data. now apply ensures_ret.
    + destruct (truthy title && truthy space_key).
      * apply ensures_bind_any; intros page_data.
        destruct (negb (json_truthy page_data)); apply ensures_ret;
          [apply is_dumps_intro | exact I].
      * apply ensures_ret. apply is_dumps_intro.
  - intros [early | page_data] H.
    + now apply ensures_ret.
    + body_ok.
Qed.

End ToolFacts.

Lemma occurs_in_cons (w : string) (c : ascii) (s : string) :
  occurs_in w s -> occurs_in w (String c s).
Proof. intros [pre [post H]]. exists (String c pre), post. simpl. now rewrite H. Qed.

Lemma occurs_in_app_r (w a b : string) : occurs_in w b -> occurs_in w (a ++ b).
Proof. rewrite <- !py_in_iff. apply py_in_app_r. Qed.

Ltac mentions :=
  first [ solve [apply py_in_iff; vm_compute; reflexivity]
        | apply occurs_in_cons; mentions
        | apply occurs_in_app_r; mentions ].

Section UnconfiguredTools.

Variable session_request : list Request -> Request -> Outcome.
Variable json_dumps : json -> nat -> bool -> string.
Variable environ : string -> option string.

Lemma jira_get_client_unconfigured (st : process) :
  jira_client st = None ->
  is_auth_configured (JiraConfig_from_env environ) = false ->
  JiraTools__get_client environ st
  = (inl (AuthenticationError
            "Jira authentication not configured. Please set JIRA_URL and authentication credentials."),
     st).
Proof. intros Hc Ha. unfold JiraTools__get_client. now rewrite Hc, Ha. Qed.

Lemma confluence_get_client_unconfigured (st : process) :
  confluence_client st = None ->
  is_auth_configured (ConfluenceConfig_from_env environ) = false ->
  ConfluenceTools__get_client environ st
  = (inl (AuthenticationError
            "Confluence authentication not configured. Please set CONFLUENCE_URL and authentication credentials."),
     st).
Proof. intros Hc Ha. unfold ConfluenceTools__get_client. now rewrite Hc, Ha. Qed.

Ltac envelope :=
  eexists; eexists; split; [reflexivity|];
  split;
  [ do 4 eexists; split; [reflexivity|]; split; [reflexivity|];
    cbn [str_exn]; mentions
  | split; [cbn; assumption | reflexivity] ].

(** Without credentials and without a memoized client every tool answers
    with an error envelope that names the authentication, sends nothing
    and leaves the tool without a client. *)
Lemma run_tool_unconfigured (op : ToolOp) (st : process) :
  is_auth_configured (tool_config environ op) = false ->
  tool_client op st = None ->
  exists out st',
    run_tool session_request json_dumps environ op st = (inr out, st')
    /\ error_envelope_mentioning json_dumps "authentication" out
    /\ tool_client op st' = None
    /\ sent st' = sent st.
Proof.
  intros Ha Hc.
  destruct op; cbn [tool_config tool_client is_jira_op] in Ha, Hc;
    cbn [run_tool];
    unfold JiraTools_get_issue, JiraTools_search_issues, JiraTools_create_issue,
      JiraTools_update_issue, JiraTools_delete_issue, JiraTools_add_comment,
      JiraTools_get_transitions, JiraTools_transition_issue,
      JiraTools_get_projects, JiraTools_get_user_profile,
      ConfluenceTools_search, ConfluenceTools_get_page,
      ConfluenceTools_create_page,
      ConfluenceTools_update_page, ConfluenceTools_delete_page,
      ConfluenceTools_add_comment, ConfluenceTools_get_page_children,
      ConfluenceTools_get_page_labels, ConfluenceTools_add_page_label;
    unfold try_except, bind at 1;
    first [ rewrite (jira_get_client_unconfigured st Hc Ha)
          | rewrite (confluence_get_client_unconfigured st Hc Ha) ];
    envelope.
Qed.

End UnconfiguredTools.

(** ** What the tools remember *)

Section Memo.

Variable session_request : list Request -> Request -> Outcome.
Variable json_dumps : json -> nat -> bool -> string.
Variable environ : string -> option string.

Context {A B : Type}.

Lemma keeps_same (m : M A) : (forall st, snd (m st) = st) -> keeps environ m.
Proof. intros H st Hst. now rewrite H. Qed.

Lemma keeps_ret (a : A) : keeps environ (ret a).
Proof. now apply keeps_same. Qed.

Lemma keeps_raise (e : exn) : keeps environ (@raise A e).
Proof. now apply keeps_same. Qed.

Lemma keeps_bind (c : M A) (k : A -> M B) :
  keeps environ c -> (forall a, keeps environ (k a)) -> keeps environ (bind c k).
Proof.
  intros Hc Hk st Hst. unfold bind. specialize (Hc st Hst).
  destruct (c st) as [[e | a] st1]; simpl in *; [exact Hc|].
  now apply Hk.
Qed.

Lemma keeps_try_except (body : M A) (handler : exn -> M A) :
  keeps environ body -> (forall e, keeps environ (handler e)) ->
  keeps environ (try_except body handler).
Proof.
  intros Hb Hh st Hst. unfold try_except. specialize (Hb st Hst).
  destruct (body st) as [[e | a] st1]; simpl in *; [now apply Hh | exact Hb].
Qed.

Lemma keeps_try_except_APIError (body handler : M A) :
  keeps environ body -> keeps environ handler ->
  keeps environ (try_except_APIError body handler).
Proof.
  intros Hb Hh st Hst. unfold try_except_APIError. specialize (Hb st Hst).
  destruct (body st) as [[e | a] st1]; simpl in *; [|exact Hb].
  destruct (is_APIError e); [now apply Hh | exact Hb].
Qed.

Lemma keeps_make_request (self : Client) (method endpoint : string)
    (kwargs : dict) :
  keeps environ (_make_request session_request self method endpoint kwargs).
Proof. intros st Hst. rewrite make_request_run. exact Hst. Qed.

Lemma keeps_logger_error (line : string) : keeps environ (logger_error line).
Proof. intros st Hst. exact Hst. Qed.

Lemma keeps_for_each (f : A -> M B) (l : list A) :
  (forall a, keeps environ (f a)) -> keeps environ (Py.for_each f l).
Proof.
  intros Hf. induction l as [|x l IH]; simpl.
  - intros st Hst. exact Hst.
  - intros st Hst. unfold bind. specialize (Hf x st Hst).
    destruct (f x st) as [[e | y] st1]; simpl in *; [exact Hf|].
    specialize (IH st1 Hf).
    destruct (Py.for_each f l st1) as [[e | ys] st2]; simpl in *; exact IH.
Qed.

End Memo.

Section MemoOfTools.

Variable session_request : list Request -> Request -> Outcome.
Variable json_dumps : json -> nat -> bool -> string.
Variable environ : string -> option string.

Lemma keeps_py_get (v : json) (k : string) (d : json) :
  keeps environ (Py.get v k d).
Proof. apply keeps_same. intros st. now destruct v. Qed.

Lemma keeps_py_iter (v : json) : keeps environ (Py.iter v).
Proof. apply keeps_same. intros st. now destruct v. Qed.

Lemma keeps_py_item0 (v : json) : keeps environ (Py.item0 v).
Proof.
  apply keeps_same. intros st.
  destruct v as [| | | | [|] | [|] |]; reflexivity.
Qed.

Lemma keeps_py_add1 (v : json) : keeps environ (Py.add1 v).
Proof. apply keeps_same. intros st. now destruct v. Qed.

Lemma keeps_jira_get_client : keeps environ (JiraTools__get_client environ).
Proof.
  intros st Hst. unfold JiraTools__get_client.
  destruct (jira_client st) eqn:E; [exact Hst|].
  destruct (is_auth_configured (JiraConfig_from_env environ)) eqn:Ha; cbn.
  - unfold bind, lift. destruct (JiraClient_init _); cbn; [exact Hst|].
    destruct Hst as [Hj Hk]. split; cbn; auto.
  - exact Hst.
Qed.

Lemma keeps_confluence_get_client :
  keeps environ (ConfluenceTools__get_client environ).
Proof.
  intros st Hst. unfold ConfluenceTools__get_client.
  destruct (confluence_client st) eqn:E; [exact Hst|].
  destruct (is_auth_configured (ConfluenceConfig_from_env environ)) eqn:Ha; cbn.
  - unfold bind, lift. destruct (ConfluenceClient_init _); cbn; [exact Hst|].
    destruct Hst as [Hj Hk]. split; cbn; auto.
  - exact Hst.
Qed.

Ltac keeps_step :=
  first
    [ apply keeps_ret
    | apply keeps_raise
    | apply keeps_make_request
    | apply keeps_logger_error
    | apply keeps_py_get
    | apply keeps_py_iter
    | apply keeps_py_item0
    | apply keeps_py_add1
    | apply keeps_jira_get_client
    | apply keeps_confluence_get_client
    | apply keeps_for_each; intros
    | match goal with
      | |- keeps _ (try_except_APIError _ _) => apply keeps_try_except_APIError
      | |- keeps _ (try_except _ _) => apply keeps_try_except; [|intros]
      | |- keeps _ (bind _ _) => apply keeps_bind; [|intros]
      | |- keeps _ (if ?b then _ else _) => destruct b
      | |- keeps _ (match ?x with _ => _ end) => destruct x
      end
    | progress cbv zeta ].

(** No call of a tool leaves it with a client it should not have. *)
Lemma run_tool_keeps (op : ToolOp) :
  keeps environ (run_tool session_request json_dumps environ op).
Proof.
  destruct op; cbn [run_tool];
    unfold JiraTools_get_issue, JiraTools_search_issues, JiraTools_create_issue,
      JiraTools_update_issue, JiraTools_delete_issue, JiraTools_add_comment,
      JiraTools_get_transitions, JiraTools_transition_issue,
      JiraTools_get_projects, JiraTools_get_user_profile,
      ConfluenceTools_search, ConfluenceTools_get_page,
      ConfluenceTools_create_page,
      ConfluenceTools_update_page, ConfluenceTools_delete_page,
      ConfluenceTools_add_comment, ConfluenceTools_get_page_children,
      ConfluenceTools_get_page_labels, ConfluenceTools_add_page_label,
      JiraClient_get_issue, JiraClient_search_issues,
      JiraClient_create_issue, JiraClient_update_issue, JiraClient_delete_issue,
      JiraClient_add_comment, JiraClient_get_transitions,
      JiraClient_transition_issue, JiraClient_get_projects, JiraClient_get_user,
      ConfluenceClient_search_content, ConfluenceClient_get_page,
      ConfluenceClient_get_page_by_title, ConfluenceClient_get_page_children,
      ConfluenceClient_create_page, ConfluenceClient_update_page,
      ConfluenceClient_delete_page, ConfluenceClient_add_comment,
      ConfluenceClient_add_page_label, ConfluenceClient_get_page_labels,
      simplify_hit, simplify_written_page, get2,
      get, post, put, delete;
    repeat keeps_step.
Qed.

Lemma reachable_clients_configured (st : process) :
  reachable session_request json_dumps environ st ->
  clients_configured environ st.
Proof.
  induction 1 as [|st op Hr IH].
  - split; intros H; now contradiction H.
  - now apply run_tool_keeps.
Qed.

(** In a reachable state a tool whose configuration is not configured
    holds no client. *)
Lemma reachable_unconfigured_has_no_client (st : process) (op : ToolOp) :
  reachable session_request json_dumps environ st ->
  is_auth_configured (tool_config environ op) = false ->
  tool_client op st = None.
Proof.
  intros Hr Ha. destruct (reachable_clients_configured Hr) as [Hj Hk].
  unfold tool_config, tool_client in *.
  destruct (is_jira_op op).
  - destruct (jira_client st); [|reflexivity].
    rewrite Hj in Ha; [discriminate | discriminate].
  - destruct (confluence_client st); [|reflexivity].
    rewrite Hk in Ha; [discriminate | discriminate].
Qed.

End MemoOfTools.

(** C1: every public method of [JiraTools] and of [ConfluenceTools], on
    every input and in every state of the process, returns a string that
    [json.dumps] produced and raises nothing; when the configuration has
    neither an OAuth token nor a user name with a secret, then in every
    state that calls of the tools lead to from the start of the process
    the string is an error envelope whose error text contains
    "authentication", and nothing is sent. *)
Theorem tools_never_raise
    (session_request : list Request -> Request -> Outcome)
    (json_dumps : json -> nat -> bool -> string)
    (environ : string -> option string)
    (op : ToolOp) (st : process) :
  (exists out st',
      run_tool session_request json_dumps environ op st = (inr out, st')
      /\ is_dumps json_dumps out)
  /\ (reachable session_request json_dumps environ st ->
      ~ oauth_present (tool_config environ op) ->
      ~ basic_present (tool_config environ op) ->
      exists out st',
        run_tool session_request json_dumps environ op st = (inr out, st')
        /\ error_envelope_mentioning json_dumps "authentication" out
        /\ sent st' = sent st).
Proof.
  split.
  - apply run_tool_returns.
  - intros Hr Ho Hb.
    pose proof (unconfigured_without_credentials Ho Hb) as Ha.
    pose proof (@reachable_unconfigured_has_no_client session_request json_dumps
                  environ st op Hr Ha) as Hc.
    destruct (@run_tool_unconfigured session_request json_dumps environ op st
                Ha Hc) as [out [st' [H1 [H2 [_ H3]]]]].
    now exists out, st'.
Qed.

Lemma tools_never_raise_witness :
  exists out st',
    run_tool (Sample.always (ConnectionFailed "down")) Sample.blank_dumps
      Sample.no_environ (Jira_get_issue "ABC-1" None None)
      (snd (run_tool (Sample.always (ConnectionFailed "down")) Sample.blank_dumps
              Sample.no_environ (Confluence_delete_page "42") process_start))
    = (inr out, st')
    /\ error_envelope_mentioning Sample.blank_dumps "authentication" out
    /\ sent st' = [].
Proof.
  apply (proj2 (tools_never_raise (Sample.always (ConnectionFailed "down"))
                  Sample.blank_dumps Sample.no_environ
                  (Jira_get_issue "ABC-1" None None)
                  (snd (run_tool (Sample.always (ConnectionFailed "down"))
                          Sample.blank_dumps Sample.no_environ
                          (Confluence_delete_page "42") process_start)))).
  - apply reachable_call. apply reachable_start.
  - unfold oauth_present. simpl. discriminate.
  - unfold basic_present. simpl. intros [H _]. discriminate.
Defined.

(** ** Running a computation step by step *)

Section Steps.

Context {A B : Type}.

Lemma bind_inr (c : M A) (k : A -> M B) (st st1 : process) (a : A) :
  c st = (inr a, st1) -> bind c k st = k a st1.
Proof. intros H. unfold bind. now rewrite H. Qed.

Lemma bind_inl (c : M A) (k : A -> M B) (st st1 : process) (e : exn) :
  c st = (inl e, st1) -> bind c k st = (inl e, st1).
Proof. intros H. unfold bind. now rewrite H. Qed.

Lemma quiet_ret (a : A) : quiet (ret a).
Proof. intros st. reflexivity. Qed.

Lemma quiet_raise (e : exn) : quiet (@raise A e).
Proof. intros st. reflexivity. Qed.

Lemma quiet_bind (c : M A) (k : A -> M B) :
  quiet c -> (forall a, quiet (k a)) -> quiet (bind c k).
Proof.
  intros Hc Hk st. unfold bind. specialize (Hc st).
  destruct (c st) as [[e | a] st1]; simpl in *; [exact Hc|].
  now rewrite Hk.
Qed.

(** After [c], a quiet continuation adds nothing to the wire. *)
Lemma sent_bind_quiet (c : M A) (k : A -> M B) (st : process) :
  (forall a, quiet (k a)) -> sent (snd (bind c k st)) = sent (snd (c st)).
Proof.
  intros Hk. unfold bind.
  destruct (c st) as [[e | a] st1]; simpl; [reflexivity | apply Hk].
Qed.

Lemma sent_try_except (body : M A) (handler : exn -> M A) (st : process) :
  (forall e, quiet (handler e)) ->
  sent (snd (try_except body handler st)) = sent (snd (body st)).
Proof.
  intros Hh. unfold try_except.
  destruct (body st) as [[e | a] st1]; simpl; [apply Hh | reflexivity].
Qed.

Lemma quiet_after_log (line : string) (a : A) :
  quiet (logger_error line ;;; ret a).
Proof. intros st. reflexivity. Qed.

End Steps.

Lemma quiet_get (v : json) (k : string) (d : json) : quiet (Py.get v k d).
Proof. intros st. now destruct v. Qed.

Lemma quiet_get2 (v : json) (k1 k2 : string) (d : json) : quiet (get2 v k1 k2 d).
Proof. apply quiet_bind; [apply quiet_get | intros a; apply quiet_get]. Qed.

Lemma quiet_iter (v : json) : quiet (Py.iter v).
Proof. intros st. now destruct v. Qed.

Lemma quiet_simplify_hit (v : json) : quiet (simplify_hit v).
Proof.
  unfold simplify_hit.
  repeat first [ apply quiet_ret
               | apply quiet_bind; [first [apply quiet_get | apply quiet_get2] | intros ?] ].
Qed.

Lemma quiet_simplify_written_page (v : json) : quiet (simplify_written_page v).
Proof.
  unfold simplify_written_page.
  repeat first [ apply quiet_ret
               | apply quiet_bind; [first [apply quiet_get | apply quiet_get2] | intros ?] ].
Qed.

Lemma quiet_for_each {A B} (f : A -> M B) (l : list A) :
  (forall a, quiet (f a)) -> quiet (Py.for_each f l).
Proof.
  intros Hf. induction l as [|x l IH]; simpl.
  - apply quiet_ret.
  - apply quiet_bind; [apply Hf | intros y].
    apply quiet_bind; [exact IH | intros ys; apply quiet_ret].
Qed.

(** [v.get(k1, {}).get(k2, d)] along a path that exists. *)
Lemma get2_present (v : json) (k1 k2 : string) (d x : json) (st : process) :
  path2 v k1 k2 = Some x -> get2 v k1 k2 d st = (inr x, st).
Proof.
  unfold path2, get2, bind. destruct v; try discriminate. simpl.
  destruct (assoc_get k1 d0) as [[| | | | | |d']|]; try discriminate.
  simpl. now intros ->.
Qed.

Lemma jira_get_client_sent (environ : string -> option string)
    (st st1 : process) (c : Client) :
  JiraTools__get_client environ st = (inr c, st1) ->
  sent st1 = sent st /\ jira_client st1 = Some c.
Proof.
  unfold JiraTools__get_client. destruct (jira_client st) eqn:E.
  - cbn. intros H. injection H as <- <-. now split.
  - destruct (negb _); [discriminate|].
    unfold bind, lift. destruct (JiraClient_init _); [discriminate|].
    cbn. intros H. injection H as <- <-. now split.
Qed.

Lemma confluence_get_client_sent (environ : string -> option string)
    (st st1 : process) (c : Client) :
  ConfluenceTools__get_client environ st = (inr c, st1) ->
  sent st1 = sent st /\ confluence_client st1 = Some c.
Proof.
  unfold ConfluenceTools__get_client. destruct (confluence_client st) eqn:E.
  - cbn. intros H. injection H as <- <-. now split.
  - destruct (negb _); [discriminate|].
    unfold bind, lift. destruct (ConfluenceClient_init _); [discriminate|].
    cbn. intros H. injection H as <- <-. now split.
Qed.

(** ** Updating a Confluence page *)

Section UpdatePage.

Variable session_request : list Request -> Request -> Outcome.
Variable json_dumps : json -> nat -> bool -> string.
Variable environ : string -> option string.

(** The one request of the client's [update_page]. *)
Lemma update_page_run (c : Client) (page_id title content : string) (n : Z)
    (parent_id : option string) (st : process) :
  exists r body,
    ConfluenceClient_update_page session_request c page_id title content
      (JNum n) parent_id st
    = (response_outcome (session_request (sent st) r), record_sent r st)
    /\ method r = "PUT"
    /\ request_url r
       = request_url_of (url (config c)) (api_base c ++ "/content/" ++ page_id)
    /\ json_body r = Some body
    /\ path2 body "version" "number" = Some (JNum (n + 1)).
Proof.
  unfold ConfluenceClient_update_page, put.
  cbn [Py.add1]. unfold bind at 1. cbn [ret].
  rewrite make_request_run.
  destruct (truthy parent_id);
    (eexists; eexists; split; [reflexivity|]); cbn; repeat split; reflexivity.
Qed.

Lemma get_page_run (c : Client) (page_id : string) (st st2 : process)
    (page : json) :
  ConfluenceClient_get_page session_request c page_id None st = (inr page, st2) ->
  exists r, st2 = record_sent r st /\ method r = "GET"
            /\ request_url r
               = request_url_of (url (config c))
                   (api_base c ++ "/content/" ++ page_id).
Proof.
  unfold ConfluenceClient_get_page, get. rewrite make_request_run.
  intros H. injection H as _ <-. eexists. repeat split.
Qed.

(** The tool's [update_page], once it has its client, the page and the
    page's current version. *)
Lemma tool_update_page_sends (c : Client) (page_id title content : string)
    (parent_id : option string) (st st1 st2 : process) (page : json) (n : Z) :
  ConfluenceTools__get_client environ st = (inr c, st1) ->
  ConfluenceClient_get_page session_request c page_id None st1 = (inr page, st2) ->
  get2 page "version" "number" (JNum 0) st2 = (inr (JNum n), st2) ->
  exists get_req put_req body,
    sent_during st
      (snd (ConfluenceTools_update_page session_request json_dumps environ
              page_id title content parent_id st))
      [get_req; put_req]
    /\ method get_req = "GET" /\ method put_req = "PUT"
    /\ request_url get_req = request_url put_req
    /\ json_body put_req = Some body
    /\ path2 body "version" "number" = Some (JNum (n + 1)).
Proof.
  intros Hc Hg Hv.
  destruct (confluence_get_client_sent _ _ Hc) as [Hs1 _].
  destruct (get_page_run _ _ _ Hg) as [g [-> [Hgm Hgu]]].
  destruct (update_page_run c page_id title content n parent_id
              (record_sent g st1)) as [r [body [Hr [Hm [Hu [Hb Hp]]]]]].
  exists g, r, body. repeat split; auto; [|congruence].
  unfold sent_during, ConfluenceTools_update_page.
  rewrite sent_try_except by (intros e; apply quiet_after_log).
  erewrite bind_inr by exact Hc.
  erewrite bind_inr by exact Hg.
  erewrite bind_inr by exact Hv.
  rewrite sent_bind_quiet.
  - rewrite Hr. cbn. rewrite Hs1, <- app_assoc. reflexivity.
  - intros page_data. apply quiet_bind; [apply quiet_simplify_written_page|].
    intros sp. apply quiet_ret.
Qed.

End UpdatePage.


(** C6: the body that the client's [update_page] sends carries
    [version.number = version + 1], and the tool's [update_page] first
    fetches the page and hands the version number it finds there to the
    client, so that the [PUT] that follows the [GET] asks for that number
    plus one. *)
Theorem update_page_requests_next_version
    (session_request : list Request -> Request -> Outcome)
    (json_dumps : json -> nat -> bool -> string)
    (environ : string -> option string) :
  (forall (c : Client) (page_id title content : string) (version : Z)
          (parent_id : option string) (st : process),
      exists r body,
        sent_during st
          (snd (ConfluenceClient_update_page session_request c page_id title
                  content (JNum version) parent_id st)) [r]
        /\ method r = "PUT"
        /\ json_body r = Some body
        /\ path2 body "version" "number" = Some (JNum (version + 1)))
  /\ (forall (c : Client) (page_id title content : string)
             (parent_id : option string) (st st1 st2 : process) (page : json)
             (n : Z),
         ConfluenceTools__get_client environ st = (inr c, st1) ->
         ConfluenceClient_get_page session_request c page_id None st1
         = (inr page, st2) ->
         path2 page "version" "number" = Some (JNum n) ->
         exists get_req put_req body,
           sent_during st
             (snd (ConfluenceTools_update_page session_request json_dumps environ
                     page_id title content parent_id st))
             [get_req; put_req]
           /\ method get_req = "GET" /\ method put_req = "PUT"
           /\ request_url get_req = request_url put_req
           /\ json_body put_req = Some body
           /\ path2 body "version" "number" = Some (JNum (n + 1))).
Proof.
  split.
  - intros c page_id title content version parent_id st.
    destruct (update_page_run session_request c page_id title content version
                parent_id st) as [r [body [Hr [Hm [_ [Hb Hp]]]]]].
    exists r, body. repeat split; auto.
    unfold sent_during. now rewrite Hr.
  - intros c page_id title content parent_id st st1 st2 page n Hc Hg Hv.
    eapply tool_update_page_sends; eauto.
    now apply get2_present.
Qed.

Lemma update_page_requests_next_version_witness :
  exists get_req put_req body,
    sent_during Sample.warm
      (snd (ConfluenceTools_update_page
              (Sample.always
                 (Answered (Sample.response 200 "{..}" (inr Sample.page_v3))))
              Sample.blank_dumps Sample.no_environ "42" "T" "<p>x</p>" None
              Sample.warm))
      [get_req; put_req]
    /\ method get_req = "GET" /\ method put_req = "PUT"
    /\ request_url get_req = request_url put_req
    /\ json_body put_req = Some body
    /\ path2 body "version" "number" = Some (JNum (3 + 1)).
Proof.
  refine (proj2 (update_page_requests_next_version
                   (Sample.always
                      (Answered (Sample.response 200 "{..}" (inr Sample.page_v3))))
                   Sample.blank_dumps Sample.no_environ)
            Sample.confluence "42" "T" "<p>x</p>" None Sample.warm Sample.warm
            (snd (ConfluenceClient_get_page
                    (Sample.always
                       (Answered (Sample.response 200 "{..}"
                                    (inr Sample.page_v3))))
                    Sample.confluence "42" None Sample.warm))
            Sample.page_v3 3 _ _ _); reflexivity.
Defined.



(** ** Searching Confluence *)

Lemma has_token_iff (query : string) :
  existsb (fun x => py_in x query) cql_tokens = true
  <-> exists tok, In tok cql_tokens /\ occurs_in tok query.
Proof.
  rewrite existsb_exists. split; intros [tok [Hin H]]; exists tok;
    (split; [exact Hin | now apply py_in_iff]).
Qed.

(** C7: once the tool has its client, [search] sends one [GET] to the
    search endpoint whose [cql] parameter is [siteSearch ~ "<query>"] when
    the query is not empty and contains none of the six tokens [=], [~],
    [>], [<], [ AND ], [ OR ] (the last two with a space on either side),
    and is the query itself when it contains one of them. The quote around
    the query is the double quote, character 34. *)
Theorem search_wraps_bare_keywords
    (session_request : list Request -> Request -> Outcome)
    (json_dumps : json -> nat -> bool -> string)
    (environ : string -> option string)
    (c : Client) (query : string) (limit start : Z) (st st1 : process) :
  ConfluenceTools__get_client environ st = (inr c, st1) ->
  exists r params cql,
    sent_during st
      (snd (ConfluenceTools_search session_request json_dumps environ query
              limit start st)) [r]
    /\ method r = "GET"
    /\ request_url r = request_url_of (url (config c)) (api_base c ++ "/search")
    /\ query_params r = Some params
    /\ field params "cql" = Some (JStr cql)
    /\ (query <> EmptyString ->
        (forall tok, In tok ["="; "~"; ">"; "<"; " AND "; " OR "] ->
                     ~ occurs_in tok query) ->
        cql = "siteSearch ~ "
              ++ String (ascii_of_nat 34)
                   (query ++ String (ascii_of_nat 34) EmptyString))
    /\ ((exists tok, In tok ["="; "~"; ">"; "<"; " AND "; " OR "]
                     /\ occurs_in tok query) ->
        cql = query).
Proof.
  intros Hc. destruct (confluence_get_client_sent _ _ Hc) as [Hs1 _].
  eexists; eexists; eexists. split; [|split; [|split; [|split; [|split; [|split]]]]].
  - unfold sent_during, ConfluenceTools_search.
    rewrite sent_try_except by (intros e; apply quiet_after_log).
    erewrite bind_inr by exact Hc.
    cbv zeta. rewrite sent_bind_quiet.
    + unfold ConfluenceClient_search_content, get. rewrite make_request_run.
      cbn [snd record_sent sent]. rewrite Hs1. reflexivity.
    + intros search_result.
      apply quiet_bind; [apply quiet_get | intros results].
      apply quiet_bind; [apply quiet_iter | intros items].
      apply quiet_bind;
        [apply quiet_for_each; apply quiet_simplify_hit | intros simplified].
      apply quiet_ret.
  - reflexivity.
  - reflexivity.
  - reflexivity.
  - reflexivity.
  - intros Hne Hno.
    apply truthy_str_iff in Hne. rewrite Hne.
    destruct (existsb _ cql_tokens) eqn:E; [|reflexivity].
    apply has_token_iff in E. destruct E as [tok [Hin Hocc]].
    exfalso. exact (Hno tok Hin Hocc).
  - intros Htok. apply has_token_iff in Htok. rewrite Htok.
    now rewrite andb_false_r.
Qed.

Lemma search_wraps_bare_keywords_witness :
  exists r params,
    sent_during Sample.warm
      (snd (ConfluenceTools_search (Sample.always (ConnectionFailed "down"))
              Sample.blank_dumps Sample.no_environ "hello" 25 0 Sample.warm)) [r]
    /\ query_params r = Some params
    /\ field params "cql"
       = Some (JStr ("siteSearch ~ "
                     ++ String (ascii_of_nat 34)
                          ("hello" ++ String (ascii_of_nat 34) EmptyString))).
Proof.
  destruct (@search_wraps_bare_keywords (Sample.always (ConnectionFailed "down"))
              Sample.blank_dumps Sample.no_environ Sample.confluence "hello" 25 0
              Sample.warm Sample.warm eq_refl)
    as [r [params [cql [Hs [_ [_ [Hp [Hf [Hwrap _]]]]]]]]].
  exists r, params. split; [exact Hs|]. split; [exact Hp|].
  rewrite Hf. f_equal. f_equal. apply Hwrap.
  - discriminate.
  - intros tok Hin Hocc. apply py_in_iff in Hocc.
    simpl in Hin.
    repeat (destruct Hin as [<- | Hin]; [vm_compute in Hocc; discriminate|]).
    exact Hin.
Defined.

(** The second example of the specification: a query that is CQL already
    travels unchanged. *)
Example search_passes_cql_through :
  map (fun r => option_map (fun p => field p "cql") (query_params r))
      (sent (snd (ConfluenceTools_search (Sample.always (ConnectionFailed "down"))
                    Sample.blank_dumps Sample.no_environ "space = DEV" 25 0
                    Sample.warm)))
  = [Some (Some (JStr "space = DEV"))].
Proof. reflexivity. Qed.

(** ** Field filters of the Jira tools *)

Lemma field_list_of_unfiltered (fields : option string) :
  fields = None \/ fields = Some EmptyString \/ fields = Some "*all" ->
  field_list_of fields = None.
Proof. intros [-> | [-> | ->]]; reflexivity. Qed.

Lemma field_list_of_filtered (f : string) :
  f <> EmptyString -> f <> "*all" -> field_list_of (Some f) = Some (split comma f).
Proof.
  intros H1 H2. unfold field_list_of.
  apply truthy_str_iff in H1. rewrite H1.
  destruct (String.eqb_spec f "*all"); [contradiction | reflexivity].
Qed.

Section FieldFilters.

Variable session_request : list Request -> Request -> Outcome.
Variable json_dumps : json -> nat -> bool -> string.
Variable environ : string -> option string.

(** The tool's [get_issue] sends what the client's does, with the field
    list the tool computes. *)
Lemma tool_get_issue_sent (c : Client) (issue_key : string)
    (fields expand : option string) (st st1 : process) :
  JiraTools__get_client environ st = (inr c, st1) ->
  sent (snd (JiraTools_get_issue session_request json_dumps environ issue_key
               fields expand st))
  = sent (snd (JiraClient_get_issue session_request c issue_key
                 (field_list_of fields) expand st1)).
Proof.
  intros Hc. unfold JiraTools_get_issue.
  rewrite sent_try_except by (intros e; apply quiet_after_log).
  erewrite bind_inr by exact Hc. cbv zeta.
  now rewrite sent_bind_quiet by (intros a; apply quiet_ret).
Qed.

Lemma tool_search_issues_sent (c : Client) (jql : string)
    (fields : option string) (start_at max_results : Z) (st st1 : process) :
  JiraTools__get_client environ st = (inr c, st1) ->
  sent (snd (JiraTools_search_issues session_request json_dumps environ jql
               fields start_at max_results st))
  = sent (snd (JiraClient_search_issues session_request c jql
                 (field_list_of fields) start_at max_results st1)).
Proof.
  intros Hc. unfold JiraTools_search_issues.
  rewrite sent_try_except by (intros e; apply quiet_after_log).
  erewrite bind_inr by exact Hc. cbv zeta.
  now rewrite sent_bind_quiet by (intros a; apply quiet_ret).
Qed.

End FieldFilters.

(** C9: in [get_issue] and [search_issues] of the Jira tools a [fields]
    argument that is absent, empty or exactly [*all] gives the client no
    field list, and the request carries no [fields] entry; any other string
    is split on commas: the field list is the one list of comma-free pieces
    that spell the string when a comma is put between each two of them, and
    the request carries it, joined again by commas (so: the string itself)
    in the parameters of [get_issue], as a list in the body of
    [search_issues]. *)
Theorem star_all_is_no_field_filter
    (session_request : list Request -> Request -> Outcome)
    (json_dumps : json -> nat -> bool -> string)
    (environ : string -> option string)
    (c : Client) (fields : option string) (st st1 : process) :
  JiraTools__get_client environ st = (inr c, st1) ->
  let unfiltered :=
    fields = None \/ fields = Some EmptyString \/ fields = Some "*all" in
  let filtered (f : string) (pieces : list string) :=
    fields = Some f /\ f <> EmptyString /\ f <> "*all"
    /\ splits_at_commas f pieces in
  ((unfiltered -> field_list_of fields = None)
   /\ (forall f, fields = Some f -> f <> EmptyString -> f <> "*all" ->
                 exists pieces,
                   splits_at_commas f pieces
                   /\ field_list_of fields = Some pieces)
   /\ (forall f pieces, filtered f pieces -> field_list_of fields = Some pieces))
  /\ (forall issue_key expand,
         exists r params,
           sent_during st
             (snd (JiraTools_get_issue session_request json_dumps environ
                     issue_key fields expand st)) [r]
           /\ query_params r = Some params
           /\ (unfiltered -> field params "fields" = None)
           /\ (forall f pieces, filtered f pieces ->
                                field params "fields" = Some (JStr f)))
  /\ (forall jql start_at max_results,
         exists r body,
           sent_during st
             (snd (JiraTools_search_issues session_request json_dumps environ
                     jql fields start_at max_results st)) [r]
           /\ json_body r = Some body
           /\ (unfiltered -> field body "fields" = None)
           /\ (forall f pieces, filtered f pieces ->
                                field body "fields"
                                = Some (JList (map JStr pieces)))).
Proof.
  intros Hc unfiltered filtered.
  destruct (jira_get_client_sent _ _ Hc) as [Hs1 _].
  assert (Hf : forall f pieces, filtered f pieces ->
                                field_list_of fields = Some pieces).
  { intros f pieces [-> [H1 [H2 Hp]]].
    rewrite (@field_list_of_filtered f H1 H2). f_equal. now apply split_sound. }
  split; [split; [|split]|split].
  - apply field_list_of_unfiltered.
  - intros f -> H1 H2. exists (split comma f).
    split; [apply split_complete | now apply field_list_of_filtered].
  - exact Hf.
  - intros issue_key expand.
    eexists; eexists. split; [|split; [|split]].
    + unfold sent_during. erewrite tool_get_issue_sent by exact Hc.
      unfold JiraClient_get_issue, get. rewrite make_request_run.
      cbn [snd record_sent sent]. rewrite Hs1. reflexivity.
    + reflexivity.
    + intros Hu. rewrite (@field_list_of_unfiltered fields Hu).
      destruct (truthy expand); reflexivity.
    + intros f pieces [-> [H1 [H2 Hp]]].
      rewrite (@field_list_of_filtered f H1 H2).
      pose proof (@split_nonempty comma f) as Hne.
      pose proof (join_split comma f) as Hj.
      destruct (split comma f) as [|h t]; [congruence|].
      rewrite <- Hj. destruct (truthy expand); reflexivity.
  - intros jql start_at max_results.
    pose proof (@field_list_of_unfiltered fields) as Hu.
    destruct (field_list_of fields) as [[|h t]|] eqn:E;
      (eexists; eexists; split; [|split; [|split]];
       [ unfold sent_during; erewrite tool_search_issues_sent by exact Hc;
         rewrite E; unfold JiraClient_search_issues, post;
         rewrite make_request_run; cbn [snd record_sent sent];
         rewrite Hs1; reflexivity
       | reflexivity
       | intros H; try reflexivity; specialize (Hu H); discriminate
       | intros f pieces H; specialize (Hf f pieces H);
         try discriminate Hf; injection Hf as <- ]).
    + destruct H as [-> [H1 [H2 Hp]]].
      rewrite (@field_list_of_filtered f H1 H2) in E.
      exfalso. injection E as E. exact (@split_nonempty comma f E).
    + reflexivity.
Qed.

Lemma star_all_is_no_field_filter_witness :
  (field_list_of (Some "*all") = None
   /\ exists r params,
       sent_during Sample.warm
         (snd (JiraTools_get_issue (Sample.always (ConnectionFailed "down"))
                 Sample.blank_dumps Sample.no_environ "ABC-1" (Some "*all") None
                 Sample.warm)) [r]
       /\ query_params r = Some params
       /\ field params "fields" = None)
  /\ (field_list_of (Some "summary,status") = Some ["summary"; "status"]
      /\ (exists r params,
             sent_during Sample.warm
               (snd (JiraTools_get_issue (Sample.always (ConnectionFailed "down"))
                       Sample.blank_dumps Sample.no_environ "ABC-1"
                       (Some "summary,status") None Sample.warm)) [r]
             /\ query_params r = Some params
             /\ field params "fields" = Some (JStr "summary,status"))
      /\ (exists r body,
             sent_during Sample.warm
               (snd (JiraTools_search_issues
                       (Sample.always (ConnectionFailed "down"))
                       Sample.blank_dumps Sample.no_environ "project = ABC"
                       (Some "summary,status") 0 50 Sample.warm)) [r]
             /\ json_body r = Some body
             /\ field body "fields"
                = Some (JList [JStr "summary"; JStr "status"]))).
Proof.
  assert (Hcut : splits_at_commas "summary,status" ["summary"; "status"]).
  { apply (splits_more (p := "summary") (rest := "status")).
    - rewrite <- py_in_iff. discriminate.
    - apply splits_last. rewrite <- py_in_iff. discriminate. }
  split.
  - pose proof (@star_all_is_no_field_filter
                  (Sample.always (ConnectionFailed "down")) Sample.blank_dumps
                  Sample.no_environ Sample.client_cloud (Some "*all") Sample.warm
                  Sample.warm eq_refl) as [[Hl _] [Hg _]].
    split; [apply Hl; right; right; reflexivity|].
    destruct (Hg "ABC-1" None) as [r [params [Hs [Hp [Hu _]]]]].
    exists r, params. repeat split; auto.
  - pose proof (@star_all_is_no_field_filter
                  (Sample.always (ConnectionFailed "down")) Sample.blank_dumps
                  Sample.no_environ Sample.client_cloud (Some "summary,status")
                  Sample.warm Sample.warm eq_refl) as [[_ [_ Hl]] [Hg Hq]].
    assert (Hfil : Some "summary,status" = Some "summary,status"
                   /\ "summary,status" <> EmptyString
                   /\ "summary,status" <> "*all"
                   /\ splits_at_commas "summary,status" ["summary"; "status"]).
    { split; [reflexivity|]. split; [discriminate|]. split; [discriminate|].
      exact Hcut. }
    split; [exact (Hl _ _ Hfil)|]. split.
    + destruct (Hg "ABC-1" None) as [r [params [Hs [Hp [_ Hf]]]]].
      exists r, params. split; [exact Hs|]. split; [exact Hp|].
      exact (Hf _ _ Hfil).
    + destruct (Hq "project = ABC" 0 50) as [r [body [Hs [Hp [_ Hf]]]]].
      exists r, body. split; [exact Hs|]. split; [exact Hp|].
      exact (Hf _ _ Hfil).
Defined.

(** ** Deleting *)

Section Deleting.

Variable session_request : list Request -> Request -> Outcome.
Variable json_dumps : json -> nat -> bool -> string.
Variable environ : string -> option string.

(** [try: self.delete(endpoint); return True  except APIError: return
    False], in terms of what the [DELETE] does. *)
Lemma guarded_delete_run (c : Client) (endpoint : string) (st : process) :
  try_except_APIError (delete session_request c endpoint ;;; ret true)
    (ret false) st
  = (match fst (delete session_request c endpoint st) with
     | inr _ => inr true
     | inl e => if is_APIError e then inr false else inl e
     end,
     snd (delete session_request c endpoint st)).
Proof.
  unfold try_except_APIError, bind.
  destruct (delete session_request c endpoint st) as [[e | v] st']; cbn;
    [destruct (is_APIError e)|]; reflexivity.
Qed.

Lemma tool_delete_issue_swallowed (c : Client) (issue_key : string)
    (st0 st : process) (m : string) (s : option Z) (d : option json) :
  JiraTools__get_client environ st0 = (inr c, st) ->
  fst (delete session_request c (api_base c ++ "/issue/" ++ issue_key) st)
  = inl (APIError m s d) ->
  fst (JiraTools_delete_issue session_request json_dumps environ issue_key st0)
  = inr (json_dumps
           (JObj [("error",
                   JStr ("Failed to delete issue " ++ issue_key
                         ++ ". Issue may not exist or you may not have permission."))])
           2 true).
Proof.
  intros Hc Hd. unfold JiraTools_delete_issue, try_except.
  erewrite bind_inr by exact Hc.
  unfold bind at 1. unfold JiraClient_delete_issue.
  rewrite guarded_delete_run, Hd. reflexivity.
Qed.

Lemma tool_delete_page_swallowed (c : Client) (page_id : string)
    (st0 st : process) (m : string) (s : option Z) (d : option json) :
  ConfluenceTools__get_client environ st0 = (inr c, st) ->
  fst (delete session_request c (api_base c ++ "/content/" ++ page_id) st)
  = inl (APIError m s d) ->
  fst (ConfluenceTools_delete_page session_request json_dumps environ page_id st0)
  = inr (json_dumps
           (JObj [("success", JBool false);
                  ("message", JStr ("Unable to delete page " ++ page_id))])
           2 true).
Proof.
  intros Hc Hd. unfold ConfluenceTools_delete_page, try_except.
  erewrite bind_inr by exact Hc.
  unfold bind at 1. unfold ConfluenceClient_delete_page.
  rewrite guarded_delete_run, Hd. reflexivity.
Qed.

End Deleting.

(** A key that a mapping holds is among its keys, and a word among the
    words of a joined string occurs in it. *)
Lemma assoc_get_key (k : string) (d : dict) (v : json) :
  assoc_get k d = Some v -> In k (map fst d).
Proof.
  induction d as [|[k' v'] d IH]; simpl; [discriminate|].
  destruct (String.eqb_spec k k') as [->|Hne]; [now left | intros H; right; auto].
Qed.

Lemma occurs_in_join (sep w : string) (l : list string) :
  In w l -> occurs_in w (join sep l).
Proof.
  induction l as [|x l IH]; [intros []|].
  intros [-> | Hin].
  - destruct l as [|y l].
    + exists EmptyString, EmptyString. cbn [join]. simpl.
      now rewrite append_nil_r.
    + exists EmptyString, (sep ++ join sep (y :: l)). reflexivity.
  - destruct l as [|y l]; [destruct Hin|].
    change (join sep (x :: y :: l)) with (x ++ sep ++ join sep (y :: l)).
    apply occurs_in_app_r, occurs_in_app_r, IH, Hin.
Qed.

Lemma keys_dumps_has_key (k out : string) (fields : dict) (v : json)
    (i : nat) (a : bool) :
  out = Sample.keys_dumps (JObj fields) i a ->
  assoc_get k fields = Some v ->
  py_in k out = true.
Proof.
  intros -> H. apply py_in_iff. cbn [Sample.keys_dumps].
  eapply occurs_in_join, assoc_get_key, H.
Qed.

(** C8, as the specification words it, fails: when the [DELETE] is
    answered 404 (an [APIError]), what [ConfluenceTools.delete_page]
    returns is the serialization of a mapping with the keys [success] and
    [message], which is not a failure envelope of the specification (it
    has no [error] entry, and no [page_id]); and what
    [JiraTools.delete_issue] returns has an [error] entry but no
    [issue_key]. *)
Lemma delete_failure_is_no_error_envelope :
  (exists m s d,
      fst (delete Sample.refusing Sample.confluence
             (api_base Sample.confluence ++ "/content/42") Sample.warm)
      = inl (APIError m s d))
  /\ fst (ConfluenceTools_delete_page Sample.refusing Sample.keys_dumps
            Sample.no_environ "42" Sample.warm)
     = inr "success,message"
  /\ ~ error_envelope_with Sample.keys_dumps "page_id" "success,message"
  /\ (exists m s d,
         fst (delete Sample.refusing Sample.client_cloud
                (api_base Sample.client_cloud ++ "/issue/ABC-1") Sample.warm)
         = inl (APIError m s d))
  /\ fst (JiraTools_delete_issue Sample.refusing Sample.keys_dumps
            Sample.no_environ "ABC-1" Sample.warm)
     = inr "error"
  /\ ~ error_envelope_with Sample.keys_dumps "issue_key" "error".
Proof.
  split; [do 3 eexists; reflexivity|].
  split; [reflexivity|].
  split.
  { intros [fields [msg [id [i [a [Hout [Herr _]]]]]]].
    pose proof (@keys_dumps_has_key _ _ _ _ _ _ Hout Herr) as H.
    vm_compute in H. discriminate. }
  split; [do 3 eexists; reflexivity|].
  split; [reflexivity|].
  intros [fields [msg [id [i [a [Hout [_ Hid]]]]]]].
  pose proof (@keys_dumps_has_key _ _ _ _ _ _ Hout Hid) as H.
  vm_compute in H. discriminate.
Qed.

(** C8, amended: when the [DELETE] raises an [APIError], the client's
    [delete_issue] and [delete_page] return [False] and raise nothing, and
    they return [True] when the [DELETE] succeeds; the tool then returns
    the serialization of a mapping that reports the failure:
    [JiraTools.delete_issue] a mapping with the one entry [error], whose
    text names the issue key, [ConfluenceTools.delete_page] a mapping with
    [success] false and a [message] that names the page id; and whatever
    happens during a delete, the tool returns a serialized value and
    raises nothing. *)
Theorem delete_swallows_api_errors
    (session_request : list Request -> Request -> Outcome)
    (json_dumps : json -> nat -> bool -> string)
    (environ : string -> option string)
    (c : Client) (key : string) (st : process) :
  let issue_delete := delete session_request c (api_base c ++ "/issue/" ++ key) st in
  let page_delete := delete session_request c (api_base c ++ "/content/" ++ key) st in
  ((forall m s d, fst issue_delete = inl (APIError m s d) ->
                  JiraClient_delete_issue session_request c key st
                  = (inr false, snd issue_delete))
   /\ (forall v, fst issue_delete = inr v ->
                 JiraClient_delete_issue session_request c key st
                 = (inr true, snd issue_delete))
   /\ (forall m s d, fst page_delete = inl (APIError m s d) ->
                     ConfluenceClient_delete_page session_request c key st
                     = (inr false, snd page_delete))
   /\ (forall v, fst page_delete = inr v ->
                 ConfluenceClient_delete_page session_request c key st
                 = (inr true, snd page_delete)))
  /\ ((forall st0 m s d,
          JiraTools__get_client environ st0 = (inr c, st) ->
          fst issue_delete = inl (APIError m s d) ->
          fst (JiraTools_delete_issue session_request json_dumps environ key st0)
          = inr (json_dumps
                   (JObj [("error",
                           JStr ("Failed to delete issue " ++ key
                                 ++ ". Issue may not exist or you may not have permission."))])
                   2%nat true))
      /\ (forall st0 m s d,
             ConfluenceTools__get_client environ st0 = (inr c, st) ->
             fst page_delete = inl (APIError m s d) ->
             fst (ConfluenceTools_delete_page session_request json_dumps environ
                    key st0)
             = inr (json_dumps
                      (JObj [("success", JBool false);
                             ("message", JStr ("Unable to delete page " ++ key))])
                      2%nat true)))
  /\ (forall st0,
         (exists out st',
             JiraTools_delete_issue session_request json_dumps environ key st0
             = (inr out, st') /\ is_dumps json_dumps out)
         /\ (exists out st',
                ConfluenceTools_delete_page session_request json_dumps environ key st0
                = (inr out, st') /\ is_dumps json_dumps out)).
Proof.
  intros issue_delete page_delete. split; [|split].
  - unfold JiraClient_delete_issue, ConfluenceClient_delete_page.
    rewrite !guarded_delete_run. fold issue_delete page_delete.
    repeat split; intros; match goal with H : fst _ = _ |- _ => now rewrite H end.
  - split; intros st0 m s d Hc Hd.
    + eapply tool_delete_issue_swallowed; eauto.
    + eapply tool_delete_page_swallowed; eauto.
  - intros st0. split.
    + apply (run_tool_returns session_request json_dumps environ
               (Jira_delete_issue key) st0).
    + apply (run_tool_returns session_request json_dumps environ
               (Confluence_delete_page key) st0).
Qed.

Lemma delete_swallows_api_errors_witness :
  JiraClient_delete_issue Sample.refusing Sample.client_cloud "ABC-1" Sample.warm
  = (inr false,
     snd (delete Sample.refusing Sample.client_cloud "rest/api/3/issue/ABC-1"
            Sample.warm))
  /\ fst (ConfluenceTools_delete_page Sample.refusing Sample.keys_dumps
            Sample.no_environ "42" Sample.warm)
     = inr "success,message".
Proof.
  split.
  - refine (proj1 (proj1 (@delete_swallows_api_errors
                            Sample.refusing Sample.blank_dumps Sample.no_environ
                            Sample.client_cloud "ABC-1" Sample.warm))
              _ (Some 404) (Some (JObj [])) _).
    reflexivity.
  - refine (proj2 (proj1 (proj2 (@delete_swallows_api_errors
                                   Sample.refusing Sample.keys_dumps
                                   Sample.no_environ Sample.confluence "42"
                                   Sample.warm)))
              Sample.warm _ (Some 404) (Some (JObj [])) eq_refl _).
    reflexivity.
Defined.

(* ================================================================== *)
(** * Further properties of the code *)

(** ** Properties of the process that every step maintains *)

Section Maintaining.

Variable session_request : list Request -> Request -> Outcome.
Variable P : process -> Prop.
Hypothesis P_sent : forall r st, P st -> P (record_sent r st).

Lemma maintains_same {A} (m : M A) :
  (forall st, snd (m st) = st) -> maintains P m.
Proof. intros H st Hst. now rewrite H. Qed.

Lemma maintains_ret {A} (a : A) : maintains P (ret a).
Proof. now apply maintains_same. Qed.

Lemma maintains_raise {A} (e : exn) : maintains P (@raise A e).
Proof. now apply maintains_same. Qed.

Lemma maintains_lift {A} (r : exn + A) : maintains P (lift r).
Proof. now apply maintains_same. Qed.

Lemma maintains_bind {A B} (c : M A) (k : A -> M B) :
  maintains P c -> (forall a, maintains P (k a)) -> maintains P (bind c k).
Proof.
  intros Hc Hk st Hst. unfold bind. specialize (Hc st Hst).
  destruct (c st) as [[e | a] st1]; simpl in *; [exact Hc | now apply Hk].
Qed.

Lemma maintains_try_except {A} (body : M A) (handler : exn -> M A) :
  maintains P body -> (forall e, maintains P (handler e)) ->
  maintains P (try_except body handler).
Proof.
  intros Hb Hh st Hst. unfold try_except. specialize (Hb st Hst).
  destruct (body st) as [[e | a] st1]; simpl in *; [now apply Hh | exact Hb].
Qed.

Lemma maintains_try_except_APIError {A} (body handler : M A) :
  maintains P body -> maintains P handler ->
  maintains P (try_except_APIError body handler).
Proof.
  intros Hb Hh st Hst. unfold try_except_APIError. specialize (Hb st Hst).
  destruct (body st) as [[e | a] st1]; simpl in *; [|exact Hb].
  destruct (is_APIError e); [now apply Hh | exact Hb].
Qed.

Lemma maintains_make_request (self : Client) (method endpoint : string)
    (kwargs : dict) :
  maintains P (_make_request session_request self method endpoint kwargs).
Proof. intros st Hst. rewrite make_request_run. now apply P_sent. Qed.

Lemma maintains_for_each {A B} (f : A -> M B) (l : list A) :
  (forall a, maintains P (f a)) -> maintains P (Py.for_each f l).
Proof.
  intros Hf. induction l as [|x l IH]; simpl.
  - apply maintains_ret.
  - apply maintains_bind; [apply Hf | intros y].
    apply maintains_bind; [exact IH | intros ys; apply maintains_ret].
Qed.

Lemma maintains_py_get (v : json) (k : string) (d : json) :
  maintains P (Py.get v k d).
Proof. apply maintains_same. intros st. now destruct v. Qed.

Lemma maintains_py_iter (v : json) : maintains P (Py.iter v).
Proof. apply maintains_same. intros st. now destruct v. Qed.

Lemma maintains_py_item0 (v : json) : maintains P (Py.item0 v).
Proof.
  apply maintains_same. intros st.
  destruct v as [| | | | [|] | [|] |]; reflexivity.
Qed.

Lemma maintains_py_add1 (v : json) : maintains P (Py.add1 v).
Proof. apply maintains_same. intros st. now destruct v. Qed.

End Maintaining.

Ltac maintains_step :=
  first
    [ assumption
    | apply maintains_ret
    | apply maintains_raise
    | apply maintains_lift
    | apply maintains_make_request; assumption
    | apply maintains_py_get
    | apply maintains_py_iter
    | apply maintains_py_item0
    | apply maintains_py_add1
    | apply maintains_for_each; intros
    | match goal with
      | H : forall line, maintains _ (logger_error line)
        |- maintains _ (logger_error _) => apply H
      | |- maintains _ (try_except_APIError _ _) =>
          apply maintains_try_except_APIError
      | |- maintains _ (try_except _ _) => apply maintains_try_except; [|intros]
      | |- maintains _ (bind _ _) => apply maintains_bind; [|intros]
      | |- maintains _ (if ?b then _ else _) => destruct b
      | |- maintains _ (match ?x with _ => _ end) => destruct x
      end
    | progress cbv zeta ].

Ltac unfold_clients :=
  unfold JiraClient_get_issue, JiraClient_search_issues,
    JiraClient_create_issue, JiraClient_update_issue, JiraClient_delete_issue,
    JiraClient_add_comment, JiraClient_get_transitions,
    JiraClient_transition_issue, JiraClient_get_projects, JiraClient_get_user,
    ConfluenceClient_search_content, ConfluenceClient_get_page,
    ConfluenceClient_get_page_by_title, ConfluenceClient_get_page_children,
    ConfluenceClient_create_page, ConfluenceClient_update_page,
    ConfluenceClient_delete_page, ConfluenceClient_get_page_comments,
    ConfluenceClient_add_comment,
    ConfluenceClient_add_page_label, ConfluenceClient_get_page_labels,
    simplify_hit, simplify_written_page, get2,
    get, post, put, delete.

Ltac unfold_tools :=
  unfold JiraTools_get_issue, JiraTools_search_issues, JiraTools_create_issue,
    JiraTools_update_issue, JiraTools_delete_issue, JiraTools_add_comment,
    JiraTools_get_transitions, JiraTools_transition_issue,
    JiraTools_get_projects, JiraTools_get_user_profile,
    ConfluenceTools_search, ConfluenceTools_get_page,
    ConfluenceTools_create_page,
    ConfluenceTools_update_page, ConfluenceTools_delete_page,
    ConfluenceTools_add_comment, ConfluenceTools_get_page_children,
    ConfluenceTools_get_page_labels, ConfluenceTools_add_page_label.

Section MaintainedByCalls.

Variable session_request : list Request -> Request -> Outcome.
Variable json_dumps : json -> nat -> bool -> string.
Variable environ : string -> option string.
Variable P : process -> Prop.
Hypothesis P_sent : forall r st, P st -> P (record_sent r st).

(** What sending maintains, every method of the two clients maintains. *)
Lemma run_JiraCall_maintains (c : Client) (call : JiraCall) :
  maintains P (run_JiraCall session_request c call).
Proof.
  destruct call; cbn [run_JiraCall]; unfold_clients; repeat maintains_step.
Qed.

Lemma run_ConfluenceCall_maintains (c : Client) (call : ConfluenceCall) :
  maintains P (run_ConfluenceCall session_request c call).
Proof.
  destruct call; cbn [run_ConfluenceCall]; unfold_clients; repeat maintains_step.
Qed.

(** What sending, logging and the tool's own [_get_client] maintain, every
    method of the tool maintains. *)
Lemma jira_tool_maintains (op : ToolOp) :
  (forall line, maintains P (logger_error line)) ->
  maintains P (JiraTools__get_client environ) ->
  is_jira_op op = true ->
  maintains P (run_tool session_request json_dumps environ op).
Proof.
  intros P_log P_get Hop.
  destruct op; try discriminate Hop; cbn [run_tool];
    unfold_tools; unfold_clients; repeat maintains_step.
Qed.

Lemma confluence_tool_maintains (op : ToolOp) :
  (forall line, maintains P (logger_error line)) ->
  maintains P (ConfluenceTools__get_client environ) ->
  is_jira_op op = false ->
  maintains P (run_tool session_request json_dumps environ op).
Proof.
  intros P_log P_get Hop.
  destruct op; try discriminate Hop; cbn [run_tool];
    unfold_tools; unfold_clients; repeat maintains_step.
Qed.

End MaintainedByCalls.

(** ** The two tool objects and their clients *)

Section ClientsOfTools.

Variable session_request : list Request -> Request -> Outcome.
Variable json_dumps : json -> nat -> bool -> string.
Variable environ : string -> option string.

Lemma jira_get_client_leaves_confluence (x : option Client) :
  maintains (fun s => confluence_client s = x) (JiraTools__get_client environ).
Proof.
  intros st Hst. unfold JiraTools__get_client.
  destruct (jira_client st); [exact Hst|].
  destruct (negb _); [exact Hst|].
  unfold bind, lift. destruct (JiraClient_init _); exact Hst.
Qed.

Lemma confluence_get_client_leaves_jira (x : option Client) :
  maintains (fun s => jira_client s = x) (ConfluenceTools__get_client environ).
Proof.
  intros st Hst. unfold ConfluenceTools__get_client.
  destruct (confluence_client st); [exact Hst|].
  destruct (negb _); [exact Hst|].
  unfold bind, lift. destruct (ConfluenceClient_init _); exact Hst.
Qed.

Lemma jira_get_client_keeps_memo (c : Client) :
  maintains (fun s => jira_client s = Some c) (JiraTools__get_client environ).
Proof.
  intros st Hst. unfold JiraTools__get_client. now rewrite Hst.
Qed.

Lemma confluence_get_client_keeps_memo (c : Client) :
  maintains (fun s => confluence_client s = Some c)
    (ConfluenceTools__get_client environ).
Proof.
  intros st Hst. unfold ConfluenceTools__get_client. now rewrite Hst.
Qed.

(** The client of one tool is out of reach of the other tool's methods. *)
Lemma other_client_untouched (op : ToolOp) (st : process) :
  if is_jira_op op
  then confluence_client (snd (run_tool session_request json_dumps environ op st))
       = confluence_client st
  else jira_client (snd (run_tool session_request json_dumps environ op st))
       = jira_client st.
Proof.
  destruct (is_jira_op op) eqn:Hop.
  - apply (@jira_tool_maintains session_request json_dumps environ
             (fun s => confluence_client s = confluence_client st)); auto.
    + intros line s Hs. exact Hs.
    + apply jira_get_client_leaves_confluence.
  - apply (@confluence_tool_maintains session_request json_dumps environ
             (fun s => jira_client s = jira_client st)); auto.
    + intros line s Hs. exact Hs.
    + apply confluence_get_client_leaves_jira.
Qed.

(** A tool that holds a client holds the same client after any of its
    methods. *)
Lemma own_client_kept (op : ToolOp) (st : process) (c : Client) :
  tool_client op st = Some c ->
  tool_client op (snd (run_tool session_request json_dumps environ op st)) = Some c.
Proof.
  unfold tool_client. destruct (is_jira_op op) eqn:Hop; intros Hc.
  - apply (@jira_tool_maintains session_request json_dumps environ
             (fun s => jira_client s = Some c)); auto.
    + intros line s Hs. exact Hs.
    + apply jira_get_client_keeps_memo.
  - apply (@confluence_tool_maintains session_request json_dumps environ
             (fun s => confluence_client s = Some c)); auto.
    + intros line s Hs. exact Hs.
    + apply confluence_get_client_keeps_memo.
Qed.

End ClientsOfTools.

(** X1: a method of the Jira tools never changes the client of the
    Confluence tools, and a method of the Confluence tools never changes
    the client of the Jira tools. *)
Theorem tools_do_not_share_clients
    (session_request : list Request -> Request -> Outcome)
    (json_dumps : json -> nat -> bool -> string)
    (environ : string -> option string) (op : ToolOp) (st : process) :
  if is_jira_op op
  then confluence_client (snd (run_tool session_request json_dumps environ op st))
       = confluence_client st
  else jira_client (snd (run_tool session_request json_dumps environ op st))
       = jira_client st.
Proof. apply other_client_untouched. Qed.

(** X2: once a tool object holds a client, every later call of any tool
    method, whatever the server answers, leaves both tools with the
    clients they hold: a memoized client is never dropped nor replaced. *)
Theorem memoized_clients_are_kept
    (session_request : list Request -> Request -> Outcome)
    (json_dumps : json -> nat -> bool -> string)
    (environ : string -> option string) (op : ToolOp) (st : process) :
  (forall c, jira_client st = Some c ->
             jira_client (snd (run_tool session_request json_dumps environ op st))
             = Some c)
  /\ (forall c, confluence_client st = Some c ->
                confluence_client
                  (snd (run_tool session_request json_dumps environ op st))
                = Some c).
Proof.
  pose proof (other_client_untouched session_request json_dumps environ op st)
    as Hother.
  pose proof (@own_client_kept session_request json_dumps environ op st) as Hown.
  unfold tool_client in Hown.
  destruct (is_jira_op op); split; intros c Hc.
  - now apply Hown.
  - now rewrite Hother.
  - now rewrite Hother.
  - now apply Hown.
Qed.

Lemma memoized_clients_are_kept_witness :
  jira_client
    (snd (run_tool (Sample.always (ConnectionFailed "down")) Sample.blank_dumps
            Sample.no_environ (Confluence_delete_page "42") Sample.warm))
  = Some Sample.client_cloud.
Proof.
  apply (proj1 (memoized_clients_are_kept
                  (Sample.always (ConnectionFailed "down")) Sample.blank_dumps
                  Sample.no_environ (Confluence_delete_page "42") Sample.warm)).
  reflexivity.
Defined.

(** ** Choosing the way to authenticate *)

Lemma truthy_some (o : option string) :
  truthy o = true -> exists s, o = Some s /\ s <> EmptyString.
Proof.
  destruct o as [[|c s]|]; simpl; try discriminate.
  intros _. eexists. split; [reflexivity | discriminate].
Qed.

(** X3: [_setup_auth] on a new session. With an OAuth token the session
    gets the bearer header and no basic credentials, even when a user name
    and a secret are there too; otherwise, with a user name and a secret,
    it gets basic credentials whose secret is the API token when there is
    one and the password when not, and no [Authorization] header;
    otherwise the constructor raises [AuthenticationError]. *)
Theorem setup_auth_selects_mode (cfg : Config) :
  (oauth_present cfg ->
   exists tok,
     oauth_token cfg = Some tok
     /\ BaseAtlassianClient_init cfg
        = inr {| auth := None;
                 headers := [("Authorization", "Bearer " ++ tok);
                             ("Accept", "application/json");
                             ("Content-Type", "application/json")] |})
  /\ (~ oauth_present cfg -> basic_present cfg ->
      BaseAtlassianClient_init cfg
      = inr {| auth := Some (BasicAuth (username cfg)
                               (if truthy (token cfg) then token cfg
                                else password cfg));
               headers := [("Accept", "application/json");
                           ("Content-Type", "application/json")] |})
  /\ (~ oauth_present cfg -> ~ basic_present cfg ->
      BaseAtlassianClient_init cfg
      = inl (AuthenticationError "No valid authentication method configured")).
Proof.
  unfold oauth_present, basic_present, BaseAtlassianClient_init, _setup_auth.
  split; [|split].
  - intros Ho. rewrite Ho. destruct (truthy_some _ Ho) as [tok [E _]].
    exists tok. split; [exact E|]. rewrite E. reflexivity.
  - intros Ho [Hu Hs]. apply not_true_is_false in Ho. rewrite Ho, Hu.
    assert (Hps : truthy (password cfg) || truthy (token cfg) = true)
      by (destruct Hs as [-> | ->]; [reflexivity | apply orb_true_r]).
    rewrite Hps. reflexivity.
  - intros Ho Hb. apply not_true_is_false in Ho. rewrite Ho.
    destruct (truthy (username cfg)) eqn:Hu; [|reflexivity].
    destruct (truthy (password cfg)) eqn:Hp;
      [exfalso; apply Hb; auto|].
    destruct (truthy (token cfg)) eqn:Ht;
      [exfalso; apply Hb; auto | reflexivity].
Qed.

Lemma setup_auth_selects_mode_witness :
  exists tok,
    oauth_token Sample.cfg_both = Some tok
    /\ BaseAtlassianClient_init Sample.cfg_both
       = inr {| auth := None;
                headers := [("Authorization", "Bearer " ++ tok);
                            ("Accept", "application/json");
                            ("Content-Type", "application/json")] |}.
Proof.
  apply (proj1 (setup_auth_selects_mode Sample.cfg_both)). reflexivity.
Defined.

Lemma configured_can_authenticate (cfg : Config) :
  is_auth_configured cfg = true -> exists s, BaseAtlassianClient_init cfg = inr s.
Proof.
  unfold is_auth_configured, BaseAtlassianClient_init, _setup_auth.
  destruct (truthy_str (url cfg)), (truthy (username cfg)),
    (truthy (password cfg)), (truthy (token cfg)), (truthy (oauth_token cfg));
    simpl; try discriminate; intros _; eexists; reflexivity.
Qed.

(** X4: [_get_client] of either tool builds its client on the first call
    and not again. Without a client and with a configured environment it
    builds one from the environment, stores it and sends nothing; without
    a client and without a configured environment it raises
    [AuthenticationError] and stores nothing; and once it has returned a
    client it returns that client from then on, whatever the environment
    has become. *)
Theorem get_client_builds_once (environ : string -> option string) (st : process) :
  ((jira_client st = None ->
    is_auth_configured (JiraConfig_from_env environ) = true ->
    exists c st1,
      JiraTools__get_client environ st = (inr c, st1)
      /\ config c = JiraConfig_from_env environ
      /\ jira_client st1 = Some c
      /\ confluence_client st1 = confluence_client st
      /\ sent st1 = sent st /\ logged st1 = logged st)
   /\ (jira_client st = None ->
       is_auth_configured (JiraConfig_from_env environ) = false ->
       exists msg,
         JiraTools__get_client environ st = (inl (AuthenticationError msg), st))
   /\ (forall c st1 environ',
          JiraTools__get_client environ st = (inr c, st1) ->
          JiraTools__get_client environ' st1 = (inr c, st1)))
  /\ ((confluence_client st = None ->
       is_auth_configured (ConfluenceConfig_from_env environ) = true ->
       exists c st1,
         ConfluenceTools__get_client environ st = (inr c, st1)
         /\ config c = ConfluenceConfig_from_env environ
         /\ confluence_client st1 = Some c
         /\ jira_client st1 = jira_client st
         /\ sent st1 = sent st /\ logged st1 = logged st)
      /\ (confluence_client st = None ->
          is_auth_configured (ConfluenceConfig_from_env environ) = false ->
          exists msg,
            ConfluenceTools__get_client environ st
            = (inl (AuthenticationError msg), st))
      /\ (forall c st1 environ',
             ConfluenceTools__get_client environ st = (inr c, st1) ->
             ConfluenceTools__get_client environ' st1 = (inr c, st1))).
Proof.
  split; (split; [|split]).
  - intros Hn Ha. unfold JiraTools__get_client. rewrite Hn, Ha. cbn [negb].
    destruct (configured_can_authenticate _ Ha) as [s Hs].
    unfold bind, lift, JiraClient_init. rewrite Hs. cbn.
    eexists; eexists; split; [reflexivity|]. repeat split.
  - intros Hn Ha. eexists. now apply jira_get_client_unconfigured.
  - intros c st1 environ' H.
    destruct (jira_get_client_sent _ _ H) as [_ Hc].
    unfold JiraTools__get_client. now rewrite Hc.
  - intros Hn Ha. unfold ConfluenceTools__get_client. rewrite Hn, Ha. cbn [negb].
    destruct (configured_can_authenticate _ Ha) as [s Hs].
    unfold bind, lift, ConfluenceClient_init. rewrite Hs. cbn.
    eexists; eexists; split; [reflexivity|]. repeat split.
  - intros Hn Ha. eexists. now apply confluence_get_client_unconfigured.
  - intros c st1 environ' H.
    destruct (confluence_get_client_sent _ _ H) as [_ Hc].
    unfold ConfluenceTools__get_client. now rewrite Hc.
Qed.

Lemma get_client_builds_once_witness :
  exists c st1,
    JiraTools__get_client
      (fun k => if String.eqb k "JIRA_URL" then Some Sample.base
                else if String.eqb k "ATLASSIAN_OAUTH_TOKEN" then Some "o"
                else None)
      process_start = (inr c, st1)
    /\ config c = Sample.cfg_cloud
    /\ jira_client st1 = Some c
    /\ confluence_client st1 = None
    /\ sent st1 = [] /\ logged st1 = [].
Proof.
  apply (proj1 (proj1 (get_client_builds_once
                         (fun k => if String.eqb k "JIRA_URL" then Some Sample.base
                                   else if String.eqb k "ATLASSIAN_OAUTH_TOKEN"
                                        then Some "o"
                                        else None)
                         process_start))); reflexivity.
Defined.

(** ** How many requests a call makes *)

Lemma quiet_lift {A} (r : exn + A) : quiet (lift r).
Proof. intros st. reflexivity. Qed.

Lemma quiet_item0 (v : json) : quiet (Py.item0 v).
Proof. intros st. destruct v as [| | | | [|] | [|] |]; reflexivity. Qed.

Lemma quiet_add1 (v : json) : quiet (Py.add1 v).
Proof. intros st. now destruct v. Qed.

Lemma quiet_jira_get_client (environ : string -> option string) :
  quiet (JiraTools__get_client environ).
Proof.
  intros st. unfold JiraTools__get_client.
  destruct (jira_client st); [reflexivity|].
  destruct (negb _); [reflexivity|].
  unfold bind, lift. destruct (JiraClient_init _); reflexivity.
Qed.

Lemma quiet_confluence_get_client (environ : string -> option string) :
  quiet (ConfluenceTools__get_client environ).
Proof.
  intros st. unfold ConfluenceTools__get_client.
  destruct (confluence_client st); [reflexivity|].
  destruct (negb _); [reflexivity|].
  unfold bind, lift. destruct (ConfluenceClient_init _); reflexivity.
Qed.

Ltac quiet_tac :=
  repeat first
    [ apply quiet_ret
    | apply quiet_raise
    | apply quiet_lift
    | apply quiet_get
    | apply quiet_iter
    | apply quiet_item0
    | apply quiet_add1
    | apply quiet_jira_get_client
    | apply quiet_confluence_get_client
    | apply quiet_after_log
    | apply quiet_for_each; intros
    | match goal with
      | |- quiet (bind _ _) => apply quiet_bind; [|intros]
      | |- quiet (if ?b then _ else _) => destruct b
      | |- quiet (match ?x with _ => _ end) => destruct x
      end
    | progress cbv zeta ].

Section Planning.

Variable session_request : list Request -> Request -> Outcome.

Lemma follows_quiet {A} (plan : list string) (m : M A) : quiet m -> follows plan m.
Proof.
  intros Hq st. exists [], plan. now rewrite Hq, app_nil_r.
Qed.

Lemma sends_one_make_request (self : Client) (verb endpoint : string)
    (kwargs : dict) :
  sends_one verb (_make_request session_request self verb endpoint kwargs).
Proof.
  intros st. rewrite make_request_run. eexists. split; reflexivity.
Qed.

Lemma follows_make_request (rest : list string) (self : Client)
    (verb endpoint : string) (kwargs : dict) :
  follows (verb :: rest)
    (_make_request session_request self verb endpoint kwargs).
Proof.
  intros st. rewrite make_request_run. eexists; exists rest.
  split; reflexivity.
Qed.

Lemma follows_bind_quiet {A B} (plan : list string) (c : M A) (k : A -> M B) :
  quiet c -> (forall a, follows plan (k a)) -> follows plan (bind c k).
Proof.
  intros Hc Hk st. unfold bind. specialize (Hc st).
  destruct (c st) as [[e | a] st1]; simpl in *.
  - exists [], plan. now rewrite Hc, app_nil_r.
  - destruct (Hk a st1) as [reqs [rest [H1 H2]]]. exists reqs, rest.
    now rewrite H1, Hc.
Qed.

(** After a request that is made in any case, the rest of the plan: when
    the request fails nothing more is sent. *)
Lemma follows_bind_step {A B} (verb : string) (plan : list string)
    (c : M A) (k : A -> M B) :
  sends_one verb c -> (forall a, follows plan (k a)) ->
  follows (verb :: plan) (bind c k).
Proof.
  intros Hc Hk st. unfold bind. destruct (Hc st) as [r [H1 Hr]].
  destruct (c st) as [[e | a] st1]; simpl in *.
  - exists [r], plan. split; [exact H1|]. simpl. now rewrite Hr.
  - destruct (Hk a st1) as [reqs [rest [H2 H3]]]. exists (r :: reqs), rest.
    rewrite H2, H1, <- app_assoc. split; [reflexivity|].
    simpl. now rewrite Hr, H3.
Qed.

Lemma follows_bind_then_quiet {A B} (plan : list string) (c : M A)
    (k : A -> M B) :
  follows plan c -> (forall a, quiet (k a)) -> follows plan (bind c k).
Proof.
  intros Hc Hk st. destruct (Hc st) as [reqs [rest [H1 H2]]]. exists reqs, rest.
  rewrite sent_bind_quiet by exact Hk. now split.
Qed.

Lemma follows_try_except {A} (plan : list string) (body : M A)
    (handler : exn -> M A) :
  follows plan body -> (forall e, quiet (handler e)) ->
  follows plan (try_except body handler).
Proof.
  intros Hb Hh st. destruct (Hb st) as [reqs [rest [H1 H2]]]. exists reqs, rest.
  rewrite sent_try_except by exact Hh. now split.
Qed.

Lemma follows_try_except_APIError {A} (plan : list string) (body handler : M A) :
  follows plan body -> quiet handler ->
  follows plan (try_except_APIError body handler).
Proof.
  intros Hb Hh st. destruct (Hb st) as [reqs [rest [H1 H2]]]. exists reqs, rest.
  split; [|exact H2]. unfold try_except_APIError.
  destruct (body st) as [[e | a] st1]; simpl in *; [|exact H1].
  destruct (is_APIError e); simpl; [now rewrite Hh | exact H1].
Qed.

End Planning.

Ltac follows_step :=
  first
    [ solve [apply follows_quiet; quiet_tac]
    | apply follows_make_request
    | match goal with
      | |- follows _ (try_except_APIError _ _) =>
          apply follows_try_except_APIError; [|solve [quiet_tac]]
      | |- follows _ (try_except _ _) =>
          apply follows_try_except; [|intros; apply quiet_after_log]
      | |- follows _ (bind _ _) =>
          first [ apply follows_bind_quiet; [solve [quiet_tac] | intros]
                | apply follows_bind_then_quiet; [|intros; solve [quiet_tac]]
                | apply follows_bind_step;
                  [apply sends_one_make_request | intros] ]
      | |- follows _ (if ?b then _ else _) => destruct b
      | |- follows _ (match ?x with _ => _ end) => destruct x
      end
    | progress cbv zeta ].

(** Every tool method follows its plan. *)
Lemma run_tool_follows_plan
    (session_request : list Request -> Request -> Outcome)
    (json_dumps : json -> nat -> bool -> string)
    (environ : string -> option string) (op : ToolOp) :
  follows (request_plan op) (run_tool session_request json_dumps environ op).
Proof.
  destruct op; cbn [request_plan run_tool]; unfold_tools; unfold_clients;
    repeat follows_step.
Qed.

(** X5: a call of a tool method only adds to the requests already sent,
    and adds at most two: at most one for the methods that make one
    request, at most two for [update_issue], [transition_issue],
    [update_page] and [add_page_label]. The verbs of the requests added
    are the first verbs of the plan of the method, in its order ([PUT]
    then [GET] for [update_issue], [POST] then [GET] for
    [transition_issue] and [add_page_label], [GET] then [PUT] for
    [update_page]); no verb comes twice in a plan, so no request is
    repeated, after a failure or otherwise. *)
Theorem tools_send_within_budget
    (session_request : list Request -> Request -> Outcome)
    (json_dumps : json -> nat -> bool -> string)
    (environ : string -> option string) (op : ToolOp) (st : process) :
  exists reqs rest,
    sent (snd (run_tool session_request json_dumps environ op st))
    = (sent st ++ reqs)%list
    /\ (List.length reqs <= request_budget op)%nat
    /\ (request_budget op <= 2)%nat
    /\ request_plan op = (map method reqs ++ rest)%list
    /\ NoDup (request_plan op)
    /\ NoDup (map method reqs).
Proof.
  destruct (run_tool_follows_plan session_request json_dumps environ op st)
    as [reqs [rest [H1 H2]]].
  assert (Hplan : NoDup (request_plan op)).
  { destruct op; cbn [request_plan];
      repeat (constructor; [simpl; intuition discriminate|]); constructor. }
  assert (Hlen : List.length (request_plan op) = request_budget op)
    by (destruct op; reflexivity).
  exists reqs, rest. split; [exact H1|]. split; [|split; [|split; [|split]]].
  - rewrite <- Hlen, H2, length_app, length_map. lia.
  - destruct op; simpl; lia.
  - exact H2.
  - exact Hplan.
  - rewrite H2 in Hplan. apply NoDup_app_remove_r in Hplan. exact Hplan.
Qed.

(** ** What a call logs *)

Section Logging.

Variable session_request : list Request -> Request -> Outcome.
Variable json_dumps : json -> nat -> bool -> string.
Variable environ : string -> option string.




End Logging.





(** ** Calls that stop at the first failure *)

Lemma try_except_with_client {A B} (g : M A) (k : A -> M B) (h : exn -> M B)
    (st0 st : process) (c : A) :
  g st0 = (inr c, st) ->
  try_except (bind g k) h st0 = try_except (k c) h st.
Proof. intros H. unfold try_except, bind. now rewrite H. Qed.

Lemma response_outcome_auth (r : Response) :
  status_code r = 401 \/ status_code r = 403 ->
  exists m, response_outcome (Answered r) = inl (AuthenticationError m).
Proof.
  intros H. cbn.
  assert (Hs : 400 <= status_code r < 600) by lia.
  apply raise_for_status_iff in Hs. destruct Hs as [e ->].
  destruct H as [-> | ->]; cbn; eauto.
Qed.

(** X7: a 401 or a 403 on the [DELETE] is not swallowed like an
    [APIError]: the client's [delete_issue] and [delete_page] raise the
    [AuthenticationError], and the tools report it in an envelope that
    carries its text and the key that was asked for. *)
Theorem delete_reports_authentication_errors
    (session_request : list Request -> Request -> Outcome)
    (json_dumps : json -> nat -> bool -> string)
    (environ : string -> option string)
    (c : Client) (key : string) (st0 st : process) (r : Response) :
  let issue_req := {| via := session c; method := "DELETE";
                      request_url := request_url_of (url (config c))
                                       (api_base c ++ "/issue/" ++ key);
                      kwargs := [] |} in
  let page_req := {| via := session c; method := "DELETE";
                     request_url := request_url_of (url (config c))
                                      (api_base c ++ "/content/" ++ key);
                     kwargs := [] |} in
  status_code r = 401 \/ status_code r = 403 ->
  (session_request (sent st) issue_req = Answered r ->
   exists m,
     JiraClient_delete_issue session_request c key st
     = (inl (AuthenticationError m), record_sent issue_req st)
     /\ (JiraTools__get_client environ st0 = (inr c, st) ->
         fst (JiraTools_delete_issue session_request json_dumps environ key st0)
         = inr (json_dumps
                  (JObj [("error", JStr ("Failed to delete issue " ++ key ++ ": "
                                         ++ m));
                         ("issue_key", JStr key)])
                  2%nat true)))
  /\ (session_request (sent st) page_req = Answered r ->
      exists m,
        ConfluenceClient_delete_page session_request c key st
        = (inl (AuthenticationError m), record_sent page_req st)
        /\ (ConfluenceTools__get_client environ st0 = (inr c, st) ->
            fst (ConfluenceTools_delete_page session_request json_dumps environ
                   key st0)
            = inr (json_dumps
                     (JObj [("success", JBool false);
                            ("error", JStr m);
                            ("page_id", JStr key)])
                     2%nat true))).
Proof.
  intros issue_req page_req Hs.
  destruct (response_outcome_auth r Hs) as [m Hm].
  split; intros Hr; exists m.
  - assert (Hd : JiraClient_delete_issue session_request c key st
                 = (inl (AuthenticationError m), record_sent issue_req st)).
    { unfold JiraClient_delete_issue. rewrite guarded_delete_run.
      unfold delete. rewrite make_request_run. fold issue_req.
      rewrite Hr, Hm. reflexivity. }
    split; [exact Hd|]. intros Hc.
    unfold JiraTools_delete_issue.
    erewrite try_except_with_client by exact Hc.
    unfold try_except. erewrite bind_inl by exact Hd. reflexivity.
  - assert (Hd : ConfluenceClient_delete_page session_request c key st
                 = (inl (AuthenticationError m), record_sent page_req st)).
    { unfold ConfluenceClient_delete_page. rewrite guarded_delete_run.
      unfold delete. rewrite make_request_run. fold page_req.
      rewrite Hr, Hm. reflexivity. }
    split; [exact Hd|]. intros Hc.
    unfold ConfluenceTools_delete_page.
    erewrite try_except_with_client by exact Hc.
    unfold try_except. erewrite bind_inl by exact Hd. reflexivity.
Qed.

Lemma delete_reports_authentication_errors_witness :
  exists m,
    JiraClient_delete_issue
      (Sample.always (Answered (Sample.response 403 "no" (inl "not JSON"))))
      Sample.client_cloud "ABC-1" Sample.warm
    = (inl (AuthenticationError m),
       record_sent
         {| via := session Sample.client_cloud; method := "DELETE";
            request_url := request_url_of (url (config Sample.client_cloud))
                             (api_base Sample.client_cloud ++ "/issue/" ++ "ABC-1");
            kwargs := [] |}
         Sample.warm)
    /\ (JiraTools__get_client Sample.no_environ Sample.warm
        = (inr Sample.client_cloud, Sample.warm) ->
        fst (JiraTools_delete_issue
               (Sample.always (Answered (Sample.response 403 "no" (inl "not JSON"))))
               Sample.blank_dumps Sample.no_environ "ABC-1" Sample.warm)
        = inr (Sample.blank_dumps
                 (JObj [("error", JStr ("Failed to delete issue " ++ "ABC-1" ++ ": "
                                        ++ m));
                        ("issue_key", JStr "ABC-1")])
                 2%nat true)).
Proof.
  refine (proj1 (@delete_reports_authentication_errors
                   (Sample.always
                      (Answered (Sample.response 403 "no" (inl "not JSON"))))
                   Sample.blank_dumps Sample.no_environ Sample.client_cloud
                   "ABC-1" Sample.warm Sample.warm
                   (Sample.response 403 "no" (inl "not JSON")) _) _).
  - right. reflexivity.
  - reflexivity.
Defined.

Section UpdateIssue.

Variable session_request : list Request -> Request -> Outcome.
Variable json_dumps : json -> nat -> bool -> string.
Variable environ : string -> option string.

Lemma client_update_issue_run (c : Client) (key : string) (fields : json)
    (st : process) :
  let req := {| via := session c; method := "PUT";
                request_url := request_url_of (url (config c))
                                 (api_base c ++ "/issue/" ++ key);
                kwargs := [("json", JObj [("fields", fields)])] |} in
  JiraClient_update_issue session_request c key fields st
  = (response_outcome (session_request (sent st) req), record_sent req st).
Proof.
  unfold JiraClient_update_issue, put. rewrite make_request_run. reflexivity.
Qed.

Lemma client_get_issue_plain_run (c : Client) (key : string) (st : process) :
  let req := {| via := session c; method := "GET";
                request_url := request_url_of (url (config c))
                                 (api_base c ++ "/issue/" ++ key);
                kwargs := [("params", JObj [])] |} in
  JiraClient_get_issue session_request c key None None st
  = (response_outcome (session_request (sent st) req), record_sent req st).
Proof.
  unfold JiraClient_get_issue, get. rewrite make_request_run. reflexivity.
Qed.

End UpdateIssue.

(** X8: the tool's [update_issue] sends a [PUT] with the fields under
    [fields]; when the [PUT] fails it stops there and reports the error
    with the issue key; when the [PUT] succeeds it sends one [GET] for the
    issue, without field filter, and what it returns is the issue that the
    [GET] brought, not the answer to the [PUT]. *)
Theorem update_issue_refetches
    (session_request : list Request -> Request -> Outcome)
    (json_dumps : json -> nat -> bool -> string)
    (environ : string -> option string)
    (c : Client) (key : string) (fields : json) (st0 st : process) :
  let endpoint := request_url_of (url (config c)) (api_base c ++ "/issue/" ++ key) in
  let put_req := {| via := session c; method := "PUT"; request_url := endpoint;
                    kwargs := [("json", JObj [("fields", fields)])] |} in
  let get_req := {| via := session c; method := "GET"; request_url := endpoint;
                    kwargs := [("params", JObj [])] |} in
  let run := JiraTools_update_issue session_request json_dumps environ key fields
               st0 in
  let failure (e : exn) :=
    json_dumps
      (JObj [("error", JStr ("Failed to update issue " ++ key ++ ": " ++ str_exn e));
             ("issue_key", JStr key)])
      2%nat true in
  JiraTools__get_client environ st0 = (inr c, st) ->
  (forall e,
      response_outcome (session_request (sent st) put_req) = inl e ->
      fst run = inr (failure e) /\ sent (snd run) = (sent st0 ++ [put_req])%list)
  /\ (forall answer,
         response_outcome (session_request (sent st) put_req) = inr answer ->
         sent (snd run) = (sent st0 ++ [put_req; get_req])%list
         /\ (forall issue,
                response_outcome
                  (session_request (sent st ++ [put_req])%list get_req) = inr issue ->
                fst run
                = inr (json_dumps
                         (JObj [("message", JStr "Issue updated successfully");
                                ("issue", issue)])
                         2%nat false))
         /\ (forall e,
                response_outcome
                  (session_request (sent st ++ [put_req])%list get_req) = inl e ->
                fst run = inr (failure e))).
Proof.
  intros endpoint put_req get_req run failure Hc.
  destruct (jira_get_client_sent _ _ Hc) as [Hs _].
  pose proof (client_update_issue_run session_request c key fields st) as Hput.
  pose proof (client_get_issue_plain_run session_request c key
                (record_sent put_req st)) as Hget.
  cbv zeta in Hput, Hget. fold endpoint in Hput, Hget.
  fold put_req in Hput. fold get_req in Hget.
  subst run. unfold JiraTools_update_issue.
  erewrite try_except_with_client by exact Hc.
  unfold try_except. split.
  - intros e He. rewrite He in Hput.
    erewrite bind_inl by exact Hput. cbn. now rewrite Hs.
  - intros answer Ha. rewrite Ha in Hput.
    erewrite bind_inr by exact Hput. unfold bind. rewrite Hget.
    change (sent (record_sent put_req st)) with (sent st ++ [put_req])%list.
    destruct (response_outcome
                (session_request (sent st ++ [put_req])%list get_req))
      as [e | issue];
      (split; [cbn; rewrite Hs, <- app_assoc; reflexivity|]);
      split; intros x Hx; try discriminate Hx; injection Hx as <-; reflexivity.
Qed.

Lemma update_issue_refetches_witness :
  fst (JiraTools_update_issue (Sample.always (ConnectionFailed "down"))
         Sample.blank_dumps Sample.no_environ "ABC-1"
         (JObj [("summary", JStr "s")]) Sample.warm)
  = inr (Sample.blank_dumps
           (JObj [("error", JStr ("Failed to update issue " ++ "ABC-1" ++ ": "
                                  ++ "Network error: down"));
                  ("issue_key", JStr "ABC-1")])
           2%nat true)
  /\ List.length
       (sent (snd (JiraTools_update_issue (Sample.always (ConnectionFailed "down"))
                     Sample.blank_dumps Sample.no_environ "ABC-1"
                     (JObj [("summary", JStr "s")]) Sample.warm))) = 1%nat.
Proof.
  destruct (proj1 (@update_issue_refetches
                     (Sample.always (ConnectionFailed "down")) Sample.blank_dumps
                     Sample.no_environ Sample.client_cloud "ABC-1"
                     (JObj [("summary", JStr "s")]) Sample.warm Sample.warm
                     eq_refl)
              (APIError "Network error: down" None None) eq_refl) as [H1 H2].
  split; [exact H1 | now rewrite H2].
Defined.

(** ** What the requests carry *)


Section CreateIssue.

Variable session_request : list Request -> Request -> Outcome.
Variable json_dumps : json -> nat -> bool -> string.
Variable environ : string -> option string.


End CreateIssue.



(** X11: the one request of the client's [create_page] is a [POST] to
    [content] whose body is a page with the title, the space key and the
    content in storage representation; it carries one ancestor when a
    parent is given and no [ancestors] entry when the parent is absent or
    empty. *)
Theorem create_page_body
    (session_request : list Request -> Request -> Outcome)
    (c : Client) (space_key title content : string) (parent_id : option string)
    (st : process) :
  exists r body,
    ConfluenceClient_create_page session_request c space_key title content
      parent_id st
    = (response_outcome (session_request (sent st) r), record_sent r st)
    /\ method r = "POST"
    /\ request_url r = request_url_of (url (config c)) (api_base c ++ "/content")
    /\ json_body r = Some body
    /\ field body "type" = Some (JStr "page")
    /\ field body "title" = Some (JStr title)
    /\ path2 body "space" "key" = Some (JStr space_key)
    /\ path2 body "body" "storage"
       = Some (JObj [("value", JStr content); ("representation", JStr "storage")])
    /\ field body "ancestors"
       = (if truthy parent_id
          then Some (JList [JObj [("id", of_opt_str parent_id)]])
          else None).
Proof.
  unfold ConfluenceClient_create_page, post. rewrite make_request_run.
  destruct (truthy parent_id);
    (eexists; eexists; split; [reflexivity|]); repeat split.
Qed.

(** The client's [get_user] asks [user] with the parameter [accountId]
    on a cloud site and [username] elsewhere, and with nothing else. *)
Lemma get_user_parameter
    (session_request : list Request -> Request -> Outcome)
    (c : Client) (user_id : string) (st : process) :
  let r := {| via := session c; method := "GET";
              request_url := request_url_of (url (config c))
                               (api_base c ++ "/user");
              kwargs := [("params",
                          JObj [(if is_cloud (config c) then "accountId"
                                 else "username", JStr user_id)])] |} in
  JiraClient_get_user session_request c user_id st
  = (response_outcome (session_request (sent st) r), record_sent r st).
Proof.
  unfold JiraClient_get_user, get.
  destruct (is_cloud (config c)); rewrite make_request_run; reflexivity.
Qed.

(** ** Tolerant readers of the Jira and Confluence clients *)

(** X14: the client's [get_projects] sends one [GET] to [project] and
    returns the answer itself when the answer is a list, the empty list
    for any other answer (an empty body, read as an empty mapping,
    included), and raises what the [GET] raises. *)
Theorem get_projects_is_a_list
    (session_request : list Request -> Request -> Outcome)
    (c : Client) (st : process) :
  let r := {| via := session c; method := "GET";
              request_url := request_url_of (url (config c))
                               (api_base c ++ "/project");
              kwargs := [("params", JNull)] |} in
  snd (JiraClient_get_projects session_request c st) = record_sent r st
  /\ fst (JiraClient_get_projects session_request c st)
     = match response_outcome (session_request (sent st) r) with
       | inr (JList l) => inr (JList l)
       | inr _ => inr (JList [])
       | inl e => inl e
       end.
Proof.
  intros r. unfold JiraClient_get_projects, get, bind.
  rewrite make_request_run. fold r.
  destruct (response_outcome (session_request (sent st) r)) as [e | v];
    cbn; [now split|].
  split; [reflexivity|].
  destruct v; reflexivity.
Qed.

(** X15: when the answer to the client's [get_page_by_title] is a
    mapping, the result is the first of its [results] and nothing is made
    of the others; it is [None] when there are no [results] or when
    they are an empty list. *)
Theorem get_page_by_title_takes_first
    (session_request : list Request -> Request -> Outcome)
    (c : Client) (space_key title : string) (st : process) (d : dict) :
  let r := {| via := session c; method := "GET";
              request_url := request_url_of (url (config c))
                               (api_base c ++ "/content");
              kwargs := [("params",
                          JObj [("spaceKey", JStr space_key);
                                ("title", JStr title);
                                ("expand", JStr "body.storage,version,space")])] |} in
  response_outcome (session_request (sent st) r) = inr (JObj d) ->
  (forall first others,
      assoc_get "results" d = Some (JList (first :: others)) ->
      ConfluenceClient_get_page_by_title session_request c space_key title st
      = (inr first, record_sent r st))
  /\ (assoc_get "results" d = None \/ assoc_get "results" d = Some (JList []) ->
      ConfluenceClient_get_page_by_title session_request c space_key title st
      = (inr JNull, record_sent r st)).
Proof.
  intros r Hr. unfold ConfluenceClient_get_page_by_title, get, bind.
  rewrite make_request_run. fold r. rewrite Hr. cbn.
  split.
  - intros first others ->. reflexivity.
  - intros [-> | ->]; reflexivity.
Qed.

Lemma get_page_by_title_takes_first_witness :
  ConfluenceClient_get_page_by_title
    (Sample.always
       (Answered (Sample.response 200 "{..}"
                    (inr (JObj [("results",
                                 JList [Sample.page_v3;
                                        Sample.page_no_number])])))))
    Sample.confluence "DEV" "T" Sample.warm
  = (inr Sample.page_v3,
     record_sent
       {| via := session Sample.confluence; method := "GET";
          request_url := request_url_of (url (config Sample.confluence))
                           (api_base Sample.confluence ++ "/content");
          kwargs := [("params",
                      JObj [("spaceKey", JStr "DEV"); ("title", JStr "T");
                            ("expand", JStr "body.storage,version,space")])] |}
       Sample.warm).
Proof.
  apply (proj1 (@get_page_by_title_takes_first
                  (Sample.always
                     (Answered (Sample.response 200 "{..}"
                                  (inr (JObj [("results",
                                               JList [Sample.page_v3;
                                                      Sample.page_no_number])])))))
                  Sample.confluence "DEV" "T" Sample.warm
                  [("results", JList [Sample.page_v3; Sample.page_no_number])]
                  eq_refl)
           Sample.page_v3 [Sample.page_no_number] eq_refl).
Defined.

(** ** The projection of search hits and child pages *)

Lemma readable_hit_dec (v : json) : readable_hit v \/ ~ readable_hit v.
Proof.
  destruct v; try (right; intros H; exact H).
  unfold readable_hit, absent_or_mapping.
  destruct (assoc_get "space" d) as [[]|], (assoc_get "_links" d) as [[]|];
    first [ left; split; exact I | right; intros [H1 H2]; assumption ].
Qed.

Lemma simplify_hit_readable (v : json) (st : process) :
  readable_hit v -> simplify_hit v st = (inr (project_hit v), st).
Proof.
  destruct v; try contradiction. intros [Hs Hl].
  unfold simplify_hit, get2, project_hit, get2_or_null, get_or_null, bind.
  cbn [Py.get ret].
  destruct (assoc_get "space" d) as [[]|]; try contradiction;
    destruct (assoc_get "_links" d) as [[]|]; try contradiction; reflexivity.
Qed.

Lemma simplify_hit_unreadable (v : json) (st : process) :
  ~ readable_hit v ->
  exists m, simplify_hit v st = (inl (AttributeError m), st).
Proof.
  intros Hn. destruct v; try (eexists; reflexivity).
  unfold simplify_hit, get2, bind. cbn [Py.get ret].
  unfold readable_hit, absent_or_mapping in Hn.
  destruct (assoc_get "space" d) as [[]|]; try (eexists; reflexivity);
    destruct (assoc_get "_links" d) as [[]|]; try (eexists; reflexivity);
    exfalso; apply Hn; split; exact I.
Qed.

Lemma for_each_simplify_readable (hits : list json) (st : process) :
  Forall readable_hit hits ->
  Py.for_each simplify_hit hits st = (inr (map project_hit hits), st).
Proof.
  induction 1 as [|h hits Hh Hrest IH]; [reflexivity|].
  cbn [Py.for_each map]. unfold bind at 1.
  rewrite (simplify_hit_readable _ st Hh). unfold bind. now rewrite IH.
Qed.

Lemma for_each_simplify_unreadable (hits : list json) (st : process) :
  Exists (fun h => ~ readable_hit h) hits ->
  exists m, Py.for_each simplify_hit hits st = (inl (AttributeError m), st).
Proof.
  induction hits as [|h hits IH]; intros Hex; [inversion Hex|].
  cbn [Py.for_each]. unfold bind at 1.
  destruct (readable_hit_dec h) as [Hh | Hh].
  - rewrite (simplify_hit_readable _ st Hh).
    assert (Hrest : Exists (fun h => ~ readable_hit h) hits)
      by (inversion Hex; [contradiction | assumption]).
    destruct (IH Hrest) as [m Hm]. exists m. unfold bind. now rewrite Hm.
  - destruct (simplify_hit_unreadable h st Hh) as [m Hm]. exists m.
    now rewrite Hm.
Qed.

(** X16: [search] of the Confluence tools, when the answer is a mapping
    whose [results] are a list. The [GET] carries the caller's [limit] and
    [start] unchanged. When every hit is a mapping whose [space] and
    [_links] are mappings or missing, the tool returns the six-field
    projection of every hit, in the order of the answer; when one hit is
    not, the tool returns no hit at all but one error envelope with the
    query. *)
Theorem search_projects_every_hit
    (session_request : list Request -> Request -> Outcome)
    (json_dumps : json -> nat -> bool -> string)
    (environ : string -> option string)
    (c : Client) (query : string) (limit start : Z) (st0 st : process)
    (d : dict) (hits : list json) :
  let cql := if truthy_str query
                && negb (existsb (fun x => py_in x query) cql_tokens)
             then "siteSearch ~ " ++ dq ++ query ++ dq else query in
  let r := {| via := session c; method := "GET";
              request_url := request_url_of (url (config c))
                               (api_base c ++ "/search");
              kwargs := [("params",
                          JObj [("cql", JStr cql); ("limit", JNum limit);
                                ("start", JNum start);
                                ("expand", JStr "version,space,body.storage")])] |} in
  let run := ConfluenceTools_search session_request json_dumps environ query
               limit start st0 in
  ConfluenceTools__get_client environ st0 = (inr c, st) ->
  response_outcome (session_request (sent st) r) = inr (JObj d) ->
  assoc_get "results" d = Some (JList hits) ->
  (Forall readable_hit hits ->
   run = (inr (json_dumps (JList (map project_hit hits)) 2%nat false),
          record_sent r st))
  /\ (Exists (fun h => ~ readable_hit h) hits ->
      exists m,
        fst run
        = inr (json_dumps
                 (JObj [("error", JStr ("Failed to search Confluence: " ++ m));
                        ("query", JStr query)])
                 2%nat true)
        /\ sent (snd run) = (sent st ++ [r])%list).
Proof.
  intros cql r run Hc Hr Hres. subst run.
  assert (Hrun :
            forall h : exn -> M string,
              try_except
                (client <- ConfluenceTools__get_client environ ;;
                 search_result <- ConfluenceClient_search_content session_request
                                    client cql limit start ;;
                 results <- Py.get search_result "results" (JList []) ;;
                 items <- Py.iter results ;;
                 simplified_results <- Py.for_each simplify_hit items ;;
                 ret (json_dumps (JList simplified_results) 2%nat false))
                h st0
              = try_except
                  (simplified_results <- Py.for_each simplify_hit hits ;;
                   ret (json_dumps (JList simplified_results) 2%nat false))
                  h (record_sent r st)).
  { intros h. erewrite try_except_with_client by exact Hc.
    unfold try_except.
    erewrite bind_inr
      by (unfold ConfluenceClient_search_content, get;
          rewrite make_request_run; fold r; rewrite Hr; reflexivity).
    erewrite bind_inr by (cbn [Py.get]; rewrite Hres; reflexivity).
    erewrite bind_inr by reflexivity.
    reflexivity. }
  unfold ConfluenceTools_search. cbv zeta. fold cql. rewrite Hrun.
  unfold try_except, bind. split.
  - intros Hall. now rewrite (for_each_simplify_readable _ Hall).
  - intros Hex.
    destruct (for_each_simplify_unreadable (record_sent r st) Hex) as [m Hm].
    exists m. rewrite Hm. split; reflexivity.
Qed.

Lemma search_projects_every_hit_witness :
  ConfluenceTools_search
    (Sample.always
       (Answered (Sample.response 200 "{..}"
                    (inr (JObj [("results", JList [Sample.page_v3])])))))
    Sample.blank_dumps Sample.no_environ "hello" 25 0 Sample.warm
  = (inr (Sample.blank_dumps (JList (map project_hit [Sample.page_v3]))
            2%nat false),
     record_sent
       {| via := session Sample.confluence; method := "GET";
          request_url := request_url_of (url (config Sample.confluence))
                           (api_base Sample.confluence ++ "/search");
          kwargs := [("params",
                      JObj [("cql", JStr ("siteSearch ~ " ++ dq ++ "hello" ++ dq));
                            ("limit", JNum 25); ("start", JNum 0);
                            ("expand", JStr "version,space,body.storage")])] |}
       Sample.warm).
Proof.
  apply (proj1 (@search_projects_every_hit
                  (Sample.always
                     (Answered (Sample.response 200 "{..}"
                                  (inr (JObj [("results",
                                               JList [Sample.page_v3])])))))
                  Sample.blank_dumps Sample.no_environ Sample.confluence "hello"
                  25 0 Sample.warm Sample.warm
                  [("results", JList [Sample.page_v3])] [Sample.page_v3]
                  eq_refl eq_refl eq_refl)).
  repeat constructor.
Defined.

(** X17: [get_page_children] of the Confluence tools, when the answer is
    a mapping whose [results] are a list of readable pages: the tool
    returns the parent id, the projection of every child in the order of
    the answer, and a [count] that is the number of children in the
    answer. *)
Theorem get_page_children_counts
    (session_request : list Request -> Request -> Outcome)
    (json_dumps : json -> nat -> bool -> string)
    (environ : string -> option string)
    (c : Client) (parent_id : string) (limit start : Z) (st0 st : process)
    (d : dict) (children : list json) :
  let r := {| via := session c; method := "GET";
              request_url := request_url_of (url (config c))
                               (api_base c ++ "/content/" ++ parent_id
                                ++ "/child/page");
              kwargs := [("params",
                          JObj [("limit", JNum limit); ("start", JNum start);
                                ("expand", JStr "version,space")])] |} in
  ConfluenceTools__get_client environ st0 = (inr c, st) ->
  response_outcome (session_request (sent st) r) = inr (JObj d) ->
  assoc_get "results" d = Some (JList children) ->
  Forall readable_hit children ->
  ConfluenceTools_get_page_children session_request json_dumps environ parent_id
    limit start st0
  = (inr (json_dumps
            (JObj [("parent_id", JStr parent_id);
                   ("count", JNum (Z.of_nat (List.length children)));
                   ("results", JList (map project_hit children))])
            2%nat false),
     record_sent r st).
Proof.
  intros r Hc Hr Hres Hall.
  unfold ConfluenceTools_get_page_children.
  erewrite try_except_with_client by exact Hc.
  unfold try_except, ConfluenceClient_get_page_children, get.
  unfold bind at 1. unfold bind at 1. cbn [truthy assoc_set String.eqb Ascii.eqb
                                            Bool.eqb].
  rewrite make_request_run. fold r. rewrite Hr.
  cbn [Py.get ret]. rewrite Hres.
  unfold bind at 1. cbn [Py.iter ret]. unfold bind.
  rewrite (for_each_simplify_readable _ Hall). cbn [ret].
  now rewrite length_map.
Qed.

Lemma get_page_children_counts_witness :
  fst (ConfluenceTools_get_page_children
         (Sample.always
            (Answered (Sample.response 200 "{..}"
                         (inr (JObj [("results",
                                      JList [Sample.page_v3;
                                             Sample.page_no_number])])))))
         Sample.blank_dumps Sample.no_environ "7" 25 0 Sample.warm)
  = inr (Sample.blank_dumps
           (JObj [("parent_id", JStr "7"); ("count", JNum 2);
                  ("results",
                   JList (map project_hit
                            [Sample.page_v3; Sample.page_no_number]))])
           2%nat false).
Proof.
  rewrite (@get_page_children_counts
             (Sample.always
                (Answered (Sample.response 200 "{..}"
                             (inr (JObj [("results",
                                          JList [Sample.page_v3;
                                                 Sample.page_no_number])])))))
             Sample.blank_dumps Sample.no_environ Sample.confluence "7" 25 0
             Sample.warm Sample.warm
             [("results", JList [Sample.page_v3; Sample.page_no_number])]
             [Sample.page_v3; Sample.page_no_number] eq_refl eq_refl eq_refl).
  - reflexivity.
  - repeat constructor.
Defined.

(** ** The arguments of [get_page] *)

(** X18: [get_page] of the Confluence tools, once it has its client.
    Without a page id and without both a title and a space key it sends
    nothing, logs nothing and returns the error that asks for them; with a
    page id it sends one [GET] for that id, whatever title and space key
    come with it; with a title and a space key only, when the answer has
    no [results] or an empty list of them, it returns the error that the
    page was not found, and logs nothing. *)
Theorem get_page_argument_rules
    (session_request : list Request -> Request -> Outcome)
    (json_dumps : json -> nat -> bool -> string)
    (environ : string -> option string)
    (c : Client) (page_id title space_key : option string) (st0 st : process) :
  let by_id := {| via := session c; method := "GET";
                  request_url := request_url_of (url (config c))
                                   (api_base c ++ "/content/" ++ fmt_opt page_id);
                  kwargs := [("params",
                              JObj [("expand",
                                     JStr "body.storage,version,space")])] |} in
  let by_title := {| via := session c; method := "GET";
                     request_url := request_url_of (url (config c))
                                      (api_base c ++ "/content");
                     kwargs := [("params",
                                 JObj [("spaceKey", JStr (fmt_opt space_key));
                                       ("title", JStr (fmt_opt title));
                                       ("expand",
                                        JStr "body.storage,version,space")])] |} in
  let run := ConfluenceTools_get_page session_request json_dumps environ page_id
               title space_key st0 in
  ConfluenceTools__get_client environ st0 = (inr c, st) ->
  (truthy page_id = false -> truthy title && truthy space_key = false ->
   run = (inr (json_dumps
                 (JObj [("error",
                         JStr "Either 'page_id' OR both 'title' and 'space_key' must be provided")])
                 2%nat true),
          st))
  /\ (truthy page_id = true -> sent (snd run) = (sent st ++ [by_id])%list)
  /\ (truthy page_id = false -> truthy title && truthy space_key = true ->
      forall d,
        response_outcome (session_request (sent st) by_title) = inr (JObj d) ->
        assoc_get "results" d = None \/ assoc_get "results" d = Some (JList []) ->
        run = (inr (json_dumps
                      (JObj [("error",
                              JStr ("Page with title '" ++ fmt_opt title
                                    ++ "' not found in space '"
                                    ++ fmt_opt space_key ++ "'"))])
                      2%nat true),
               record_sent by_title st)).
Proof.
  intros by_id by_title run Hc. subst run. unfold ConfluenceTools_get_page.
  erewrite try_except_with_client by exact Hc.
  split; [|split].
  - intros Hp Ht. rewrite Hp, Ht. reflexivity.
  - intros Hp. rewrite Hp.
    rewrite sent_try_except by (intros e; apply quiet_after_log).
    rewrite sent_bind_quiet
      by (intros [early | page_data]; unfold get2; quiet_tac).
    rewrite sent_bind_quiet by (intros a; apply quiet_ret).
    unfold ConfluenceClient_get_page, get. rewrite make_request_run. reflexivity.
  - intros Hp Ht d Hr Hres. rewrite Hp, Ht. unfold try_except.
    assert (Hfetch :
              ConfluenceClient_get_page_by_title session_request c
                (fmt_opt space_key) (fmt_opt title) st
              = (inr JNull, record_sent by_title st)).
    { unfold ConfluenceClient_get_page_by_title, get, bind.
      rewrite make_request_run. fold by_title. rewrite Hr. cbn.
      destruct Hres as [-> | ->]; reflexivity. }
    erewrite bind_inr
      by (erewrite bind_inr by exact Hfetch; reflexivity).
    reflexivity.
Qed.

Lemma get_page_argument_rules_witness :
  ConfluenceTools_get_page (Sample.always (ConnectionFailed "down"))
    Sample.blank_dumps Sample.no_environ None (Some "T") None Sample.warm
  = (inr (Sample.blank_dumps
            (JObj [("error",
                    JStr "Either 'page_id' OR both 'title' and 'space_key' must be provided")])
            2%nat true),
     Sample.warm).
Proof.
  apply (proj1 (@get_page_argument_rules
                  (Sample.always (ConnectionFailed "down")) Sample.blank_dumps
                  Sample.no_environ Sample.confluence None (Some "T") None
                  Sample.warm Sample.warm eq_refl)); reflexivity.
Defined.

(** ** Updates that stop before the [PUT] *)

Lemma add1_unusable (v : json) (st : process) :
  unusable_number v -> exists m, Py.add1 v st = (inl (TypeError m), st).
Proof. destruct v; try contradiction; intros _; eexists; reflexivity. Qed.

Lemma update_page_unusable
    (session_request : list Request -> Request -> Outcome)
    (c : Client) (page_id title content : string) (v : json)
    (parent_id : option string) (st : process) :
  unusable_number v ->
  exists m,
    ConfluenceClient_update_page session_request c page_id title content v
      parent_id st = (inl (TypeError m), st).
Proof.
  intros Hv. destruct (add1_unusable v st Hv) as [m Hm]. exists m.
  unfold ConfluenceClient_update_page. now erewrite bind_inl by exact Hm.
Qed.

Lemma get2_not_a_mapping (d : dict) (k1 k2 : string) (default v : json)
    (st : process) :
  assoc_get k1 d = Some v -> (forall d', v <> JObj d') ->
  exists m, get2 (JObj d) k1 k2 default st = (inl (AttributeError m), st).
Proof.
  intros Hk Hv. unfold get2, bind. cbn [Py.get ret]. rewrite Hk.
  destruct v; try (eexists; reflexivity). exfalso. now apply (Hv d0).
Qed.

(** X19: [update_page] of the Confluence tools sends no [PUT] when it
    cannot take the current version from the page it fetched. When the
    [GET] fails, when the page's [version] is there but is not a mapping,
    or when [version.number] is a string, a list, a mapping or null, the
    [GET] is the only request and the tool returns an error envelope with
    the page id. *)
Theorem update_page_stops_without_version
    (session_request : list Request -> Request -> Outcome)
    (json_dumps : json -> nat -> bool -> string)
    (environ : string -> option string)
    (c : Client) (page_id title content : string) (parent_id : option string)
    (st0 st st2 : process) :
  let run := ConfluenceTools_update_page session_request json_dumps environ
               page_id title content parent_id st0 in
  let failure (m : string) :=
    json_dumps
      (JObj [("error", JStr ("Failed to update page " ++ page_id ++ ": " ++ m));
             ("page_id", JStr page_id)])
      2%nat true in
  ConfluenceTools__get_client environ st0 = (inr c, st) ->
  (forall e,
      ConfluenceClient_get_page session_request c page_id None st = (inl e, st2) ->
      fst run = inr (failure (str_exn e)) /\ sent (snd run) = sent st2)
  /\ (forall page,
         ConfluenceClient_get_page session_request c page_id None st
         = (inr page, st2) ->
         (forall d v,
             page = JObj d -> assoc_get "version" d = Some v ->
             (forall d', v <> JObj d') ->
             exists m, fst run = inr (failure m) /\ sent (snd run) = sent st2)
         /\ (forall v,
                path2 page "version" "number" = Some v -> unusable_number v ->
                exists m, fst run = inr (failure m) /\ sent (snd run) = sent st2)).
Proof.
  intros run failure Hc. subst run. unfold ConfluenceTools_update_page.
  erewrite try_except_with_client by exact Hc. unfold try_except.
  split.
  - intros e Hg. erewrite bind_inl by exact Hg. split; reflexivity.
  - intros page Hg. erewrite bind_inr by exact Hg. split.
    + intros d v -> Hv Hn.
      destruct (@get2_not_a_mapping d "version" "number" (JNum 0) v st2 Hv Hn)
        as [m Hm].
      exists m. erewrite bind_inl by exact Hm. split; reflexivity.
    + intros v Hp Hu.
      erewrite bind_inr by (apply get2_present; exact Hp).
      destruct (@update_page_unusable session_request c page_id title content v
                  parent_id st2 Hu) as [m Hm].
      exists m. erewrite bind_inl by exact Hm. split; reflexivity.
Qed.

Lemma update_page_stops_without_version_witness :
  exists m,
    fst (ConfluenceTools_update_page
           (Sample.always
              (Answered (Sample.response 200 "{..}"
                           (inr (JObj [("version",
                                        JObj [("number", JStr "3")])])))))
           Sample.blank_dumps Sample.no_environ "42" "T" "<p>x</p>" None
           Sample.warm)
    = inr (Sample.blank_dumps
             (JObj [("error", JStr ("Failed to update page " ++ "42" ++ ": " ++ m));
                    ("page_id", JStr "42")])
             2%nat true)
    /\ List.length
         (sent (snd (ConfluenceTools_update_page
                       (Sample.always
                          (Answered (Sample.response 200 "{..}"
                                       (inr (JObj [("version",
                                                    JObj [("number",
                                                           JStr "3")])])))))
                       Sample.blank_dumps Sample.no_environ "42" "T" "<p>x</p>"
                       None Sample.warm))) = 1%nat.
Proof.
  destruct (proj2 (proj2 (@update_page_stops_without_version
                            (Sample.always
                               (Answered (Sample.response 200 "{..}"
                                            (inr (JObj [("version",
                                                         JObj [("number",
                                                                JStr "3")])])))))
                            Sample.blank_dumps Sample.no_environ Sample.confluence
                            "42" "T" "<p>x</p>" None Sample.warm Sample.warm
                            (snd (ConfluenceClient_get_page
                                    (Sample.always
                                       (Answered
                                          (Sample.response 200 "{..}"
                                             (inr (JObj [("version",
                                                          JObj [("number",
                                                                 JStr "3")])])))))
                                    Sample.confluence "42" None Sample.warm))
                            eq_refl)
                     (JObj [("version", JObj [("number", JStr "3")])]) eq_refl)
              (JStr "3") eq_refl I) as [m [H1 H2]].
  exists m. split; [exact H1 | now rewrite H2].
Defined.

(** ** A configuration without a URL *)

(** X20: a missing [JIRA_URL] or [CONFLUENCE_URL] gives an empty URL,
    not an error, when the configuration is read; the configuration is
    then not configured whatever credentials the environment holds, and in
    every state that calls of the tools lead to from the start of the
    process every method of that tool sends nothing and answers with the
    error envelope of a missing authentication. *)
Theorem url_is_required
    (session_request : list Request -> Request -> Outcome)
    (json_dumps : json -> nat -> bool -> string)
    (environ : string -> option string) (op : ToolOp) (st : process) :
  (environ "JIRA_URL" = None -> url (JiraConfig_from_env environ) = EmptyString)
  /\ (environ "CONFLUENCE_URL" = None ->
      url (ConfluenceConfig_from_env environ) = EmptyString)
  /\ (url (tool_config environ op) = EmptyString ->
      is_auth_configured (tool_config environ op) = false
      /\ is_cloud (tool_config environ op) = false
      /\ (reachable session_request json_dumps environ st ->
          exists out st',
            run_tool session_request json_dumps environ op st = (inr out, st')
            /\ error_envelope_mentioning json_dumps "authentication" out
            /\ sent st' = sent st)).
Proof.
  split; [|split].
  - intros H. cbn. unfold environ_get_default. now rewrite H.
  - intros H. cbn. unfold environ_get_default. now rewrite H.
  - intros Hu.
    assert (Ha : is_auth_configured (tool_config environ op) = false)
      by (unfold is_auth_configured; now rewrite Hu).
    split; [exact Ha|]. split; [unfold is_cloud; now rewrite Hu|].
    intros Hr.
    pose proof (@reachable_unconfigured_has_no_client session_request json_dumps
                  environ st op Hr Ha) as Hc.
    destruct (@run_tool_unconfigured session_request json_dumps environ op st
                Ha Hc) as [out [st' [H1 [H2 [_ H3]]]]].
    now exists out, st'.
Qed.

Lemma url_is_required_witness :
  is_auth_configured
    (tool_config
       (fun k => if String.eqb k "ATLASSIAN_OAUTH_TOKEN" then Some "o" else None)
       Jira_get_projects) = false.
Proof.
  apply (proj2 (proj2 (url_is_required
                         (Sample.always (ConnectionFailed "down"))
                         Sample.blank_dumps
                         (fun k => if String.eqb k "ATLASSIAN_OAUTH_TOKEN"
                                   then Some "o" else None)
                         Jira_get_projects process_start))).
  reflexivity.
Defined.

(** ** The session and the paths of a client *)

Section RequestsOfAClient.

Variable session_request : list Request -> Request -> Outcome.

Lemma sent_since_start (st : process) (Q : Request -> Prop) : sent_since st Q st.
Proof. exists []. now rewrite app_nil_r. Qed.

Lemma maintains_make_request_such (st : process) (Q : Request -> Prop)
    (c : Client) (method endpoint : string) (kwargs : dict) :
  Q {| via := session c; method := method;
       request_url := request_url_of (url (config c)) endpoint;
       kwargs := kwargs |} ->
  maintains (sent_since st Q)
    (_make_request session_request c method endpoint kwargs).
Proof.
  intros HQ s [reqs [H1 H2]]. rewrite make_request_run. cbn [snd].
  eexists (reqs ++ [_])%list. cbn. rewrite H1, <- app_assoc. split; [reflexivity|].
  apply Forall_app. split; [exact H2 | now constructor].
Qed.

End RequestsOfAClient.

Ltac client_requests :=
  repeat first
    [ apply maintains_make_request_such;
      split; [reflexivity | eexists; cbn; reflexivity]
    | maintains_step ].

(** X21: every request that a method of either client sends goes out
    through the session that [_setup_auth] made when the client was built,
    and, for the Confluence client, to a path under [rest/api], on a cloud
    site and elsewhere alike. *)
Theorem requests_use_the_session_of_the_client
    (session_request : list Request -> Request -> Outcome)
    (cfg : Config) (c : Client) (st : process) :
  (JiraClient_init cfg = inr c ->
   BaseAtlassianClient_init cfg = inr (session c)
   /\ forall call,
       sent_since st (fun r => via r = session c)
         (snd (run_JiraCall session_request c call st)))
  /\ (ConfluenceClient_init cfg = inr c ->
      BaseAtlassianClient_init cfg = inr (session c)
      /\ api_base c = "rest/api"
      /\ forall call,
          sent_since st
            (fun r => via r = session c
                      /\ exists rest,
                          request_url r
                          = rstrip_slash (url cfg) ++ "/rest/api/" ++ rest)
            (snd (run_ConfluenceCall session_request c call st))).
Proof.
  split.
  - unfold JiraClient_init.
    destruct (BaseAtlassianClient_init cfg) as [e | s]; [discriminate|].
    intros H. injection H as <-. split; [reflexivity|]. intros call.
    assert (Hm : maintains
                   (sent_since st
                      (fun r => via r
                                = session
                                    {| config := cfg; session := s;
                                       api_base := if is_cloud cfg
                                                   then "rest/api/3"
                                                   else "rest/api/2" |}))
                   (run_JiraCall session_request
                      {| config := cfg; session := s;
                         api_base := if is_cloud cfg then "rest/api/3"
                                     else "rest/api/2" |} call)).
    { destruct call; cbn [run_JiraCall]; unfold_clients;
        repeat first [ apply maintains_make_request_such; reflexivity
                     | maintains_step ]. }
    apply Hm. apply sent_since_start.
  - unfold ConfluenceClient_init.
    destruct (BaseAtlassianClient_init cfg) as [e | s]; [discriminate|].
    intros H. injection H as <-. split; [reflexivity|]. split; [reflexivity|].
    intros call.
    set (c := {| config := cfg; session := s; api_base := "rest/api" |}).
    assert (Hm : maintains
                   (sent_since st
                      (fun r => via r = session c
                                /\ exists rest,
                                    request_url r
                                    = request_url_of (url (config c))
                                        (api_base c ++ "/" ++ rest)))
                   (run_ConfluenceCall session_request c call)).
    { destruct call; cbn [run_ConfluenceCall]; unfold_clients; client_requests. }
    exact (Hm st (sent_since_start st _)).
Qed.

Lemma requests_use_the_session_of_the_client_witness :
  sent_since Sample.warm
    (fun r => via r = Sample.bearer
              /\ exists rest,
                  request_url r
                  = rstrip_slash Sample.base ++ "/rest/api/" ++ rest)
    (snd (run_ConfluenceCall (Sample.always (ConnectionFailed "down"))
            Sample.confluence (CCall_add_page_label "42" "x") Sample.warm)).
Proof.
  apply (proj2 (proj2 (proj2 (requests_use_the_session_of_the_client
                                (Sample.always (ConnectionFailed "down"))
                                Sample.cfg_cloud Sample.confluence Sample.warm)
                         eq_refl))).
Defined.

(** ** Labels, and the readers that return a list *)

(** X22: the client's [add_page_label] posts a one-element list with the
    label under the prefix [global]; when the [POST] fails it raises that
    error and asks nothing more; when the [POST] succeeds it asks for the
    labels of the page, and what it returns is the [results] of that
    second answer (an empty list when the answer has none), not the answer
    to the [POST]. *)
Theorem add_page_label_refetches
    (session_request : list Request -> Request -> Outcome)
    (c : Client) (page_id label_name : string) (st : process) :
  let endpoint := request_url_of (url (config c))
                    (api_base c ++ "/content/" ++ page_id ++ "/label") in
  let post_req :=
    {| via := session c; method := "POST"; request_url := endpoint;
       kwargs := [("json",
                   JList [JObj [("prefix", JStr "global");
                                ("name", JStr label_name)]])] |} in
  let get_req := {| via := session c; method := "GET"; request_url := endpoint;
                    kwargs := [("params", JNull)] |} in
  let run := ConfluenceClient_add_page_label session_request c page_id label_name
               st in
  (forall e,
      response_outcome (session_request (sent st) post_req) = inl e ->
      run = (inl e, record_sent post_req st))
  /\ (forall answer,
         response_outcome (session_request (sent st) post_req) = inr answer ->
         snd run = record_sent get_req (record_sent post_req st)
         /\ (forall d,
                response_outcome
                  (session_request (sent st ++ [post_req])%list get_req)
                = inr (JObj d) ->
                fst run = inr (match assoc_get "results" d with
                               | Some labels => labels
                               | None => JList []
                               end))
         /\ (forall e,
                response_outcome
                  (session_request (sent st ++ [post_req])%list get_req) = inl e ->
                fst run = inl e)).
Proof.
  intros endpoint post_req get_req run. subst run.
  assert (Hpost : post session_request c
                    (api_base c ++ "/content/" ++ page_id ++ "/label") JNull
                    (JList [JObj [("prefix", JStr "global");
                                  ("name", JStr label_name)]]) st
                  = (response_outcome (session_request (sent st) post_req),
                     record_sent post_req st))
    by (unfold post; rewrite make_request_run; reflexivity).
  assert (Hget : get session_request c
                   (api_base c ++ "/content/" ++ page_id ++ "/label") JNull
                   (record_sent post_req st)
                 = (response_outcome
                      (session_request (sent st ++ [post_req])%list get_req),
                    record_sent get_req (record_sent post_req st)))
    by (unfold get; rewrite make_request_run; reflexivity).
  unfold ConfluenceClient_add_page_label, ConfluenceClient_get_page_labels.
  split.
  - intros e He. rewrite He in Hpost. now erewrite bind_inl by exact Hpost.
  - intros answer Ha. rewrite Ha in Hpost.
    erewrite bind_inr by exact Hpost. unfold bind. rewrite Hget.
    destruct (response_outcome
                (session_request (sent st ++ [post_req])%list get_req))
      as [e | v].
    + split; [reflexivity|].
      split; intros x Hx; [discriminate | injection Hx as <-; reflexivity].
    + split; [now destruct v|].
      split; intros x Hx; [|discriminate]. injection Hx as ->. reflexivity.
Qed.

Lemma add_page_label_refetches_witness :
  ConfluenceClient_add_page_label (Sample.always (ConnectionFailed "down"))
    Sample.confluence "42" "x" Sample.warm
  = (inl (APIError "Network error: down" None None),
     record_sent
       {| via := session Sample.confluence; method := "POST";
          request_url := request_url_of (url (config Sample.confluence))
                           (api_base Sample.confluence ++ "/content/" ++ "42"
                            ++ "/label");
          kwargs := [("json",
                      JList [JObj [("prefix", JStr "global");
                                   ("name", JStr "x")]])] |}
       Sample.warm).
Proof.
  apply (proj1 (add_page_label_refetches
                  (Sample.always (ConnectionFailed "down")) Sample.confluence
                  "42" "x" Sample.warm)).
  reflexivity.
Defined.

Lemma list_reader_run
    (session_request : list Request -> Request -> Outcome)
    (c : Client) (endpoint k : string) (params : json) (st : process) :
  let r := {| via := session c; method := "GET";
              request_url := request_url_of (url (config c)) endpoint;
              kwargs := [("params", params)] |} in
  let m := (result <- get session_request c endpoint params ;;
            Py.get result k (JList [])) in
  snd (m st) = record_sent r st
  /\ (forall d,
         response_outcome (session_request (sent st) r) = inr (JObj d) ->
         fst (m st) = inr (match assoc_get k d with
                           | Some v => v
                           | None => JList []
                           end))
  /\ (forall v,
         response_outcome (session_request (sent st) r) = inr v ->
         (forall d, v <> JObj d) ->
         exists msg, fst (m st) = inl (AttributeError msg))
  /\ (forall e,
         response_outcome (session_request (sent st) r) = inl e ->
         fst (m st) = inl e).
Proof.
  intros r m. subst m. unfold get, bind. rewrite make_request_run. fold r.
  destruct (response_outcome (session_request (sent st) r)) as [e | v].
  - split; [reflexivity|]. split; [intros d H; discriminate|].
    split; [intros v H; discriminate|].
    intros e' H. injection H as <-. reflexivity.
  - split; [now destruct v|]. split; [|split].
    + intros d H. injection H as ->. reflexivity.
    + intros v' H Hn. injection H as <-.
      destruct v; try (eexists; reflexivity). exfalso. now apply (Hn d).
    + intros e H. discriminate.
Qed.

(** X23: the four readers that take a list out of the answer
    ([get_transitions] of the Jira client; [get_page_children],
    [get_page_comments] and [get_page_labels] of the Confluence client)
    return what the answer holds under the key, and an empty list when a
    mapping answer, an empty body included, has no such key; unlike
    [get_projects] they raise [AttributeError] when the answer is not a
    mapping. *)
Theorem list_readers_default_to_empty
    (session_request : list Request -> Request -> Outcome)
    (c : Client) (key : string) (limit start : Z) (st : process) :
  let reader (m : M json) (k : string) (r : Request) :=
    snd (m st) = record_sent r st
    /\ (forall d,
           response_outcome (session_request (sent st) r) = inr (JObj d) ->
           fst (m st) = inr (match assoc_get k d with
                             | Some v => v
                             | None => JList []
                             end))
    /\ (forall v,
           response_outcome (session_request (sent st) r) = inr v ->
           (forall d, v <> JObj d) ->
           exists msg, fst (m st) = inl (AttributeError msg))
    /\ (forall e,
           response_outcome (session_request (sent st) r) = inl e ->
           fst (m st) = inl e) in
  reader (JiraClient_get_transitions session_request c key) "transitions"
    {| via := session c; method := "GET";
       request_url := request_url_of (url (config c))
                        (api_base c ++ "/issue/" ++ key ++ "/transitions");
       kwargs := [("params", JNull)] |}
  /\ reader (ConfluenceClient_get_page_children session_request c key limit start
               None) "results"
       {| via := session c; method := "GET";
          request_url := request_url_of (url (config c))
                           (api_base c ++ "/content/" ++ key ++ "/child/page");
          kwargs := [("params",
                      JObj [("limit", JNum limit); ("start", JNum start);
                            ("expand", JStr "version,space")])] |}
  /\ reader (ConfluenceClient_get_page_comments session_request c key) "results"
       {| via := session c; method := "GET";
          request_url := request_url_of (url (config c))
                           (api_base c ++ "/content/" ++ key ++ "/child/comment");
          kwargs := [("params",
                      JObj [("expand", JStr "body.storage,version")])] |}
  /\ reader (ConfluenceClient_get_page_labels session_request c key) "results"
       {| via := session c; method := "GET";
          request_url := request_url_of (url (config c))
                           (api_base c ++ "/content/" ++ key ++ "/label");
          kwargs := [("params", JNull)] |}.
Proof.
  intros reader. subst reader. cbv beta.
  split; [|split; [|split]].
  - apply (list_reader_run session_request c
             (api_base c ++ "/issue/" ++ key ++ "/transitions") "transitions"
             JNull st).
  - apply (list_reader_run session_request c
             (api_base c ++ "/content/" ++ key ++ "/child/page") "results"
             (JObj [("limit", JNum limit); ("start", JNum start);
                    ("expand", JStr "version,space")]) st).
  - apply (list_reader_run session_request c
             (api_base c ++ "/content/" ++ key ++ "/child/comment") "results"
             (JObj [("expand", JStr "body.storage,version")]) st).
  - apply (list_reader_run session_request c
             (api_base c ++ "/content/" ++ key ++ "/label") "results" JNull st).
Qed.

Lemma list_readers_default_to_empty_witness :
  fst (ConfluenceClient_get_page_labels
         (Sample.always
            (Answered (Sample.response 204 EmptyString (inl "no body"))))
         Sample.confluence "42" Sample.warm)
  = inr (JList []).
Proof.
  apply (proj1 (proj2 (proj2 (proj2 (proj2
           (list_readers_default_to_empty
              (Sample.always
                 (Answered (Sample.response 204 EmptyString (inl "no body"))))
              Sample.confluence "42" 25 0 Sample.warm)))))
           []).
  reflexivity.
Defined.

(** ** Answers that pass through *)

(** X24: [get_issue] and [search_issues] of the Jira tools, once the tool
    has its client, send one request, and no other: a [GET] to the issue
    and a [POST] to [search], through the session of the client. They
    return the answer of the server as it came, serialized with an
    indentation of two and without escaping to ASCII; when the request
    fails they return an error envelope with the text of the error and
    the key or the query. *)
Theorem jira_reads_pass_the_answer_through
    (session_request : list Request -> Request -> Outcome)
    (json_dumps : json -> nat -> bool -> string)
    (environ : string -> option string)
    (c : Client) (st0 st : process) :
  JiraTools__get_client environ st0 = (inr c, st) ->
  (forall issue_key fields expand,
      exists r,
        sent (snd (JiraTools_get_issue session_request json_dumps environ
                     issue_key fields expand st0))
        = (sent st ++ [r])%list
        /\ snd (JiraClient_get_issue session_request c issue_key
                  (field_list_of fields) expand st) = record_sent r st
        /\ via r = session c
        /\ method r = "GET"
        /\ request_url r
           = request_url_of (url (config c)) (api_base c ++ "/issue/" ++ issue_key)
        /\ fst (JiraTools_get_issue session_request json_dumps environ issue_key
                  fields expand st0)
           = inr (match response_outcome (session_request (sent st) r) with
                  | inr answer => json_dumps answer 2%nat false
                  | inl e =>
                      json_dumps
                        (JObj [("error",
                                JStr ("Failed to get issue " ++ issue_key ++ ": "
                                      ++ str_exn e));
                               ("issue_key", JStr issue_key)])
                        2%nat true
                  end))
  /\ (forall jql fields start_at max_results,
         exists r,
           sent (snd (JiraTools_search_issues session_request json_dumps environ
                        jql fields start_at max_results st0))
           = (sent st ++ [r])%list
           /\ snd (JiraClient_search_issues session_request c jql
                     (field_list_of fields) start_at max_results st)
              = record_sent r st
           /\ via r = session c
           /\ method r = "POST"
           /\ request_url r
              = request_url_of (url (config c)) (api_base c ++ "/search")
           /\ fst (JiraTools_search_issues session_request json_dumps environ jql
                     fields start_at max_results st0)
              = inr (match response_outcome (session_request (sent st) r) with
                     | inr answer => json_dumps answer 2%nat false
                     | inl e =>
                         json_dumps
                           (JObj [("error",
                                   JStr ("Failed to search issues: "
                                         ++ str_exn e));
                                  ("jql", JStr jql)])
                           2%nat true
                     end)).
Proof.
  intros Hc. split.
  - intros issue_key fields expand. eexists.
    split; [|split; [|split; [|split; [|split]]]].
    + erewrite tool_get_issue_sent by exact Hc.
      unfold JiraClient_get_issue, get. rewrite make_request_run. reflexivity.
    + unfold JiraClient_get_issue, get. rewrite make_request_run. reflexivity.
    + reflexivity.
    + reflexivity.
    + reflexivity.
    + unfold JiraTools_get_issue.
      erewrite try_except_with_client by exact Hc. cbv zeta.
      unfold try_except, bind, JiraClient_get_issue, get.
      rewrite make_request_run.
      destruct (response_outcome _); reflexivity.
  - intros jql fields start_at max_results. eexists.
    split; [|split; [|split; [|split; [|split]]]].
    + erewrite tool_search_issues_sent by exact Hc.
      unfold JiraClient_search_issues, post. rewrite make_request_run.
      reflexivity.
    + unfold JiraClient_search_issues, post. rewrite make_request_run.
      reflexivity.
    + reflexivity.
    + reflexivity.
    + reflexivity.
    + unfold JiraTools_search_issues.
      erewrite try_except_with_client by exact Hc. cbv zeta.
      unfold try_except, bind, JiraClient_search_issues, post.
      rewrite make_request_run.
      destruct (response_outcome _); reflexivity.
Qed.

Lemma jira_reads_pass_the_answer_through_witness :
  exists r,
    sent (snd (JiraTools_get_issue
                 (Sample.always
                    (Answered (Sample.response 200 "{..}" (inr Sample.page_v3))))
                 Sample.blank_dumps Sample.no_environ "ABC-1" None None
                 Sample.warm))
    = [r]
    /\ method r = "GET"
    /\ request_url r = "https://x.atlassian.net/rest/api/3/issue/ABC-1"
    /\ fst (JiraTools_get_issue
              (Sample.always
                 (Answered (Sample.response 200 "{..}" (inr Sample.page_v3))))
              Sample.blank_dumps Sample.no_environ "ABC-1" None None Sample.warm)
       = inr (match response_outcome
                      (Sample.always
                         (Answered (Sample.response 200 "{..}"
                                      (inr Sample.page_v3)))
                         (sent Sample.warm) r) with
              | inr answer => Sample.blank_dumps answer 2%nat false
              | inl e =>
                  Sample.blank_dumps
                    (JObj [("error",
                            JStr ("Failed to get issue " ++ "ABC-1" ++ ": "
                                  ++ str_exn e));
                           ("issue_key", JStr "ABC-1")])
                    2%nat true
              end).
Proof.
  destruct (proj1 (@jira_reads_pass_the_answer_through
                     (Sample.always
                        (Answered (Sample.response 200 "{..}"
                                     (inr Sample.page_v3))))
                     Sample.blank_dumps Sample.no_environ Sample.client_cloud
                     Sample.warm Sample.warm eq_refl)
              "ABC-1" None None) as [r [Hs [_ [_ [H1 [Hu H2]]]]]].
  exists r. split; [exact Hs|]. split; [exact H1|]. split; [exact Hu|exact H2].
Defined.

(** X12: [get_user_profile] of the Jira tools, once the tool has its
    client, asks [user] with the parameter [accountId] on a cloud site and
    [username] elsewhere; it wraps the answer in an envelope with
    [success] true, and a failure in an envelope with [success] false, the
    text of the error and the identifier that was asked for. *)
Theorem get_user_profile_envelopes
    (session_request : list Request -> Request -> Outcome)
    (json_dumps : json -> nat -> bool -> string)
    (environ : string -> option string)
    (c : Client) (user_identifier : string) (st0 st : process) :
  let r := {| via := session c; method := "GET";
              request_url := request_url_of (url (config c))
                               (api_base c ++ "/user");
              kwargs := [("params",
                          JObj [(if is_cloud (config c) then "accountId"
                                 else "username", JStr user_identifier)])] |} in
  let run := JiraTools_get_user_profile session_request json_dumps environ
               user_identifier st0 in
  JiraTools__get_client environ st0 = (inr c, st) ->
  sent (snd run) = (sent st ++ [r])%list
  /\ fst run
     = inr (match response_outcome (session_request (sent st) r) with
            | inr user =>
                json_dumps (JObj [("success", JBool true); ("user", user)])
                  2%nat false
            | inl e =>
                json_dumps
                  (JObj [("success", JBool false);
                         ("error", JStr (str_exn e));
                         ("user_identifier", JStr user_identifier)])
                  2%nat true
            end).
Proof.
  intros r run Hc. subst run. unfold JiraTools_get_user_profile.
  erewrite try_except_with_client by exact Hc.
  unfold try_except, bind.
  pose proof (get_user_parameter session_request c user_identifier st) as Hu.
  cbv zeta in Hu. fold r in Hu. rewrite Hu.
  destruct (response_outcome (session_request (sent st) r)); split; reflexivity.
Qed.

Lemma get_user_profile_envelopes_witness :
  fst (JiraTools_get_user_profile (Sample.always (ConnectionFailed "down"))
         Sample.blank_dumps Sample.no_environ "u1" Sample.warm)
  = inr (Sample.blank_dumps
           (JObj [("success", JBool false);
                  ("error", JStr "Network error: down");
                  ("user_identifier", JStr "u1")])
           2%nat true).
Proof.
  apply (proj2 (@get_user_profile_envelopes
                  (Sample.always (ConnectionFailed "down")) Sample.blank_dumps
                  Sample.no_environ Sample.client_cloud "u1" Sample.warm
                  Sample.warm eq_refl)).
Defined.
